(** * Saving and loading networks: the checkpoint writer and loader

    A shallow embedding of the notebook "Saving and Loading Models"
    (cells 4 to 13): the checkpoint dictionary built from the current
    model, [torch.save] / [torch.load] on the file system, the function
    [load_checkpoint], and the library calls they rest on
    ([nn.Linear], [Module.state_dict], [Module.load_state_dict]).

    Python objects are mutable; the embedding passes the mutated object
    back explicitly.  Exceptions are values of [exn]; the notebook's
    global variables, the files and the random generator form the
    [World] threaded through the [Cell] monad. *)

From Stdlib Require Import List String Ascii ZArith Lia Bool Arith.
From Stdlib Require Import DecimalString DecimalNat.
Import ListNotations.

Open Scope string_scope.
Open Scope Z_scope.

(** ** Tensors *)

(** A float32 value is kept as its 32-bit pattern, so that equality is
    bit-for-bit equality. *)
Definition float32 := Z.

(** [torch.Size]: the list of dimensions. *)
Definition Size := list Z.

Record Tensor := mkTensor { shape : Size; data : list float32 }.

Fixpoint Size_eqb (s1 s2 : Size) : bool :=
  match s1, s2 with
  | [], [] => true
  | a :: s1', b :: s2' => (a =? b) && Size_eqb s1' s2'
  | _, _ => false
  end.

Definition numel (s : Size) : Z := fold_right Z.mul 1 s.

(** [param.copy_(input_param)]: the destination keeps its shape and takes
    the source's values (the caller has checked that the shapes agree). *)
Definition copy_ (param input_param : Tensor) : Tensor :=
  {| shape := shape param; data := data input_param |}.

(** ** Python values, exceptions *)

#[local] Set Warnings "-register-all".

Inductive pyval :=
| PyInt (z : Z)
| PyList (l : list pyval)
| PyTensor (t : Tensor)
| PyDict (d : list (string * pyval)).

(** One line of the report of [load_state_dict], or the message of a
    failed tensor allocation. *)
Inductive error_msg :=
| size_mismatch (key : string) (checkpoint_shape model_shape : Size)
| missing_keys_msg (keys : list string)
| unexpected_keys_msg (keys : list string)
| negative_dimension (dims : Size).

Inductive exn :=
| NameError (name : string)
| KeyError (key : string)
| KeyError_int (key : Z)
| TypeError
| AttributeError
| IndexError
| FileNotFoundError (path : string)
| RuntimeError (msgs : list error_msg).

Inductive result (A : Type) :=
| Ok (a : A)
| Raise (e : exn).
Arguments Ok {A} a.
Arguments Raise {A} e.

(** Dictionary lookup: the first binding of the key. *)
Fixpoint lookup {V : Type} (k : string) (d : list (string * V)) : option V :=
  match d with
  | [] => None
  | (k', v) :: d' => if String.eqb k k' then Some v else lookup k d'
  end.

(** [obj[key]] for a string key. *)
Definition getitem (obj : pyval) (key : string) : result pyval :=
  match obj with
  | PyDict d =>
      match lookup key d with
      | Some v => Ok v
      | None => Raise (KeyError key)
      end
  | PyTensor _ => Raise IndexError
  | PyInt _ | PyList _ => Raise TypeError
  end.

Definition as_int (v : pyval) : result Z :=
  match v with
  | PyInt z => Ok z
  | _ => Raise TypeError
  end.

Fixpoint as_ints (l : list pyval) : result (list Z) :=
  match l with
  | [] => Ok []
  | v :: l' =>
      match as_int v, as_ints l' with
      | Ok z, Ok zs => Ok (z :: zs)
      | Raise e, _ => Raise e
      | _, Raise e => Raise e
      end
  end.

(** A value used as the list of hidden widths, which the constructor
    indexes: a dictionary, whose keys are strings, has no key [0] and
    answers [KeyError(0)]; an integer cannot be indexed. *)
Definition as_int_list (v : pyval) : result (list Z) :=
  match v with
  | PyList l => as_ints l
  | PyDict _ => Raise (KeyError_int 0)
  | PyInt _ | PyTensor _ => Raise TypeError
  end.

(** [obj.keys()]: only a dictionary has the method. *)
Definition keys (obj : pyval) : result (list string) :=
  match obj with
  | PyDict d => Ok (map fst d)
  | _ => Raise AttributeError
  end.

(** ** Strings: decimal indices, prefixes, the first dotted component *)

(** [str(i)] for a non-negative index. *)
Definition str (i : nat) : string := NilEmpty.string_of_uint (Nat.to_uint i).

(** [key.startswith(prefix)] together with [key[len(prefix):]]: the rest
    of the key when it starts with the prefix. *)
Fixpoint strip_prefix (prefix key : string) : option string :=
  match prefix with
  | EmptyString => Some key
  | String a prefix' =>
      match key with
      | EmptyString => None
      | String b key' =>
          if Ascii.eqb a b then strip_prefix prefix' key' else None
      end
  end.

(** [name.split('.', 1)[0]]. *)
Fixpoint before_dot (name : string) : string :=
  match name with
  | EmptyString => EmptyString
  | String c name' =>
      if Ascii.eqb c "." then EmptyString else String c (before_dot name')
  end.

Definition mem (name : string) (names : list string) : bool :=
  existsb (String.eqb name) names.

(** A string without a dot, as the decimal indices are. *)
Fixpoint no_dot (s : string) : bool :=
  match s with
  | EmptyString => true
  | String c s' => negb (Ascii.eqb c ".") && no_dot s'
  end.

(** The key of parameter [name] of child [i] under [prefix]. *)
Definition child_key (prefix : string) (i : nat) (name : string) : string :=
  (prefix ++ str i ++ ".") ++ name.

(** ** [nn.Linear] *)

Record Linear := mkLinear {
  in_features : Z;
  out_features : Z;
  weight : Tensor;
  bias : Tensor
}.

Definition set_weight (self : Linear) (w : Tensor) : Linear :=
  {| in_features := in_features self; out_features := out_features self;
     weight := w; bias := bias self |}.

Definition set_bias (self : Linear) (b : Tensor) : Linear :=
  {| in_features := in_features self; out_features := out_features self;
     weight := weight self; bias := b |}.

(** [nn.Dropout(p)]: it has no parameters; [p] is kept as a fraction. *)
Record Dropout := mkDropout { p_num : Z; p_den : Z; inplace : bool }.

(** [Dropout(p=0.5, inplace=False)] *)
Definition default_dropout : Dropout :=
  {| p_num := 1; p_den := 2; inplace := false |}.

(** ** [fc_model.Network] *)

Record Network := mkNetwork {
  hidden_layers : list Linear;
  output : Linear;
  dropout : Dropout
}.

Definition set_hidden_layers (self : Network) (ls : list Linear) : Network :=
  {| hidden_layers := ls; output := output self; dropout := dropout self |}.

Definition set_output (self : Network) (l : Linear) : Network :=
  {| hidden_layers := hidden_layers self; output := l;
     dropout := dropout self |}.

(** ** [Module.state_dict] *)

Definition Linear_state_dict (prefix : string) (self : Linear)
  : list (string * Tensor) :=
  [(prefix ++ "weight", weight self); (prefix ++ "bias", bias self)].

Fixpoint ModuleList_state_dict (prefix : string) (i : nat) (ls : list Linear)
  : list (string * Tensor) :=
  match ls with
  | [] => []
  | l :: ls' =>
      Linear_state_dict (prefix ++ str i ++ ".") l
        ++ ModuleList_state_dict prefix (S i) ls'
  end.

(** The ordered dictionary of the parameters, in registration order:
    [hidden_layers.0.weight], [hidden_layers.0.bias], ...,
    [output.weight], [output.bias]. *)
Definition state_dict (self : Network) : list (string * Tensor) :=
  ModuleList_state_dict "hidden_layers." 0 (hidden_layers self)
    ++ Linear_state_dict "output." (output self).

(** A dictionary of tensors as a Python value. *)
Definition py_tensors (d : list (string * Tensor)) : list (string * pyval) :=
  map (fun kv => (fst kv, PyTensor (snd kv))) d.

Definition py_state_dict (self : Network) : pyval :=
  PyDict (py_tensors (state_dict self)).

(** ** [Module.load_state_dict] (strict)

    The library function [torch/nn/modules/module.py:load_state_dict],
    the one whose last lines the traceback of cell 10 shows, specialised
    to the module tree of a [Network]: [load(module, prefix)] calls
    [_load_from_state_dict] on the module, which copies or reports each of
    its parameters and then scans the keys for unexpected ones, and
    recurses into the children.  Copying happens during the traversal,
    raising after it. *)

(** The three lists the library threads through the traversal. *)
Record Acc := mkAcc {
  missing_keys : list string;
  unexpected_keys : list string;
  error_msgs : list error_msg
}.

Definition add_missing (acc : Acc) (key : string) : Acc :=
  {| missing_keys := missing_keys acc ++ [key];
     unexpected_keys := unexpected_keys acc;
     error_msgs := error_msgs acc |}.

Definition add_unexpected (acc : Acc) (keys : list string) : Acc :=
  {| missing_keys := missing_keys acc;
     unexpected_keys := unexpected_keys acc ++ keys;
     error_msgs := error_msgs acc |}.

Definition add_error (acc : Acc) (msg : error_msg) : Acc :=
  {| missing_keys := missing_keys acc;
     unexpected_keys := unexpected_keys acc;
     error_msgs := error_msgs acc ++ [msg] |}.

(** Backward compatibility of the library: a stored 1-dim tensor is
    indexed at 0 when the slot is 0-dim. *)
Definition compat_input (param input_param : Tensor) : result Tensor :=
  match shape param, shape input_param with
  | [], [n] =>
      if 0 <? n then Ok {| shape := []; data := firstn 1 (data input_param) |}
      else Raise IndexError
  | _, _ => Ok input_param
  end.

(** One iteration of the loop over [local_state] in
    [_load_from_state_dict]: returns the slot as it is afterwards. *)
Definition load_param (state_dict : list (string * pyval)) (key : string)
    (param : Tensor) (acc : Acc) : Tensor * result Acc :=
  match lookup key state_dict with
  | Some (PyTensor input_param) =>
      match compat_input param input_param with
      | Raise e => (param, Raise e)
      | Ok input_param =>
          if negb (Size_eqb (shape input_param) (shape param)) then
            (param,
             Ok (add_error acc
                   (size_mismatch key (shape input_param) (shape param))))
          else (copy_ param input_param, Ok acc)
      end
  | Some _ => (param, Raise AttributeError)
  | None => (param, Ok (add_missing acc key))
  end.

(** The loop over [state_dict.keys()] that closes [_load_from_state_dict]
    for a module with the given children and local parameters, as it is
    in the release of the library the notebook ran on (Python 3.6, the
    [module.py] of the traceback of cell 10): a key is unexpected when it
    starts with the prefix and the first dotted component of the rest
    names neither a child nor a parameter of the module.  Later releases
    report more keys, among them a key without a dot that names a child. *)
Definition is_unexpected (prefix : string) (modules local_state : list string)
    (key : string) : bool :=
  match strip_prefix prefix key with
  | Some input_name =>
      let input_name := before_dot input_name in
      negb (mem input_name modules) && negb (mem input_name local_state)
  | None => false
  end.

Definition scan_unexpected (state_dict : list (string * pyval))
    (prefix : string) (modules local_state : list string) (acc : Acc) : Acc :=
  add_unexpected acc
    (filter (is_unexpected prefix modules local_state) (map fst state_dict)).

(** [load(module, prefix)] for an [nn.Linear]: parameters [weight] and
    [bias], no children. *)
Definition Linear_load (state_dict : list (string * pyval)) (prefix : string)
    (self : Linear) (acc : Acc) : Linear * result Acc :=
  let (w, r) := load_param state_dict (prefix ++ "weight") (weight self) acc in
  let self := set_weight self w in
  match r with
  | Raise e => (self, Raise e)
  | Ok acc =>
      let (b, r) := load_param state_dict (prefix ++ "bias") (bias self) acc in
      let self := set_bias self b in
      match r with
      | Raise e => (self, Raise e)
      | Ok acc =>
          (self, Ok (scan_unexpected state_dict prefix [] ["weight"; "bias"] acc))
      end
  end.

(** The children of the [nn.ModuleList], named by their index. *)
Fixpoint ModuleList_load_children (state_dict : list (string * pyval))
    (prefix : string) (i : nat) (ls : list Linear) (acc : Acc)
  : list Linear * result Acc :=
  match ls with
  | [] => ([], Ok acc)
  | l :: ls' =>
      let (l, r) := Linear_load state_dict (prefix ++ str i ++ ".") l acc in
      match r with
      | Raise e => (l :: ls', Raise e)
      | Ok acc =>
          let (ls', r) :=
            ModuleList_load_children state_dict prefix (S i) ls' acc in
          (l :: ls', r)
      end
  end.

Definition ModuleList_load (state_dict : list (string * pyval))
    (prefix : string) (ls : list Linear) (acc : Acc)
  : list Linear * result Acc :=
  let acc :=
    scan_unexpected state_dict prefix (map str (seq 0 (List.length ls))) [] acc in
  ModuleList_load_children state_dict prefix 0 ls acc.

(** [load(self)] for the network: no parameters of its own; children
    [hidden_layers], [output], [dropout]. *)
Definition Network_load (state_dict : list (string * pyval)) (self : Network)
    (acc : Acc) : Network * result Acc :=
  let acc :=
    scan_unexpected state_dict "" ["hidden_layers"; "output"; "dropout"] [] acc in
  let (ls, r) :=
    ModuleList_load state_dict "hidden_layers." (hidden_layers self) acc in
  let self := set_hidden_layers self ls in
  match r with
  | Raise e => (self, Raise e)
  | Ok acc =>
      let (o, r) := Linear_load state_dict "output." (output self) acc in
      let self := set_output self o in
      match r with
      | Raise e => (self, Raise e)
      | Ok acc => (self, Ok (scan_unexpected state_dict "dropout." [] [] acc))
      end
  end.

Definition nonempty {A : Type} (l : list A) : bool :=
  match l with [] => false | _ :: _ => true end.

(** The end of [load_state_dict]: the two key lists are put in front of
    the report, and a non-empty report is raised. *)
Definition final_msgs (acc : Acc) : list error_msg :=
  let msgs := error_msgs acc in
  let msgs :=
    if nonempty (unexpected_keys acc)
    then unexpected_keys_msg (unexpected_keys acc) :: msgs else msgs in
  if nonempty (missing_keys acc)
  then missing_keys_msg (missing_keys acc) :: msgs else msgs.

(** [_IncompatibleKeys(missing_keys, unexpected_keys)] *)
Definition IncompatibleKeys := (list string * list string)%type.

Definition empty_acc : Acc :=
  {| missing_keys := []; unexpected_keys := []; error_msgs := [] |}.

(** [self.load_state_dict(state_dict)]: the network as it is after the
    call, and what the call returns or raises. *)
Definition load_state_dict (self : Network) (state_dict : pyval)
  : Network * result IncompatibleKeys :=
  match state_dict with
  | PyDict d =>
      let (self, r) := Network_load d self empty_acc in
      match r with
      | Raise e => (self, Raise e)
      | Ok acc =>
          let msgs := final_msgs acc in
          if nonempty msgs then (self, Raise (RuntimeError msgs))
          else (self, Ok (missing_keys acc, unexpected_keys acc))
      end
  | _ => (self, Raise AttributeError)
  end.

(** ** The notebook's world and the [Cell] monad

    What a cell can read and change: the files, the state of the random
    generator (the stream of values still to be drawn), and the global
    variables [model] and [state_dict].  A cell returns a value or raises;
    the world it leaves behind is kept in both cases. *)
Record World := mkWorld {
  files : list (string * pyval);
  generator : N -> float32;
  var_model : option Network;
  var_state_dict : option pyval
}.

Definition Cell (A : Type) : Type := World -> result A * World.

Definition ret {A : Type} (a : A) : Cell A := fun w => (Ok a, w).

Definition raise {A : Type} (e : exn) : Cell A := fun w => (Raise e, w).

Definition lift {A : Type} (r : result A) : Cell A := fun w => (r, w).

Definition bind {A B : Type} (c : Cell A) (k : A -> Cell B) : Cell B :=
  fun w =>
    match c w with
    | (Ok a, w') => k a w'
    | (Raise e, w') => (Raise e, w')
    end.

Notation "x <- c ;; k" := (bind c (fun x => k))
  (at level 61, c at next level, right associativity).

Definition set_files (w : World) (fs : list (string * pyval)) : World :=
  {| files := fs; generator := generator w;
     var_model := var_model w; var_state_dict := var_state_dict w |}.

Definition set_generator (w : World) (g : N -> float32) : World :=
  {| files := files w; generator := g;
     var_model := var_model w; var_state_dict := var_state_dict w |}.

Definition set_var_model (w : World) (m : Network) : World :=
  {| files := files w; generator := generator w;
     var_model := Some m; var_state_dict := var_state_dict w |}.

Definition set_var_state_dict (w : World) (v : pyval) : World :=
  {| files := files w; generator := generator w;
     var_model := var_model w; var_state_dict := Some v |}.

(** [torch.save(obj, path)] and [torch.load(path)]: the object is written
    and read back value for value. *)
Definition torch_save (obj : pyval) (path : string) : Cell unit :=
  fun w => (Ok tt, set_files w ((path, obj) :: files w)).

Definition torch_load (path : string) : Cell pyval :=
  fun w =>
    match lookup path (files w) with
    | Some obj => (Ok obj, w)
    | None => (Raise (FileNotFoundError path), w)
    end.

(** The next [n] values of the random generator. *)
Fixpoint take (g : N -> float32) (pos : N) (n : nat) : list float32 :=
  match n with
  | O => []
  | S n' => g pos :: take g (N.succ pos) n'
  end.

Definition draw (n : nat) : Cell (list float32) :=
  fun w =>
    let g := generator w in
    let k := N.of_nat n in
    (Ok (take g 0%N n), set_generator w (fun i => g (k + i)%N)).

(** A new parameter of the given dimensions, randomly initialised. *)
Definition new_parameter (dims : Size) : Cell Tensor :=
  if existsb (fun d => d <? 0) dims
  then raise (RuntimeError [negative_dimension dims])
  else
    xs <- draw (Z.to_nat (numel dims)) ;;
    ret {| shape := dims; data := xs |}.

(** [nn.Linear(in_features, out_features)]: a weight of shape
    [(out_features, in_features)] and a bias of shape [(out_features)]. *)
Definition Linear_init (in_features out_features : Z) : Cell Linear :=
  w <- new_parameter [out_features; in_features] ;;
  b <- new_parameter [out_features] ;;
  ret {| in_features := in_features; out_features := out_features;
         weight := w; bias := b |}.

(** Modelled from the spec: the constructor of [fc_model.Network], whose
    module is not part of the sources at hand.  The spec gives hidden
    layer [i] the width [hidden_layers[i]] and as previous width
    [input_size] for [i = 0]; the layers printed by the notebook (cells 6
    and 13) chain each hidden layer to the one before it and feed the
    last hidden width to the output layer, [Linear(in_features=128,
    out_features=10)], followed by [Dropout(p=0.5, inplace=False)].
    A network needs a first hidden layer. *)
Fixpoint hidden_init (previous_width : Z) (hidden : list Z)
  : Cell (list Linear) :=
  match hidden with
  | [] => ret []
  | h :: hidden' =>
      l <- Linear_init previous_width h ;;
      ls <- hidden_init h hidden' ;;
      ret (l :: ls)
  end.

Definition Network_init (input_size output_size : Z) (hidden : list Z)
  : Cell Network :=
  match hidden with
  | [] => raise IndexError
  | _ :: _ =>
      ls <- hidden_init input_size hidden ;;
      o <- Linear_init (last hidden 0) output_size ;;
      ret {| hidden_layers := ls; output := o;
             dropout := default_dropout |}
  end.

(** Modelled from the spec: the call [fc_model.Network(a, b, c)] on
    Python values.  The spec makes [input_size] and [output_size]
    integers and [hidden_layers] a sequence of integers; the constructor
    builds a network from such values and raises on others. *)
Definition Network_call (input_size output_size hidden : pyval)
  : Cell Network :=
  hs <- lift (as_int_list hidden) ;;
  i <- lift (as_int input_size) ;;
  o <- lift (as_int output_size) ;;
  Network_init i o hs.

(** ** The cells *)

Definition get_model : Cell Network :=
  fun w =>
    match var_model w with
    | Some m => (Ok m, w)
    | None => (Raise (NameError "model"), w)
    end.

Definition get_state_dict : Cell pyval :=
  fun w =>
    match var_state_dict w with
    | Some v => (Ok v, w)
    | None => (Raise (NameError "state_dict"), w)
    end.

(** [model.load_state_dict(v)] on the global [model], changed in place. *)
Definition model_load_state_dict (v : pyval) : Cell IncompatibleKeys :=
  fun w =>
    match var_model w with
    | Some m =>
        let (m', r) := load_state_dict m v in (r, set_var_model w m')
    | None => (Raise (NameError "model"), w)
    end.

(** Cell 4: [model = fc_model.Network(784, 10, [512, 256, 128])] *)
Definition cell_4 : Cell unit :=
  m <- Network_init 784 10 [512; 256; 128] ;;
  fun w => (Ok tt, set_var_model w m).

(** Cell 7: [torch.save(model.state_dict(), 'checkpoint.pth')] *)
Definition cell_7 : Cell unit :=
  m <- get_model ;;
  torch_save (py_state_dict m) "checkpoint.pth".

(** Cell 8: [state_dict = torch.load('checkpoint.pth')], then
    [print(state_dict.keys())] *)
Definition cell_8 : Cell unit :=
  v <- torch_load "checkpoint.pth" ;;
  _ <- (fun w => (Ok tt, set_var_state_dict w v)) ;;
  v <- get_state_dict ;;
  _ <- lift (keys v) ;;
  ret tt.

(** Cell 9: [model.load_state_dict(state_dict)]; the name [model] is
    evaluated first, then the argument. *)
Definition cell_9 : Cell IncompatibleKeys :=
  _ <- get_model ;;
  v <- get_state_dict ;;
  model_load_state_dict v.

(** Cell 10: a model of another architecture, then the same call. *)
Definition cell_10 : Cell IncompatibleKeys :=
  m <- Network_init 784 10 [400; 200; 100] ;;
  _ <- (fun w => (Ok tt, set_var_model w m)) ;;
  _ <- get_model ;;
  v <- get_state_dict ;;
  model_load_state_dict v.

(** Cell 11, the checkpoint writer: the dictionary
    [{'input_size': 784, 'output_size': 10,
      'hidden_layers': [each.out_features for each in model.hidden_layers],
      'state_dict': model.state_dict()}]
    of the current [model], saved to ['checkpoint.pth']. *)
Definition checkpoint (model : Network) : pyval :=
  PyDict [("input_size", PyInt 784);
          ("output_size", PyInt 10);
          ("hidden_layers",
           PyList (map (fun each => PyInt (out_features each))
                       (hidden_layers model)));
          ("state_dict", py_state_dict model)].

Definition cell_11 : Cell unit :=
  model <- get_model ;;
  torch_save (checkpoint model) "checkpoint.pth".

(** Cell 12, the checkpoint loader. *)
Definition load_checkpoint (filepath : string) : Cell Network :=
  checkpoint <- torch_load filepath ;;
  input_size <- lift (getitem checkpoint "input_size") ;;
  output_size <- lift (getitem checkpoint "output_size") ;;
  hidden <- lift (getitem checkpoint "hidden_layers") ;;
  model <- Network_call input_size output_size hidden ;;
  state_dict <- lift (getitem checkpoint "state_dict") ;;
  let (model, r) := load_state_dict model state_dict in
  _ <- lift r ;;
  ret model.

(** Cell 13: [model = load_checkpoint('checkpoint.pth')] *)
Definition cell_13 : Cell unit :=
  m <- load_checkpoint "checkpoint.pth" ;;
  fun w => (Ok tt, set_var_model w m).

(** ** What [load_state_dict] does, slot by slot

    For a dictionary that holds tensors and a model whose parameters have
    at least one dimension, the traversal never stops early; its effect is
    described by what happens to each parameter slot on its own. *)

Definition extend (acc : Acc) (ms us : list string) (es : list error_msg)
  : Acc :=
  {| missing_keys := missing_keys acc ++ ms;
     unexpected_keys := unexpected_keys acc ++ us;
     error_msgs := error_msgs acc ++ es |}.

(** The slot after the call: the stored values when the key is present
    with the slot's shape, the old values otherwise. *)
Definition assign (sd : list (string * pyval)) (key : string) (p : Tensor)
  : Tensor :=
  match lookup key sd with
  | Some (PyTensor t) => if Size_eqb (shape t) (shape p) then copy_ p t else p
  | _ => p
  end.

Definition slot_missing (sd : list (string * pyval)) (key : string)
  : list string :=
  match lookup key sd with
  | None => [key]
  | Some _ => []
  end.

Definition slot_errors (sd : list (string * pyval)) (key : string) (p : Tensor)
  : list error_msg :=
  match lookup key sd with
  | Some (PyTensor t) =>
      if Size_eqb (shape t) (shape p) then []
      else [size_mismatch key (shape t) (shape p)]
  | _ => []
  end.

Definition missing_of (sd : list (string * pyval))
    (slots : list (string * Tensor)) : list string :=
  flat_map (fun kp => slot_missing sd (fst kp)) slots.

Definition errors_of (sd : list (string * pyval))
    (slots : list (string * Tensor)) : list error_msg :=
  flat_map (fun kp => slot_errors sd (fst kp) (snd kp)) slots.

Definition unexpected_in (sd : list (string * pyval)) (prefix : string)
    (modules local_state : list string) : list string :=
  filter (is_unexpected prefix modules local_state) (map fst sd).

Definition assign_Linear (sd : list (string * pyval)) (prefix : string)
    (l : Linear) : Linear :=
  {| in_features := in_features l; out_features := out_features l;
     weight := assign sd (prefix ++ "weight") (weight l);
     bias := assign sd (prefix ++ "bias") (bias l) |}.

Fixpoint assign_children (sd : list (string * pyval)) (prefix : string)
    (i : nat) (ls : list Linear) : list Linear :=
  match ls with
  | [] => []
  | l :: ls' =>
      assign_Linear sd (prefix ++ str i ++ ".") l
        :: assign_children sd prefix (S i) ls'
  end.

Fixpoint children_unexpected (sd : list (string * pyval)) (prefix : string)
    (i : nat) (ls : list Linear) : list string :=
  match ls with
  | [] => []
  | _ :: ls' =>
      (unexpected_in sd (prefix ++ str i ++ ".") [] ["weight"; "bias"]
         ++ children_unexpected sd prefix (S i) ls')%list
  end.

Definition assign_Network (sd : list (string * pyval)) (m : Network)
  : Network :=
  {| hidden_layers := assign_children sd "hidden_layers." 0 (hidden_layers m);
     output := assign_Linear sd "output." (output m);
     dropout := dropout m |}.

Definition Network_unexpected (sd : list (string * pyval)) (m : Network)
  : list string :=
  (unexpected_in sd "" ["hidden_layers"; "output"; "dropout"] []
   ++ unexpected_in sd "hidden_layers."
        (map str (seq 0 (List.length (hidden_layers m)))) []
   ++ children_unexpected sd "hidden_layers." 0 (hidden_layers m)
   ++ unexpected_in sd "output." [] ["weight"; "bias"]
   ++ unexpected_in sd "dropout." [] [])%list.

(** The accumulator at the end of the traversal. *)
Definition report (sd : list (string * pyval)) (m : Network) : Acc :=
  {| missing_keys := missing_of sd (state_dict m);
     unexpected_keys := Network_unexpected sd m;
     error_msgs := errors_of sd (state_dict m) |}.

Definition tensors_only (sd : list (string * pyval)) : Prop :=
  Forall (fun kv => exists t, snd kv = PyTensor t) sd.

(** A key whose entry, if any, is a tensor. *)
Definition loadable (sd : list (string * pyval)) (key : string) : Prop :=
  match lookup key sd with
  | Some (PyTensor _) | None => True
  | Some _ => False
  end.

Definition slots_loadable (sd : list (string * pyval))
    (slots : list (string * Tensor)) : Prop :=
  Forall (fun kp => loadable sd (fst kp)) slots.

Definition ranked_Linear (l : Linear) : Prop :=
  shape (weight l) <> [] /\ shape (bias l) <> [].

Definition ranked (m : Network) : Prop :=
  Forall ranked_Linear (hidden_layers m) /\ ranked_Linear (output m).

(** What the call returns or raises, from the report. *)
Definition outcome (sd : list (string * pyval)) (m : Network)
  : result IncompatibleKeys :=
  let acc := report sd m in
  if nonempty (final_msgs acc) then Raise (RuntimeError (final_msgs acc))
  else Ok (missing_keys acc, unexpected_keys acc).

(** ** Architectures

    What the constructor establishes and training keeps: the widths of
    the layers and the shapes of their parameters. *)

Definition Linear_has_widths (i o : Z) (l : Linear) : Prop :=
  in_features l = i /\ out_features l = o /\
  shape (weight l) = [o; i] /\ shape (bias l) = [o].

Fixpoint chained (previous_width : Z) (hidden : list Z) (ls : list Linear)
  : Prop :=
  match hidden, ls with
  | [], [] => True
  | h :: hidden', l :: ls' =>
      Linear_has_widths previous_width h l /\ chained h hidden' ls'
  | _, _ => False
  end.

Definition has_architecture (input_size output_size : Z) (hidden : list Z)
    (m : Network) : Prop :=
  hidden <> [] /\
  chained input_size hidden (hidden_layers m) /\
  Linear_has_widths (last hidden 0) output_size (output m) /\
  dropout m = default_dropout.

(** The widths of the spec's data model: positive integers. *)
Definition valid_widths (input_size output_size : Z) (hidden : list Z)
  : Prop :=
  0 < input_size /\ 0 < output_size /\ Forall (fun h => 0 < h) hidden.

(** The keys of a network with [n] hidden layers. *)
Inductive net_key (n : nat) : string -> Prop :=
| net_key_hidden (i : nat) (name : string) :
    (i < n)%nat -> name = "weight" \/ name = "bias" ->
    net_key n (child_key "hidden_layers." i name)
| net_key_output (name : string) :
    name = "weight" \/ name = "bias" ->
    net_key n ("output." ++ name).

(** Key and shape of a slot. *)
Definition skel (kp : string * Tensor) : string * Size :=
  (fst kp, shape (snd kp)).

(** Two worlds that differ in the state of the generator only. *)
Definition same_but_generator (w w' : World) : Prop :=
  files w' = files w /\ var_model w' = var_model w /\
  var_state_dict w' = var_state_dict w.

(** ** Shape consistency of a checkpoint record *)

(** The width that feeds hidden layer [k]. *)
Definition previous_width (input_size : Z) (hidden : list Z) (k : nat) : Z :=
  match k with
  | O => input_size
  | S k' => nth k' hidden 0
  end.

Definition stored_shape (sd : list (string * pyval)) (key : string)
    (dims : Size) : Prop :=
  exists t, lookup key sd = Some (PyTensor t) /\ shape t = dims.

(** The shapes under the keys of the dictionary are those of a network of
    the given widths: hidden layer [k] has a weight of shape
    [(hidden[k], previous width)] and a bias of shape [(hidden[k])]; the
    output layer has a weight of shape [(output_size, last hidden width)]
    and a bias of shape [(output_size)]. *)
Definition shapes_consistent (input_size output_size : Z) (hidden : list Z)
    (sd : list (string * pyval)) : Prop :=
  (forall k h, nth_error hidden k = Some h ->
     stored_shape sd (child_key "hidden_layers." k "weight")
       [h; previous_width input_size hidden k] /\
     stored_shape sd (child_key "hidden_layers." k "bias") [h]) /\
  stored_shape sd "output.weight" [output_size; last hidden 0] /\
  stored_shape sd "output.bias" [output_size].

(** The invariant in the words of the spec: the previous width is
    [input_size] for layer 0 and [output_size] after the last hidden
    layer. *)
Definition spec_previous_width (input_size output_size : Z) (hidden : list Z)
    (k : nat) : Z :=
  match k with
  | O => input_size
  | S k' =>
      if (List.length hidden <=? k)%nat then output_size
      else nth k' hidden 0
  end.

Definition spec_shapes_consistent (input_size output_size : Z)
    (hidden : list Z) (sd : list (string * pyval)) : Prop :=
  (forall k h, nth_error hidden k = Some h ->
     stored_shape sd (child_key "hidden_layers." k "weight")
       [h; spec_previous_width input_size output_size hidden k]) /\
  stored_shape sd "output.weight"
    [output_size;
     spec_previous_width input_size output_size hidden (List.length hidden)].

(** Every slot finds a tensor of its own shape in the dictionary. *)
Definition stored_for (sd : list (string * pyval))
    (slots : list (string * Tensor)) : Prop :=
  Forall (fun kp => stored_shape sd (fst kp) (shape (snd kp))) slots.

(** The dictionary holds the parameters of the model under the model's
    keys. *)
Definition holds (sd : list (string * pyval)) (m : Network) : Prop :=
  (forall k l, nth_error (hidden_layers m) k = Some l ->
     lookup (child_key "hidden_layers." k "weight") sd
     = Some (PyTensor (weight l)) /\
     lookup (child_key "hidden_layers." k "bias") sd
     = Some (PyTensor (bias l))) /\
  lookup "output.weight" sd = Some (PyTensor (weight (output m))) /\
  lookup "output.bias" sd = Some (PyTensor (bias (output m))).

(** The four fields of a checkpoint record, as the loader names them
    (the spec calls the last one [parameters]). *)
Definition fields : list string :=
  ["input_size"; "output_size"; "hidden_layers"; "state_dict"].

(** ** Layouts, frames and sequences of cells *)

(** Two layers, and two networks, with the same widths and the same
    parameter shapes. *)
Definition same_layout_Linear (l l' : Linear) : Prop :=
  in_features l' = in_features l /\ out_features l' = out_features l /\
  shape (weight l') = shape (weight l) /\ shape (bias l') = shape (bias l).

Definition same_layout (m m' : Network) : Prop :=
  Forall2 same_layout_Linear (hidden_layers m) (hidden_layers m') /\
  same_layout_Linear (output m) (output m') /\
  dropout m' = dropout m.

(** A computation that leaves the files and the global variables alone. *)
Definition frames {A : Type} (c : Cell A) : Prop :=
  forall w, same_but_generator w (snd (c w)).

(** Cells 7, 8 and 9 in a row: save the state dictionary, read it back,
    load it into the model. *)
Definition cells_7_8_9 : Cell IncompatibleKeys :=
  _ <- cell_7 ;; _ <- cell_8 ;; cell_9.

(** Cells 8 and 9 run again after the writer of cell 11. *)
Definition cells_11_8_9 : Cell IncompatibleKeys :=
  _ <- cell_11 ;; _ <- cell_8 ;; cell_9.

(** The writer and then cell 13. *)
Definition cells_11_13 : Cell unit :=
  _ <- cell_11 ;; cell_13.

(** What the constructor can raise. *)
Definition constructor_exn (e : exn) : Prop :=
  e = TypeError \/ e = IndexError \/ e = KeyError_int 0 \/
  exists dims, e = RuntimeError [negative_dimension dims].

(** ** Concrete models, records and worlds for the examples *)

Definition zeros (dims : Size) : Tensor :=
  {| shape := dims; data := repeat 0 (Z.to_nat (numel dims)) |}.

Definition ones (dims : Size) : Tensor :=
  {| shape := dims; data := repeat 1 (Z.to_nat (numel dims)) |}.

Definition counting (start : nat) (dims : Size) : Tensor :=
  {| shape := dims;
     data := map Z.of_nat (seq start (Z.to_nat (numel dims))) |}.

(** A world with nothing but a generator, and one that holds a model. *)
Definition empty_world (g : N -> float32) : World :=
  {| files := []; generator := g; var_model := None;
     var_state_dict := None |}.

Definition world_with (m : Network) : World :=
  {| files := []; generator := fun _ => 7; var_model := Some m;
     var_state_dict := None |}.

Definition world_with_file (path : string) (rec : pyval) : World :=
  {| files := [(path, rec)]; generator := fun i => Z.of_N i;
     var_model := None; var_state_dict := None |}.

(** A network with 4 inputs, one hidden layer of width 3 and 2 outputs. *)
Definition model_4_3_2 : Network :=
  {| hidden_layers :=
       [ {| in_features := 4; out_features := 3;
            weight := ones [3; 4]; bias := ones [3] |} ];
     output := {| in_features := 3; out_features := 2;
                  weight := ones [2; 3]; bias := ones [2] |};
     dropout := default_dropout |}.

(** A network with 784 inputs, one hidden layer of width 2, 10 outputs. *)
Definition model_784_2_10 : Network :=
  {| hidden_layers :=
       [ {| in_features := 784; out_features := 2;
            weight := ones [2; 784]; bias := ones [2] |} ];
     output := {| in_features := 2; out_features := 10;
                  weight := zeros [10; 2]; bias := zeros [10] |};
     dropout := default_dropout |}.

(** A network with 6 inputs, one hidden layer of width 2 and 10 outputs. *)
Definition model_6_2_10 : Network :=
  {| hidden_layers :=
       [ {| in_features := 6; out_features := 2;
            weight := ones [2; 6]; bias := ones [2] |} ];
     output := {| in_features := 2; out_features := 10;
                  weight := ones [10; 2]; bias := ones [10] |};
     dropout := default_dropout |}.

(** A network with 3 inputs, hidden widths 4 and 5, and 2 outputs, and
    the record that stores it under its own widths. *)
Definition model_3_4_5_2 : Network :=
  {| hidden_layers :=
       [ {| in_features := 3; out_features := 4;
            weight := ones [4; 3]; bias := ones [4] |};
         {| in_features := 4; out_features := 5;
            weight := ones [5; 4]; bias := zeros [5] |} ];
     output := {| in_features := 5; out_features := 2;
                  weight := ones [2; 5]; bias := ones [2] |};
     dropout := default_dropout |}.

Definition record_3_4_5_2 : pyval :=
  PyDict [("input_size", PyInt 3);
          ("output_size", PyInt 2);
          ("hidden_layers", PyList [PyInt 4; PyInt 5]);
          ("state_dict", py_state_dict model_3_4_5_2)].


(** A record whose [hidden_layers] field, [5], is not the hidden width of
    the model whose parameters it stores, and the model the constructor
    builds for widths 4, [5], 2 when the generator counts from 0. *)
Definition record_4_5_2_storing_4_3_2 : pyval :=
  PyDict [("input_size", PyInt 4);
          ("output_size", PyInt 2);
          ("hidden_layers", PyList [PyInt 5]);
          ("state_dict", py_state_dict model_4_3_2)].

Definition fresh_4_5_2 : Network :=
  {| hidden_layers :=
       [ {| in_features := 4; out_features := 5;
            weight := counting 0 [5; 4]; bias := counting 20 [5] |} ];
     output := {| in_features := 5; out_features := 2;
                  weight := counting 25 [2; 5]; bias := counting 35 [2] |};
     dropout := default_dropout |}.

(** The model the constructor builds for widths 4, [3, 3], 2 when the
    generator counts from 0. *)
Definition fresh_4_3_3_2 : Network :=
  {| hidden_layers :=
       [ {| in_features := 4; out_features := 3;
            weight := counting 0 [3; 4]; bias := counting 12 [3] |};
         {| in_features := 3; out_features := 3;
            weight := counting 15 [3; 3]; bias := counting 24 [3] |} ];
     output := {| in_features := 3; out_features := 2;
                  weight := counting 27 [2; 3]; bias := counting 33 [2] |};
     dropout := default_dropout |}.

(** The widths of the layers of a model, as the notebook prints them. *)
Definition printed (m : Network) : list (Z * Z) :=
  map (fun l => (in_features l, out_features l))
      (hidden_layers m ++ [output m]).

(** The two architectures of the notebook, with some parameter values. *)
Definition model_512_256_128 : Network :=
  {| hidden_layers :=
       [ {| in_features := 784; out_features := 512;
            weight := ones [512; 784]; bias := zeros [512] |};
         {| in_features := 512; out_features := 256;
            weight := ones [256; 512]; bias := zeros [256] |};
         {| in_features := 256; out_features := 128;
            weight := ones [128; 256]; bias := zeros [128] |} ];
     output := {| in_features := 128; out_features := 10;
                  weight := ones [10; 128]; bias := ones [10] |};
     dropout := default_dropout |}.

Definition model_400_200_100 : Network :=
  {| hidden_layers :=
       [ {| in_features := 784; out_features := 400;
            weight := zeros [400; 784]; bias := zeros [400] |};
         {| in_features := 400; out_features := 200;
            weight := zeros [200; 400]; bias := zeros [200] |};
         {| in_features := 200; out_features := 100;
            weight := zeros [100; 200]; bias := zeros [100] |} ];
     output := {| in_features := 100; out_features := 10;
                  weight := zeros [10; 100]; bias := zeros [10] |};
     dropout := default_dropout |}.

(** Cells 4, 7, 8 and 10 of the notebook, in this order. *)
Definition notebook_until_cell_10 : Cell IncompatibleKeys :=
  _ <- cell_4 ;; _ <- cell_7 ;; _ <- cell_8 ;; cell_10.

(** * Properties *)

(** ** Decimal indices and dotted keys *)

#[local] Arguments Ascii.eqb : simpl never.

Lemma no_dot_str (i : nat) : no_dot (str i) = true.
Proof.
  unfold str. generalize (Nat.to_uint i) as d.
  induction d; simpl; auto.
Qed.

Lemma str_inj (i j : nat) : str i = str j -> i = j.
Proof.
  unfold str. intros E.
  apply Unsigned.to_uint_inj.
  pose proof (NilEmpty.usu (Nat.to_uint i)) as Hi.
  pose proof (NilEmpty.usu (Nat.to_uint j)) as Hj.
  rewrite E in Hi. congruence.
Qed.

Lemma str_eqb (i j : nat) : String.eqb (str i) (str j) = Nat.eqb i j.
Proof.
  destruct (Nat.eqb_spec i j) as [->|N].
  - apply String.eqb_refl.
  - apply String.eqb_neq. intros E. apply N, str_inj, E.
Qed.

Lemma append_assoc (a b c : string) : (a ++ b) ++ c = a ++ (b ++ c).
Proof. induction a; simpl; congruence. Qed.

Lemma append_inj_l (p a b : string) : p ++ a = p ++ b -> a = b.
Proof. induction p; simpl; intros E; [assumption | injection E; auto]. Qed.

Lemma eqb_append_l (p a b : string) :
  String.eqb (p ++ a) (p ++ b) = String.eqb a b.
Proof.
  induction p; simpl; [reflexivity|].
  rewrite Ascii.eqb_refl. assumption.
Qed.

Lemma strip_prefix_app_l (p q s : string) :
  strip_prefix (p ++ q) (p ++ s) = strip_prefix q s.
Proof.
  induction p; simpl; [reflexivity|].
  rewrite Ascii.eqb_refl. assumption.
Qed.

Lemma strip_prefix_app (p s : string) : strip_prefix p (p ++ s) = Some s.
Proof.
  induction p; simpl; [reflexivity|].
  rewrite Ascii.eqb_refl. assumption.
Qed.

Lemma before_dot_app (a r : string) :
  no_dot a = true -> before_dot (a ++ String "." r) = a.
Proof.
  induction a as [|c a IH]; simpl; [reflexivity|].
  intros H. apply andb_prop in H as [Hc Ha].
  apply negb_true_iff in Hc. rewrite Hc. f_equal. auto.
Qed.

Lemma strip_prefix_dot (a b r : string) :
  no_dot a = true -> no_dot b = true ->
  strip_prefix (a ++ ".") (b ++ String "." r)
  = if String.eqb a b then Some r else None.
Proof.
  revert b. induction a as [|c a IH]; intros [|d b] Ha Hb; simpl in *.
  - reflexivity.
  - apply andb_prop in Hb as [Hd _]. apply negb_true_iff in Hd.
    rewrite Ascii.eqb_sym, Hd. reflexivity.
  - apply andb_prop in Ha as [Hc _]. apply negb_true_iff in Hc.
    rewrite Hc. reflexivity.
  - apply andb_prop in Ha as [_ Ha]. apply andb_prop in Hb as [_ Hb].
    destruct (Ascii.eqb c d); [apply IH; assumption | reflexivity].
Qed.

Lemma eqb_dot (a b r r' : string) :
  no_dot a = true -> no_dot b = true ->
  String.eqb (a ++ String "." r) (b ++ String "." r')
  = String.eqb a b && String.eqb r r'.
Proof.
  revert b. induction a as [|c a IH]; intros [|d b] Ha Hb; simpl in *.
  - reflexivity.
  - apply andb_prop in Hb as [Hd _]. apply negb_true_iff in Hd.
    rewrite Ascii.eqb_sym, Hd. reflexivity.
  - apply andb_prop in Ha as [Hc _]. apply negb_true_iff in Hc.
    rewrite Hc. reflexivity.
  - apply andb_prop in Ha as [_ Ha]. apply andb_prop in Hb as [_ Hb].
    destruct (Ascii.eqb c d); [apply IH; assumption | reflexivity].
Qed.

Lemma child_key_eq (prefix : string) (i : nat) (name : string) :
  child_key prefix i name = prefix ++ (str i ++ String "." name).
Proof.
  unfold child_key. rewrite !append_assoc. reflexivity.
Qed.

Lemma child_key_eqb (prefix : string) (i j : nat) (n1 n2 : string) :
  String.eqb (child_key prefix i n1) (child_key prefix j n2)
  = Nat.eqb i j && String.eqb n1 n2.
Proof.
  rewrite !child_key_eq, eqb_append_l, eqb_dot, str_eqb
    by apply no_dot_str.
  reflexivity.
Qed.

(** ** The traversal, slot by slot *)

Lemma extend_nil (acc : Acc) : extend acc [] [] [] = acc.
Proof. destruct acc. unfold extend. simpl. rewrite !app_nil_r. reflexivity. Qed.

Lemma extend_extend (acc : Acc) ms us es ms' us' es' :
extend (extend acc ms us es) ms' us' es'
= extend acc (ms ++ ms') (us ++ us') (es ++ es').
Proof. unfold extend. simpl. rewrite !app_assoc. reflexivity. Qed.

Lemma add_missing_extend (acc : Acc) (k : string) :
add_missing acc k = extend acc [k] [] [].
Proof. unfold add_missing, extend. rewrite !app_nil_r. reflexivity. Qed.

Lemma add_error_extend (acc : Acc) (e : error_msg) :
add_error acc e = extend acc [] [] [e].
Proof. unfold add_error, extend. rewrite !app_nil_r. reflexivity. Qed.

Lemma add_unexpected_extend (acc : Acc) (us : list string) :
add_unexpected acc us = extend acc [] us [].
Proof. unfold add_unexpected, extend. rewrite !app_nil_r. reflexivity. Qed.

Lemma lookup_tensors_only sd k v :
  tensors_only sd -> lookup k sd = Some v -> exists t, v = PyTensor t.
Proof.
  unfold tensors_only. induction 1 as [|[k' v'] sd H _ IH]; simpl.
  - discriminate.
  - destruct (String.eqb k k'); [intros [= <-]; exact H | exact IH].
Qed.

Lemma tensors_only_loadable sd (slots : list (string * Tensor)) :
  tensors_only sd -> slots_loadable sd slots.
Proof.
  intros H. apply Forall_forall. intros [k p] _. unfold loadable. simpl.
  destruct (lookup k sd) as [v|] eqn:E; [|exact I].
  destruct (lookup_tensors_only _ _ _ H E) as [t ->]. exact I.
Qed.

Lemma compat_input_ranked (p t : Tensor) :
  shape p <> [] -> compat_input p t = Ok t.
Proof. unfold compat_input. destruct (shape p); [congruence | reflexivity]. Qed.

Section SlotBySlot.

Variable sd : list (string * pyval).

Lemma load_param_spec key p acc :
  shape p <> [] -> loadable sd key ->
  load_param sd key p acc
  = (assign sd key p,
     Ok (extend acc (slot_missing sd key) [] (slot_errors sd key p))).
Proof.
  intros Hp. unfold loadable, load_param, assign, slot_missing, slot_errors.
  destruct (lookup key sd) as [[z|l|t|d]|]; try contradiction; intros _.
  - rewrite (compat_input_ranked _ _ Hp).
    destruct (Size_eqb (shape t) (shape p)); simpl.
    + now rewrite extend_nil.
    + now rewrite add_error_extend.
  - now rewrite add_missing_extend.
Qed.

Lemma load_param_loadable key p acc p' acc' :
  load_param sd key p acc = (p', Ok acc') -> loadable sd key.
Proof.
  unfold loadable, load_param.
  destruct (lookup key sd) as [[z|l|t|d]|]; try discriminate; intros _;
    exact I.
Qed.

Lemma Linear_load_spec prefix l acc :
  ranked_Linear l -> slots_loadable sd (Linear_state_dict prefix l) ->
  Linear_load sd prefix l acc
  = (assign_Linear sd prefix l,
     Ok (extend acc
           (missing_of sd (Linear_state_dict prefix l))
           (unexpected_in sd prefix [] ["weight"; "bias"])
           (errors_of sd (Linear_state_dict prefix l)))).
Proof.
  intros [Hw Hb] HL. unfold Linear_load.
  inversion HL as [|? ? Lw HL']; subst. inversion HL' as [|? ? Lb _]; subst.
  rewrite (load_param_spec _ _ _ Hw Lw). simpl.
  rewrite (load_param_spec _ _ _ Hb Lb).
  unfold scan_unexpected. rewrite add_unexpected_extend, !extend_extend.
  unfold assign_Linear, set_bias, set_weight, missing_of, errors_of.
  simpl. rewrite !app_nil_r. reflexivity.
Qed.

Lemma Linear_load_loadable prefix l acc l' acc' :
  ranked_Linear l ->
  Linear_load sd prefix l acc = (l', Ok acc') ->
  slots_loadable sd (Linear_state_dict prefix l).
Proof.
  intros [Hw Hb]. unfold Linear_load.
  destruct (load_param sd (prefix ++ "weight") (weight l) acc)
    as [w [acc1|e]] eqn:Ew; [|discriminate].
  cbn [set_weight bias].
  destruct (load_param sd (prefix ++ "bias") (bias l) acc1)
    as [b [acc2|e]] eqn:Eb; [|discriminate].
  intros _. apply load_param_loadable in Ew, Eb.
  repeat constructor; assumption.
Qed.

Lemma ModuleList_load_children_spec prefix ls : forall i acc,
  Forall ranked_Linear ls ->
  slots_loadable sd (ModuleList_state_dict prefix i ls) ->
  ModuleList_load_children sd prefix i ls acc
  = (assign_children sd prefix i ls,
     Ok (extend acc
           (missing_of sd (ModuleList_state_dict prefix i ls))
           (children_unexpected sd prefix i ls)
           (errors_of sd (ModuleList_state_dict prefix i ls)))).
Proof.
  induction ls as [|l ls IH]; intros i acc H HL.
  - simpl. now rewrite extend_nil.
  - inversion H as [|? ? Hl Hls]; subst.
    cbn [ModuleList_state_dict] in HL. apply Forall_app in HL as [HL1 HL2].
    cbn [ModuleList_load_children].
    rewrite (Linear_load_spec _ _ _ Hl HL1), (IH _ _ Hls HL2), extend_extend.
    cbn [assign_children ModuleList_state_dict children_unexpected].
    unfold missing_of, errors_of. rewrite !flat_map_app. reflexivity.
Qed.

Lemma ModuleList_load_children_loadable prefix ls : forall i acc ls' acc',
  Forall ranked_Linear ls ->
  ModuleList_load_children sd prefix i ls acc = (ls', Ok acc') ->
  slots_loadable sd (ModuleList_state_dict prefix i ls).
Proof.
  induction ls as [|l ls IH]; intros i acc ls' acc' H; [constructor|].
  inversion H as [|? ? Hl Hls]; subst. cbn [ModuleList_load_children].
  destruct (Linear_load sd (prefix ++ str i ++ ".") l acc)
    as [l1 [acc1|e]] eqn:El; [|discriminate].
  destruct (ModuleList_load_children sd prefix (S i) ls acc1)
    as [ls1 [acc2|e]] eqn:Els; [|discriminate].
  intros _. cbn [ModuleList_state_dict]. apply Forall_app. split.
  - eapply Linear_load_loadable; eassumption.
  - eapply IH; eassumption.
Qed.

Lemma Network_load_spec m acc :
  ranked m -> slots_loadable sd (state_dict m) ->
  Network_load sd m acc
  = (assign_Network sd m,
     Ok (extend acc (missing_keys (report sd m))
           (unexpected_keys (report sd m)) (error_msgs (report sd m)))).
Proof.
  intros [Hh Ho] HL. apply Forall_app in HL as [HL1 HL2].
  unfold Network_load, ModuleList_load, scan_unexpected.
  rewrite (ModuleList_load_children_spec _ _ _ _ Hh HL1).
  cbn [set_hidden_layers hidden_layers output].
  rewrite (Linear_load_spec _ _ _ Ho HL2).
  rewrite !add_unexpected_extend, !extend_extend.
  unfold report, Network_unexpected, state_dict, missing_of, errors_of.
  cbn [missing_keys unexpected_keys error_msgs].
  rewrite !flat_map_app. simpl. rewrite !app_nil_r.
  reflexivity.
Qed.

Lemma Network_load_loadable m acc m' acc' :
  ranked m ->
  Network_load sd m acc = (m', Ok acc') -> slots_loadable sd (state_dict m).
Proof.
  intros [Hh Ho]. unfold Network_load, ModuleList_load.
  match goal with
  | |- context [ModuleList_load_children sd ?p 0 ?ls ?a] =>
      destruct (ModuleList_load_children sd p 0 ls a)
        as [ls1 [acc1|e]] eqn:Els; [|discriminate]
  end.
  cbn [set_hidden_layers output].
  destruct (Linear_load sd "output." (output m) acc1)
    as [o1 [acc2|e]] eqn:Eo; [|discriminate].
  intros _. apply Forall_app. split.
  - eapply ModuleList_load_children_loadable; eassumption.
  - eapply Linear_load_loadable; eassumption.
Qed.

Lemma load_state_dict_spec m :
  ranked m -> slots_loadable sd (state_dict m) ->
  load_state_dict m (PyDict sd) = (assign_Network sd m, outcome sd m).
Proof.
  intros H HL. unfold load_state_dict, outcome.
  rewrite (Network_load_spec _ _ H HL).
  replace (extend empty_acc _ _ _) with (report sd m)
    by (destruct (report sd m); reflexivity).
  destruct (nonempty (final_msgs (report sd m))); reflexivity.
Qed.

End SlotBySlot.

Lemma nonempty_false {A : Type} (l : list A) : nonempty l = false -> l = [].
Proof. destruct l; [reflexivity | discriminate]. Qed.

Lemma final_msgs_nil (acc : Acc) :
  final_msgs acc = [] -> acc = empty_acc.
Proof.
  destruct acc as [ms us es]. unfold final_msgs. simpl.
  destruct ms; [|discriminate]. destruct us; [|discriminate].
  simpl. now intros ->.
Qed.

(** A call that returns has met a dictionary, found nothing to report,
    and assigned every slot. *)
Lemma load_state_dict_Ok m v m' keys :
  ranked m -> load_state_dict m v = (m', Ok keys) ->
  exists sd,
    v = PyDict sd /\ m' = assign_Network sd m /\ report sd m = empty_acc /\
    keys = ([], []) /\ slots_loadable sd (state_dict m).
Proof.
  intros H E. destruct v as [z|l|t|sd];
    try (simpl in E; discriminate).
  exists sd. split; [reflexivity|].
  assert (HL : slots_loadable sd (state_dict m)).
  { unfold load_state_dict in E.
    destruct (Network_load sd m empty_acc) as [m1 [acc1|e]] eqn:EN;
      [|discriminate].
    eapply Network_load_loadable; eassumption. }
  rewrite (load_state_dict_spec _ _ H HL) in E. unfold outcome in E.
  destruct (nonempty (final_msgs (report sd m))) eqn:En.
  - discriminate.
  - apply nonempty_false, final_msgs_nil in En.
    rewrite En in E. injection E as <- <-. auto.
Qed.

(** ** The constructor *)

Lemma new_parameter_ok (dims : Size) (w : World) :
  Forall (fun d => 0 <= d) dims ->
  exists xs g,
    new_parameter dims w = (Ok {| shape := dims; data := xs |}, set_generator w g).
Proof.
  intros H. unfold new_parameter.
  replace (existsb (fun d => d <? 0) dims) with false.
  - unfold bind, draw, ret. eauto.
  - symmetry. induction H as [|d dims Hd _ IH]; simpl; [reflexivity|].
    rewrite IH. destruct (Z.ltb_spec d 0); [lia | reflexivity].
Qed.

Lemma same_but_generator_refl w : same_but_generator w w.
Proof. repeat split. Qed.

Lemma same_but_generator_trans w1 w2 w3 :
  same_but_generator w1 w2 -> same_but_generator w2 w3 ->
  same_but_generator w1 w3.
Proof. unfold same_but_generator. intuition congruence. Qed.

Lemma same_but_generator_set w g : same_but_generator w (set_generator w g).
Proof. repeat split. Qed.

Lemma Linear_init_ok (i o : Z) (w : World) :
  0 <= i -> 0 <= o ->
  exists l w',
    Linear_init i o w = (Ok l, w') /\ Linear_has_widths i o l /\
    same_but_generator w w'.
Proof.
  intros Hi Ho. unfold Linear_init, bind.
  destruct (new_parameter_ok [o; i] w) as (xs & g & ->); [auto|].
  destruct (new_parameter_ok [o] (set_generator w g)) as (ys & g' & ->);
    [auto|].
  eexists _, _. split; [reflexivity|]. split.
  - repeat split.
  - repeat split.
Qed.

Lemma hidden_init_ok (hidden : list Z) : forall (prev : Z) (w : World),
  0 <= prev -> Forall (fun h => 0 <= h) hidden ->
  exists ls w',
    hidden_init prev hidden w = (Ok ls, w') /\ chained prev hidden ls /\
    same_but_generator w w'.
Proof.
  induction hidden as [|h hidden IH]; intros prev w Hp Hh.
  - exists [], w. repeat split.
  - inversion Hh as [|? ? Hh1 Hh2]; subst. simpl. unfold bind.
    destruct (Linear_init_ok prev h w Hp Hh1) as (l & w1 & -> & Hl & S1).
    destruct (IH h w1 Hh1 Hh2) as (ls & w2 & -> & Hls & S2).
    exists (l :: ls), w2. split; [reflexivity|]. split.
    + split; assumption.
    + eapply same_but_generator_trans; eassumption.
Qed.

Lemma last_nonneg (hidden : list Z) :
  Forall (fun h => 0 <= h) hidden -> 0 <= last hidden 0.
Proof.
  induction 1 as [|h hidden Hh H IH]; [simpl; lia|].
  destruct hidden; [exact Hh | exact IH].
Qed.

Lemma Network_init_ok (i o : Z) (hidden : list Z) (w : World) :
  0 <= i -> 0 <= o -> Forall (fun h => 0 <= h) hidden -> hidden <> [] ->
  exists m w',
    Network_init i o hidden w = (Ok m, w') /\ has_architecture i o hidden m /\
    same_but_generator w w'.
Proof.
  intros Hi Ho Hh Hne. unfold Network_init.
  destruct hidden as [|h hs] eqn:E; [congruence|]. rewrite <- E in *.
  unfold bind.
  destruct (hidden_init_ok hidden i w Hi Hh) as (ls & w1 & -> & Hls & S1).
  destruct (Linear_init_ok (last hidden 0) o w1 (last_nonneg _ Hh) Ho)
    as (l & w2 & -> & Hl & S2).
  eexists _, w2. split; [reflexivity|]. split.
  - split; [assumption|]. split; [assumption|]. split; [exact Hl | reflexivity].
  - eapply same_but_generator_trans; eassumption.
Qed.

Lemma valid_widths_nonneg (i o : Z) (hidden : list Z) :
  valid_widths i o hidden ->
  0 <= i /\ 0 <= o /\ Forall (fun h => 0 <= h) hidden.
Proof.
  intros (Hi & Ho & Hh). repeat split; try lia.
  eapply Forall_impl; [|exact Hh]. simpl. intros. lia.
Qed.

Lemma bind_Ok {A B : Type} (c : Cell A) (k : A -> Cell B) w b w' :
  bind c k w = (Ok b, w') ->
  exists a w1, c w = (Ok a, w1) /\ k a w1 = (Ok b, w').
Proof.
  unfold bind. destruct (c w) as [[a|e] w1]; [eauto | discriminate].
Qed.

Lemma new_parameter_shape (dims : Size) w t w' :
  new_parameter dims w = (Ok t, w') -> shape t = dims.
Proof.
  unfold new_parameter. destruct (existsb _ dims); [discriminate|].
  intros H. apply bind_Ok in H as (xs & w1 & _ & H).
  unfold ret in H. now injection H as <- _.
Qed.

Lemma Linear_init_widths (i o : Z) w l w' :
  Linear_init i o w = (Ok l, w') -> Linear_has_widths i o l.
Proof.
  unfold Linear_init. intros H.
  apply bind_Ok in H as (wt & w1 & Hw & H).
  apply bind_Ok in H as (bs & w2 & Hb & H).
  unfold ret in H. injection H as <- _.
  apply new_parameter_shape in Hw, Hb. repeat split; assumption.
Qed.

(** Whatever the constructor returns has the architecture it was asked
    for: it fails on an empty list or a negative width. *)
Lemma hidden_init_chained (hidden : list Z) : forall prev w ls w',
  hidden_init prev hidden w = (Ok ls, w') -> chained prev hidden ls.
Proof.
  induction hidden as [|h hidden IH]; intros prev w ls w'; simpl.
  - unfold ret. intros [= <- _]. exact I.
  - intros H.
    apply bind_Ok in H as (l & w1 & Hl & H).
    apply bind_Ok in H as (ls' & w2 & Hls & H).
    unfold ret in H. injection H as <- _. split.
    + eapply Linear_init_widths, Hl.
    + eapply IH, Hls.
Qed.

Lemma Network_init_architecture (i o : Z) (hidden : list Z) w m w' :
  Network_init i o hidden w = (Ok m, w') -> has_architecture i o hidden m.
Proof.
  unfold Network_init. destruct hidden as [|h hs] eqn:E; [discriminate|].
  rewrite <- E. intros H.
  apply bind_Ok in H as (ls & w1 & Hls & H).
  apply bind_Ok in H as (l & w2 & Hl & H).
  unfold ret in H. injection H as <- _.
  split; [congruence|]. split; [eapply hidden_init_chained, Hls|].
  split; [eapply Linear_init_widths, Hl | reflexivity].
Qed.

(** ** The keys of a state dictionary and what is stored under them *)

Lemma lookup_py_tensors (k : string) (d : list (string * Tensor)) :
  lookup k (py_tensors d) = option_map PyTensor (lookup k d).
Proof.
  induction d as [|[k' t] d IH]; simpl; [reflexivity|].
  destruct (String.eqb k k'); [reflexivity | exact IH].
Qed.

Lemma tensors_only_py_tensors (d : list (string * Tensor)) :
  tensors_only (py_tensors d).
Proof.
  unfold tensors_only, py_tensors. apply Forall_forall.
  intros kv H. apply in_map_iff in H as ([k t] & <- & _). simpl. eauto.
Qed.

Lemma map_fst_py_tensors (d : list (string * Tensor)) :
  map fst (py_tensors d) = map fst d.
Proof. unfold py_tensors. rewrite map_map. reflexivity. Qed.

Lemma eqb_not_prefixed (p k x : string) :
  strip_prefix p k = None -> String.eqb k (p ++ x) = false.
Proof.
  intros H. apply String.eqb_neq. intros ->.
  rewrite strip_prefix_app in H. discriminate.
Qed.

Lemma ModuleList_state_dict_cons prefix i l ls :
  ModuleList_state_dict prefix i (l :: ls)
  = (child_key prefix i "weight", weight l)
      :: (child_key prefix i "bias", bias l)
      :: ModuleList_state_dict prefix (S i) ls.
Proof. reflexivity. Qed.

Lemma lookup_children_other prefix key rest ls : forall i,
  strip_prefix prefix key = None ->
  lookup key (ModuleList_state_dict prefix i ls ++ rest)%list = lookup key rest.
Proof.
  induction ls as [|l ls IH]; intros i H; [reflexivity|].
  rewrite ModuleList_state_dict_cons. cbn [app lookup].
  rewrite !child_key_eq, !(eqb_not_prefixed _ _ _ H). auto.
Qed.

Lemma lookup_children_weight prefix rest ls : forall i k,
  lookup (child_key prefix (i + k) "weight")
    (ModuleList_state_dict prefix i ls ++ rest)%list
  = match nth_error ls k with
    | Some l => Some (weight l)
    | None => lookup (child_key prefix (i + k) "weight") rest
    end.
Proof.
  induction ls as [|l ls IH]; intros i k.
  - destruct k; reflexivity.
  - rewrite ModuleList_state_dict_cons. cbn [app lookup].
    rewrite !child_key_eqb. destruct k as [|k].
    + rewrite Nat.add_0_r, Nat.eqb_refl. reflexivity.
    + replace (Nat.eqb (i + S k) i) with false
        by (symmetry; apply Nat.eqb_neq; lia).
      cbn [andb nth_error]. rewrite <- Nat.add_succ_comm. apply IH.
Qed.

Lemma lookup_children_bias prefix rest ls : forall i k,
  lookup (child_key prefix (i + k) "bias")
    (ModuleList_state_dict prefix i ls ++ rest)%list
  = match nth_error ls k with
    | Some l => Some (bias l)
    | None => lookup (child_key prefix (i + k) "bias") rest
    end.
Proof.
  induction ls as [|l ls IH]; intros i k.
  - destruct k; reflexivity.
  - rewrite ModuleList_state_dict_cons. cbn [app lookup].
    rewrite !child_key_eqb. destruct k as [|k].
    + rewrite Nat.add_0_r, Nat.eqb_refl. reflexivity.
    + replace (Nat.eqb (i + S k) i) with false
        by (symmetry; apply Nat.eqb_neq; lia).
      cbn [andb nth_error]. rewrite <- Nat.add_succ_comm. apply IH.
Qed.

Lemma lookup_hidden_weight (m : Network) (k : nat) :
  lookup (child_key "hidden_layers." k "weight") (state_dict m)
  = option_map weight (nth_error (hidden_layers m) k).
Proof.
  unfold state_dict.
  rewrite (lookup_children_weight "hidden_layers." _ _ 0 k).
  destruct (nth_error (hidden_layers m) k); [reflexivity|].
  rewrite child_key_eq. reflexivity.
Qed.

Lemma lookup_hidden_bias (m : Network) (k : nat) :
  lookup (child_key "hidden_layers." k "bias") (state_dict m)
  = option_map bias (nth_error (hidden_layers m) k).
Proof.
  unfold state_dict.
  rewrite (lookup_children_bias "hidden_layers." _ _ 0 k).
  destruct (nth_error (hidden_layers m) k); [reflexivity|].
  rewrite child_key_eq. reflexivity.
Qed.

Lemma lookup_output_weight (m : Network) :
  lookup "output.weight" (state_dict m) = Some (weight (output m)).
Proof.
  unfold state_dict. rewrite lookup_children_other; reflexivity.
Qed.

Lemma lookup_output_bias (m : Network) :
  lookup "output.bias" (state_dict m) = Some (bias (output m)).
Proof.
  unfold state_dict. rewrite lookup_children_other; reflexivity.
Qed.

Lemma keys_children prefix ls : forall i key,
  In key (map fst (ModuleList_state_dict prefix i ls)) ->
  exists j name,
    (i <= j < i + List.length ls)%nat /\
    (name = "weight" \/ name = "bias") /\ key = child_key prefix j name.
Proof.
  induction ls as [|l ls IH]; intros i key H; [destruct H|].
  rewrite ModuleList_state_dict_cons in H. cbn [map fst In] in H.
  destruct H as [<-|[<-|H]].
  - exists i, "weight". simpl. repeat split; auto; lia.
  - exists i, "bias". simpl. repeat split; auto; lia.
  - apply IH in H as (j & name & Hj & Hn & ->).
    exists j, name. simpl. repeat split; auto; lia.
Qed.

Lemma keys_state_dict (m : Network) (key : string) :
  In key (map fst (state_dict m)) ->
  net_key (List.length (hidden_layers m)) key.
Proof.
  unfold state_dict. rewrite map_app, in_app_iff. intros [H|H].
  - apply keys_children in H as (j & name & Hj & Hn & ->).
    apply net_key_hidden; [lia | assumption].
  - cbn in H. destruct H as [<-|[<-|[]]].
    + apply (net_key_output _ "weight"). auto.
    + apply (net_key_output _ "bias"). auto.
Qed.

(** ** Keys that no module reports as unexpected *)

Lemma mem_str_seq (i n : nat) : mem (str i) (map str (seq 0 n)) = Nat.ltb i n.
Proof.
  unfold mem. destruct (Nat.ltb_spec i n) as [H|H].
  - apply existsb_exists. exists (str i). split; [|apply String.eqb_refl].
    apply in_map, in_seq. lia.
  - destruct (existsb _ _) eqn:E; [|reflexivity].
    apply existsb_exists in E as (s & Hs & E).
    apply String.eqb_eq in E. subst s.
    apply in_map_iff in Hs as (j & Hj & Hin).
    apply str_inj in Hj. subst j. apply in_seq in Hin. lia.
Qed.

Lemma expected_at_root n key :
  net_key n key ->
  is_unexpected "" ["hidden_layers"; "output"; "dropout"] [] key = false.
Proof.
  intros [i name _ _|name Hn].
  - rewrite child_key_eq. reflexivity.
  - destruct Hn as [-> | ->]; reflexivity.
Qed.

Lemma expected_at_list n n' key :
  net_key n key -> (n <= n')%nat ->
  is_unexpected "hidden_layers." (map str (seq 0 n')) [] key = false.
Proof.
  intros [i name Hi _|name Hn] Hle.
  - rewrite child_key_eq. unfold is_unexpected.
    rewrite strip_prefix_app, before_dot_app by apply no_dot_str.
    rewrite mem_str_seq.
    replace (Nat.ltb i n') with true by (symmetry; apply Nat.ltb_lt; lia).
    reflexivity.
  - reflexivity.
Qed.

Lemma expected_at_child n j key :
  net_key n key ->
  is_unexpected ("hidden_layers." ++ str j ++ ".") [] ["weight"; "bias"] key
  = false.
Proof.
  intros [i name _ Hn|name Hn].
  - rewrite child_key_eq. unfold is_unexpected.
    rewrite strip_prefix_app_l, strip_prefix_dot by apply no_dot_str.
    destruct (String.eqb (str j) (str i)); [|reflexivity].
    destruct Hn as [-> | ->]; reflexivity.
  - reflexivity.
Qed.

Lemma expected_at_output n key :
  net_key n key ->
  is_unexpected "output." [] ["weight"; "bias"] key = false.
Proof.
  intros [i name _ _|name Hn].
  - rewrite child_key_eq. reflexivity.
  - unfold is_unexpected. rewrite strip_prefix_app.
    destruct Hn as [-> | ->]; reflexivity.
Qed.

Lemma expected_at_dropout n key :
  net_key n key -> is_unexpected "dropout." [] [] key = false.
Proof.
  intros [i name _ _|name Hn].
  - rewrite child_key_eq. reflexivity.
  - reflexivity.
Qed.

Lemma filter_nil {A : Type} (f : A -> bool) (l : list A) :
  (forall x, In x l -> f x = false) -> filter f l = [].
Proof.
  induction l as [|a l IH]; intros H; [reflexivity|]. simpl.
  rewrite (H a) by (left; reflexivity). apply IH. intros x Hx.
  apply H. right. exact Hx.
Qed.

Lemma children_unexpected_nil sd n ls : forall i,
  (forall key, In key (map fst sd) -> net_key n key) ->
  children_unexpected sd "hidden_layers." i ls = [].
Proof.
  induction ls as [|l ls IH]; intros i H; [reflexivity|].
  cbn [children_unexpected]. rewrite (IH _ H), app_nil_r.
  apply filter_nil. intros key Hk. eapply expected_at_child, H, Hk.
Qed.

(** A dictionary with the keys of a network of [n] hidden layers has no
    unexpected key for a network of as many hidden layers. *)
Lemma Network_unexpected_nil sd m :
  (forall key, In key (map fst sd) ->
               net_key (List.length (hidden_layers m)) key) ->
  Network_unexpected sd m = [].
Proof.
  intros H. unfold Network_unexpected, unexpected_in.
  rewrite (children_unexpected_nil _ _ _ _ H).
  rewrite !filter_nil; [reflexivity|..]; intros key Hk; apply H in Hk.
  - eapply expected_at_dropout, Hk.
  - eapply expected_at_output, Hk.
  - eapply expected_at_list; [exact Hk | lia].
  - eapply expected_at_root, Hk.
Qed.

(** ** Loading what a model of the same architecture stored *)

Lemma Size_eqb_eq (s1 s2 : Size) : Size_eqb s1 s2 = true <-> s1 = s2.
Proof.
  revert s2. induction s1 as [|a s1 IH]; intros [|b s2]; simpl;
    try (split; [discriminate | congruence]).
  - split; reflexivity.
  - rewrite andb_true_iff, Z.eqb_eq, IH. split.
    + intros [-> ->]. reflexivity.
    + intros [= -> ->]. auto.
Qed.

Lemma Size_eqb_refl (s : Size) : Size_eqb s s = true.
Proof. apply Size_eqb_eq. reflexivity. Qed.

Lemma chained_length (hidden : list Z) : forall prev ls,
  chained prev hidden ls -> List.length ls = List.length hidden.
Proof.
  induction hidden as [|h hidden IH]; intros prev [|l ls] H;
    simpl in *; try contradiction; [reflexivity|].
  destruct H as [_ H]. f_equal. eapply IH, H.
Qed.

Lemma chained_ranked (hidden : list Z) : forall prev ls,
  chained prev hidden ls -> Forall ranked_Linear ls.
Proof.
  induction hidden as [|h hidden IH]; intros prev [|l ls] H;
    simpl in *; try contradiction; constructor.
  - destruct H as [(_ & _ & Hw & Hb) _]. split; congruence.
  - destruct H as [_ H]. eapply IH, H.
Qed.

Lemma has_architecture_ranked i o hidden m :
  has_architecture i o hidden m -> ranked m.
Proof.
  intros (_ & Hc & (_ & _ & Hw & Hb) & _). split.
  - eapply chained_ranked, Hc.
  - split; congruence.
Qed.

Lemma chained_widths (hidden : list Z) : forall prev ls,
  chained prev hidden ls -> map out_features ls = hidden.
Proof.
  induction hidden as [|h hidden IH]; intros prev [|l ls] H;
    simpl in *; try contradiction; [reflexivity|].
  destruct H as [(_ & Ho & _) H]. f_equal; [exact Ho | eapply IH, H].
Qed.

Section SameArchitecture.

Variable sd : list (string * pyval).

Lemma assign_stored key p t :
  lookup key sd = Some (PyTensor t) -> shape p = shape t ->
  assign sd key p = t /\ slot_missing sd key = [] /\ slot_errors sd key p = [].
Proof.
  intros E Hs. unfold assign, slot_missing, slot_errors.
  rewrite E, Hs, Size_eqb_refl. repeat split.
  unfold copy_. rewrite Hs. destruct t. reflexivity.
Qed.

Lemma assign_Linear_stored prefix i o f l :
  lookup (prefix ++ "weight") sd = Some (PyTensor (weight l)) ->
  lookup (prefix ++ "bias") sd = Some (PyTensor (bias l)) ->
  Linear_has_widths i o f -> Linear_has_widths i o l ->
  assign_Linear sd prefix f = l /\
  missing_of sd (Linear_state_dict prefix f) = [] /\
  errors_of sd (Linear_state_dict prefix f) = [].
Proof.
  intros Ew Eb (Hfi & Hfo & Hfw & Hfb) (Hli & Hlo & Hlw & Hlb).
  destruct (assign_stored _ (weight f) _ Ew) as (Aw & Mw & Rw); [congruence|].
  destruct (assign_stored _ (bias f) _ Eb) as (Ab & Mb & Rb); [congruence|].
  unfold assign_Linear, missing_of, errors_of. simpl.
  rewrite Aw, Ab, Mw, Mb, Rw, Rb, Hfi, Hfo, <- Hli, <- Hlo.
  destruct l. repeat split.
Qed.

Lemma assign_children_stored prefix (hidden : list Z) : forall prev fs ls i,
  chained prev hidden fs -> chained prev hidden ls ->
  (forall k l, nth_error ls k = Some l ->
     lookup (child_key prefix (i + k) "weight") sd = Some (PyTensor (weight l))
     /\ lookup (child_key prefix (i + k) "bias") sd
        = Some (PyTensor (bias l))) ->
  assign_children sd prefix i fs = ls /\
  missing_of sd (ModuleList_state_dict prefix i fs) = [] /\
  errors_of sd (ModuleList_state_dict prefix i fs) = [].
Proof.
  induction hidden as [|h hidden IH]; intros prev [|f fs] [|l ls] i Hf Hl H;
    simpl in Hf, Hl; try contradiction; [repeat split|].
  destruct Hf as [Hf Hfs], Hl as [Hl Hls].
  destruct (H 0%nat l eq_refl) as [Ew Eb]. rewrite Nat.add_0_r in Ew, Eb.
  destruct (assign_Linear_stored _ _ _ _ _ Ew Eb Hf Hl) as (A & M & R).
  destruct (IH h fs ls (S i) Hfs Hls) as (A' & M' & R').
  { intros k l' Hk. rewrite Nat.add_succ_comm. apply (H (S k) l' Hk). }
  cbn [assign_children ModuleList_state_dict].
  unfold missing_of, errors_of in *. rewrite !flat_map_app.
  unfold child_key in A, M, R. rewrite A, A', M, M', R, R'. repeat split.
Qed.

End SameArchitecture.

Lemma holds_state_dict (m : Network) : holds (py_tensors (state_dict m)) m.
Proof.
  split; [|split].
  - intros k l Hk. rewrite !lookup_py_tensors.
    rewrite lookup_hidden_weight, lookup_hidden_bias, Hk.
    split; reflexivity.
  - rewrite lookup_py_tensors, lookup_output_weight. reflexivity.
  - rewrite lookup_py_tensors, lookup_output_bias. reflexivity.
Qed.

(** Loading a dictionary that holds [m] into a model of the architecture
    of [m] yields [m]; nothing is missing and nothing mismatches. *)
Lemma assign_holds i o hidden f m sd :
  has_architecture i o hidden f -> has_architecture i o hidden m ->
  holds sd m ->
  assign_Network sd f = m /\
  missing_of sd (state_dict f) = [] /\ errors_of sd (state_dict f) = [].
Proof.
  intros (_ & Hfc & Hfo & Hfd) (_ & Hmc & Hmo & Hmd) (Hh & How & Hob).
  destruct (assign_children_stored sd "hidden_layers." hidden i
              (hidden_layers f) (hidden_layers m) 0 Hfc Hmc Hh)
    as (A & M & R).
  destruct (assign_Linear_stored sd "output." (last hidden 0) o
              (output f) (output m)) as (A' & M' & R'); try assumption.
  split; [|split].
  - unfold assign_Network. rewrite A, A', Hfd, <- Hmd. destruct m. reflexivity.
  - unfold state_dict, missing_of in *. rewrite flat_map_app, M, M'.
    reflexivity.
  - unfold state_dict, errors_of in *. rewrite flat_map_app, R, R'.
    reflexivity.
Qed.

Lemma report_same_architecture i o hidden f m :
  has_architecture i o hidden f -> has_architecture i o hidden m ->
  assign_Network (py_tensors (state_dict m)) f = m /\
  report (py_tensors (state_dict m)) f = empty_acc.
Proof.
  intros Hf Hm.
  destruct (assign_holds _ _ _ _ _ _ Hf Hm (holds_state_dict m))
    as (A & M & R).
  split; [exact A|]. unfold report. rewrite M, R.
  rewrite Network_unexpected_nil; [reflexivity|].
  intros key Hk. rewrite map_fst_py_tensors in Hk.
  apply keys_state_dict in Hk.
  destruct Hf as (_ & Hfc & _), Hm as (_ & Hmc & _).
  rewrite (chained_length _ _ _ Hfc), <- (chained_length _ _ _ Hmc).
  exact Hk.
Qed.

Lemma load_state_dict_same_architecture i o hidden f m :
  has_architecture i o hidden f -> has_architecture i o hidden m ->
  load_state_dict f (py_state_dict m) = (m, Ok ([], [])).
Proof.
  intros Hf Hm. unfold py_state_dict.
  rewrite load_state_dict_spec
    by (apply tensors_only_loadable, tensors_only_py_tensors
        || eapply has_architecture_ranked, Hf).
  destruct (report_same_architecture _ _ _ _ _ Hf Hm) as [A R].
  unfold outcome. rewrite A, R. reflexivity.
Qed.

(** ** The loader, step by step *)

Lemma as_ints_PyInt (hs : list Z) : as_ints (map PyInt hs) = Ok hs.
Proof. induction hs as [|h hs IH]; simpl; [|rewrite IH]; reflexivity. Qed.

Lemma lift_Ok {A : Type} (r : result A) w a w' :
  lift r w = (Ok a, w') -> r = Ok a /\ w' = w.
Proof. unfold lift. intros [= -> ->]. auto. Qed.

Lemma torch_load_Ok path w v w' :
  torch_load path w = (Ok v, w') -> lookup path (files w) = Some v /\ w' = w.
Proof.
  unfold torch_load. destruct (lookup path (files w)); [|discriminate].
  intros [= -> ->]. auto.
Qed.

Lemma Network_call_Ok vi vo vh w f w' :
  Network_call vi vo vh w = (Ok f, w') ->
  exists i o hs,
    as_int vi = Ok i /\ as_int vo = Ok o /\ as_int_list vh = Ok hs /\
    Network_init i o hs w = (Ok f, w').
Proof.
  unfold Network_call. intros H.
  apply bind_Ok in H as (hs & w1 & H1 & H). apply lift_Ok in H1 as [H1 ->].
  apply bind_Ok in H as (i & w2 & H2 & H). apply lift_Ok in H2 as [H2 ->].
  apply bind_Ok in H as (o & w3 & H3 & H). apply lift_Ok in H3 as [H3 ->].
  eauto 8.
Qed.

(** The loader on a record that has the four fields and whose widths the
    constructor accepts: the outcome is that of [load_state_dict] on the
    new model. *)
Lemma load_checkpoint_steps path w rec vi vo vh vs i o hs f w' :
  lookup path (files w) = Some rec ->
  getitem rec "input_size" = Ok vi ->
  getitem rec "output_size" = Ok vo ->
  getitem rec "hidden_layers" = Ok vh ->
  as_int vi = Ok i -> as_int vo = Ok o -> as_int_list vh = Ok hs ->
  Network_init i o hs w = (Ok f, w') ->
  getitem rec "state_dict" = Ok vs ->
  load_checkpoint path w
  = (match snd (load_state_dict f vs) with
     | Ok _ => Ok (fst (load_state_dict f vs))
     | Raise e => Raise e
     end, w').
Proof.
  intros Hf Hi Ho Hh Ei Eo Eh EN Hs.
  unfold load_checkpoint, bind at 1, torch_load. rewrite Hf.
  unfold bind at 1, lift at 1. rewrite Hi.
  unfold bind at 1, lift at 1. rewrite Ho.
  unfold bind at 1, lift at 1. rewrite Hh.
  unfold bind at 1, Network_call.
  unfold bind at 1, lift at 1. rewrite Eh.
  unfold bind at 1, lift at 1. rewrite Ei.
  unfold bind at 1, lift at 1. rewrite Eo. rewrite EN.
  unfold bind at 1, lift at 1. rewrite Hs.
  destruct (load_state_dict f vs) as [m [keys|e]]; reflexivity.
Qed.

Lemma load_checkpoint_Ok path w m w' :
  load_checkpoint path w = (Ok m, w') ->
  exists rec vi vo vh vs i o hs f keys,
    lookup path (files w) = Some rec /\
    getitem rec "input_size" = Ok vi /\
    getitem rec "output_size" = Ok vo /\
    getitem rec "hidden_layers" = Ok vh /\
    getitem rec "state_dict" = Ok vs /\
    as_int vi = Ok i /\ as_int vo = Ok o /\ as_int_list vh = Ok hs /\
    Network_init i o hs w = (Ok f, w') /\
    load_state_dict f vs = (m, Ok keys).
Proof.
  unfold load_checkpoint. intros H.
  apply bind_Ok in H as (rec & w1 & H1 & H).
  apply torch_load_Ok in H1 as [H1 ->].
  apply bind_Ok in H as (vi & w2 & H2 & H). apply lift_Ok in H2 as [H2 ->].
  apply bind_Ok in H as (vo & w3 & H3 & H). apply lift_Ok in H3 as [H3 ->].
  apply bind_Ok in H as (vh & w4 & H4 & H). apply lift_Ok in H4 as [H4 ->].
  apply bind_Ok in H as (f & w5 & H5 & H).
  apply Network_call_Ok in H5 as (i & o & hs & Ei & Eo & Eh & EN).
  apply bind_Ok in H as (vs & w6 & H6 & H). apply lift_Ok in H6 as [H6 ->].
  destruct (load_state_dict f vs) as [m1 r] eqn:EL.
  apply bind_Ok in H as (keys & w7 & H7 & H). apply lift_Ok in H7 as [-> ->].
  unfold ret in H. injection H as -> ->.
  exists rec, vi, vo, vh, vs, i, o, hs, f, keys. repeat split; assumption.
Qed.

(** ** Round trip through the writer and the loader *)

Lemma hidden_layers_field (hidden : list Z) prev (ls : list Linear) :
  chained prev hidden ls ->
  as_int_list (PyList (map (fun each => PyInt (out_features each)) ls))
  = Ok hidden.
Proof.
  intros H. simpl. rewrite <- (chained_widths _ _ _ H), <- as_ints_PyInt.
  rewrite map_map. reflexivity.
Qed.

(** The loader on the record the writer makes of a model with 784 inputs
    and 10 outputs. *)
Lemma writer_record_loads path w m hidden :
  valid_widths 784 10 hidden ->
  has_architecture 784 10 hidden m ->
  lookup path (files w) = Some (checkpoint m) ->
  exists w', load_checkpoint path w = (Ok m, w').
Proof.
  intros Hv Ha Hf.
  apply valid_widths_nonneg in Hv as (Hi & Ho & Hh).
  destruct (Network_init_ok 784 10 hidden w Hi Ho Hh) as (f & w' & EN & Hf' & _);
    [apply Ha|].
  exists w'.
  rewrite (load_checkpoint_steps path w (checkpoint m)
             (PyInt 784) (PyInt 10)
             (PyList (map (fun each => PyInt (out_features each))
                          (hidden_layers m)))
             (py_state_dict m) 784 10 hidden f w');
    try reflexivity; try assumption.
  - rewrite (load_state_dict_same_architecture _ _ _ _ _ Hf' Ha).
    reflexivity.
  - eapply hidden_layers_field. apply Ha.
Qed.

Lemma cell_11_writes w m :
  var_model w = Some m ->
  cell_11 w
  = (Ok tt, set_files w (("checkpoint.pth", checkpoint m) :: files w)).
Proof.
  intros Hm. unfold cell_11, bind, get_model. rewrite Hm. reflexivity.
Qed.

(** C1 (amended).  For every model with input width 784, output width 10
    and positive hidden widths, whatever its parameter values, running
    the checkpoint writer and then the loader on the file returns that
    very model: the same layer widths and, bit for bit, the same weights
    and biases. *)
Theorem save_load_roundtrip (w : World) (m : Network) (hidden : list Z) :
  var_model w = Some m ->
  valid_widths 784 10 hidden ->
  has_architecture 784 10 hidden m ->
  exists w1 w2,
    cell_11 w = (Ok tt, w1) /\
    load_checkpoint "checkpoint.pth" w1 = (Ok m, w2).
Proof.
  intros Hm Hv Ha.
  set (w1 := set_files w (("checkpoint.pth", checkpoint m) :: files w)).
  destruct (writer_record_loads "checkpoint.pth" w1 m hidden Hv Ha eq_refl)
    as (w2 & HL).
  exists w1, w2. split; [apply cell_11_writes, Hm | exact HL].
Qed.

Lemma save_load_roundtrip_witness :
  exists w1 w2,
    cell_11 (world_with model_784_2_10) = (Ok tt, w1) /\
    load_checkpoint "checkpoint.pth" w1 = (Ok model_784_2_10, w2).
Proof.
  apply (save_load_roundtrip (world_with model_784_2_10) model_784_2_10 [2]).
  - reflexivity.
  - repeat split; try lia. repeat constructor.
  - repeat split. discriminate.
Defined.

(** C1, as stated, fails: the writer records 784 and 10 whatever the
    model's input and output widths are.  The checkpoint of a model with
    4 inputs and 2 outputs is rejected by the loader. *)
Lemma roundtrip_fails_for_other_widths :
  valid_widths 4 2 [3] /\
  has_architecture 4 2 [3] model_4_3_2 /\
  fst (load_checkpoint "checkpoint.pth"
         (snd (cell_11 (world_with model_4_3_2))))
  = Raise (RuntimeError
             [size_mismatch "hidden_layers.0.weight" [3; 4] [3; 784];
              size_mismatch "output.weight" [2; 3] [10; 3];
              size_mismatch "output.bias" [2] [10]]).
Proof.
  split; [|split].
  - repeat split; try lia. repeat constructor.
  - repeat split. discriminate.
  - vm_compute. reflexivity.
Qed.

(** ** Shape consistency *)

Lemma lookup_In {V : Type} (k : string) (d : list (string * V)) (v : V) :
  lookup k d = Some v -> In (k, v) d.
Proof.
  induction d as [|[k' v'] d IH]; simpl; [discriminate|].
  destruct (String.eqb_spec k k') as [->|_].
  - intros [= ->]. left. reflexivity.
  - intros H. right. apply IH, H.
Qed.

Lemma previous_width_tail (h : Z) (hidden : list Z) (k : nat) :
  previous_width h hidden k = nth k (h :: hidden) 0.
Proof. destruct k; reflexivity. Qed.

Lemma chained_nth (hidden : list Z) : forall prev ls k h,
  chained prev hidden ls -> nth_error hidden k = Some h ->
  exists l,
    nth_error ls k = Some l /\
    Linear_has_widths (previous_width prev hidden k) h l.
Proof.
  induction hidden as [|h0 hidden IH]; intros prev [|l ls] k h Hc Hk;
    simpl in Hc; try contradiction.
  - destruct k; discriminate.
  - destruct Hc as [Hl Hc]. destruct k as [|k].
    + injection Hk as <-. exists l. split; [reflexivity | exact Hl].
    + destruct (IH h0 ls k h Hc Hk) as (l' & Hn & Hw).
      exists l'. split; [exact Hn|].
      rewrite previous_width_tail in Hw. exact Hw.
Qed.

Lemma shapes_consistent_intro i o hidden f sd :
  has_architecture i o hidden f ->
  (forall k l, nth_error (hidden_layers f) k = Some l ->
     stored_shape sd (child_key "hidden_layers." k "weight")
       (shape (weight l)) /\
     stored_shape sd (child_key "hidden_layers." k "bias") (shape (bias l))) ->
  stored_shape sd "output.weight" (shape (weight (output f))) ->
  stored_shape sd "output.bias" (shape (bias (output f))) ->
  shapes_consistent i o hidden sd.
Proof.
  intros (_ & Hc & (_ & _ & Hw & Hb) & _) Hh How Hob.
  split; [|split]; [|congruence..].
  intros k h Hk.
  destruct (chained_nth _ _ _ _ _ Hc Hk) as (l & Hl & (_ & _ & Hlw & Hlb)).
  destruct (Hh k l Hl) as [Sw Sb]. split; congruence.
Qed.

Lemma stored_for_In sd slots k p :
  stored_for sd slots -> In (k, p) slots -> stored_shape sd k (shape p).
Proof.
  unfold stored_for. rewrite Forall_forall. intros H Hin.
  apply (H (k, p) Hin).
Qed.

(** A dictionary in which every slot of a network finds its shape is
    consistent with the widths of that network. *)
Lemma stored_for_consistent i o hidden f sd :
  has_architecture i o hidden f -> stored_for sd (state_dict f) ->
  shapes_consistent i o hidden sd.
Proof.
  intros Ha Hs. apply (shapes_consistent_intro _ _ _ f _ Ha).
  - intros k l Hl. split; eapply stored_for_In; try exact Hs; apply lookup_In.
    + rewrite lookup_hidden_weight, Hl. reflexivity.
    + rewrite lookup_hidden_bias, Hl. reflexivity.
  - eapply stored_for_In; [exact Hs|]. apply lookup_In, lookup_output_weight.
  - eapply stored_for_In; [exact Hs|]. apply lookup_In, lookup_output_bias.
Qed.

(** The state dictionary of a model is consistent with its widths. *)
Lemma state_dict_consistent i o hidden m :
  has_architecture i o hidden m ->
  shapes_consistent i o hidden (py_tensors (state_dict m)).
Proof.
  intros Ha. apply (shapes_consistent_intro _ _ _ m _ Ha).
  - intros k l Hl. split; eexists; rewrite lookup_py_tensors.
    + rewrite lookup_hidden_weight, Hl. split; reflexivity.
    + rewrite lookup_hidden_bias, Hl. split; reflexivity.
  - eexists. rewrite lookup_py_tensors, lookup_output_weight.
    split; reflexivity.
  - eexists. rewrite lookup_py_tensors, lookup_output_bias.
    split; reflexivity.
Qed.

(** Nothing missing and no mismatch: every slot has found a tensor of its
    shape. *)
Lemma clean_stored_for sd slots :
  slots_loadable sd slots ->
  missing_of sd slots = [] -> errors_of sd slots = [] ->
  stored_for sd slots.
Proof.
  unfold slots_loadable, stored_for, missing_of, errors_of.
  induction 1 as [|[k p] slots Hl _ IH]; intros Hm He; [constructor|].
  simpl in Hm, He. apply app_eq_nil in Hm as [Hm1 Hm2].
  apply app_eq_nil in He as [He1 He2].
  constructor; [|apply IH; assumption].
  unfold loadable, slot_missing, slot_errors, stored_shape in *. simpl in *.
  destruct (lookup k sd) as [[z|l|t|d]|]; try contradiction; try discriminate.
  exists t. split; [reflexivity|].
  destruct (Size_eqb (shape t) (shape p)) eqn:E; [|discriminate].
  apply Size_eqb_eq, E.
Qed.

Lemma as_int_Ok v z : as_int v = Ok z -> v = PyInt z.
Proof. destruct v; simpl; congruence. Qed.

Lemma as_ints_Ok l : forall zs, as_ints l = Ok zs -> l = map PyInt zs.
Proof.
  induction l as [|v l IH]; simpl; intros zs.
  - intros [= <-]. reflexivity.
  - destruct (as_int v) as [z|e] eqn:Ev; [|discriminate].
    destruct (as_ints l) as [zs'|e]; [|discriminate].
    intros [= <-]. apply as_int_Ok in Ev. subst v.
    simpl. f_equal. apply IH. reflexivity.
Qed.

Lemma as_int_list_Ok v zs : as_int_list v = Ok zs -> v = PyList (map PyInt zs).
Proof.
  destruct v; simpl; try discriminate. intros H. f_equal.
  apply as_ints_Ok, H.
Qed.

(** What a successful load tells about the record and the model built
    from it. *)
Lemma load_checkpoint_accepts path w m w' :
  load_checkpoint path w = (Ok m, w') ->
  exists rec i o hs sd f,
    lookup path (files w) = Some rec /\
    getitem rec "input_size" = Ok (PyInt i) /\
    getitem rec "output_size" = Ok (PyInt o) /\
    getitem rec "hidden_layers" = Ok (PyList (map PyInt hs)) /\
    getitem rec "state_dict" = Ok (PyDict sd) /\
    Network_init i o hs w = (Ok f, w') /\
    has_architecture i o hs f /\
    stored_for sd (state_dict f) /\
    report sd f = empty_acc /\
    m = assign_Network sd f.
Proof.
  intros H.
  apply load_checkpoint_Ok in H
    as (rec & vi & vo & vh & vs & i & o & hs & f & keys
        & Hf & Hi & Ho & Hh & Hs & Ei & Eo & Eh & EN & EL).
  apply as_int_Ok in Ei, Eo. apply as_int_list_Ok in Eh. subst vi vo vh.
  pose proof (Network_init_architecture _ _ _ _ _ _ EN) as Ha.
  apply load_state_dict_Ok in EL as (sd & -> & -> & Hr & _ & HL);
    [|eapply has_architecture_ranked, Ha].
  exists rec, i, o, hs, sd, f.
  do 7 (split; [assumption|]). split; [|split; [assumption | reflexivity]].
  apply clean_stored_for; [exact HL|..].
  - change (missing_keys (report sd f) = []). now rewrite Hr.
  - change (error_msgs (report sd f) = []). now rewrite Hr.
Qed.

(** ** The loaded model holds what the dictionary stores *)

Lemma shape_assign sd key p : shape (assign sd key p) = shape p.
Proof.
  unfold assign. destruct (lookup key sd) as [[z|l|t|d]|]; try reflexivity.
  destruct (Size_eqb (shape t) (shape p)); reflexivity.
Qed.

Lemma assign_stored_shape sd key p :
  stored_shape sd key (shape p) ->
  lookup key sd = Some (PyTensor (assign sd key p)).
Proof.
  intros (t & E & Hs).
  destruct (assign_stored sd key p t E (eq_sym Hs)) as (A & _).
  rewrite A. exact E.
Qed.

Lemma Linear_has_widths_assign sd prefix i o l :
  Linear_has_widths i o l -> Linear_has_widths i o (assign_Linear sd prefix l).
Proof.
  intros (Hi & Ho & Hw & Hb). unfold assign_Linear.
  repeat split; simpl; try assumption; rewrite shape_assign; assumption.
Qed.

Lemma chained_assign sd prefix (hidden : list Z) : forall prev ls i,
  chained prev hidden ls ->
  chained prev hidden (assign_children sd prefix i ls).
Proof.
  induction hidden as [|h hidden IH]; intros prev [|l ls] i H;
    simpl in *; try contradiction; [exact I|].
  destruct H as [Hl Hls]. split.
  - apply Linear_has_widths_assign, Hl.
  - apply IH, Hls.
Qed.

Lemma has_architecture_assign sd i o hidden f :
  has_architecture i o hidden f ->
  has_architecture i o hidden (assign_Network sd f).
Proof.
  intros (Hne & Hc & Ho & Hd). unfold assign_Network.
  split; [exact Hne|]. split; [apply chained_assign, Hc|].
  split; [apply Linear_has_widths_assign, Ho | exact Hd].
Qed.

Lemma nth_error_assign_children sd prefix ls : forall i k,
  nth_error (assign_children sd prefix i ls) k
  = option_map (assign_Linear sd (prefix ++ str (i + k) ++ "."))
      (nth_error ls k).
Proof.
  induction ls as [|l ls IH]; intros i [|k]; simpl; try reflexivity.
  - rewrite Nat.add_0_r. reflexivity.
  - rewrite IH, Nat.add_succ_comm. reflexivity.
Qed.

Lemma stored_for_pointwise sd f :
  stored_for sd (state_dict f) ->
  (forall k l, nth_error (hidden_layers f) k = Some l ->
     stored_shape sd (child_key "hidden_layers." k "weight")
       (shape (weight l)) /\
     stored_shape sd (child_key "hidden_layers." k "bias") (shape (bias l)))
  /\ stored_shape sd "output.weight" (shape (weight (output f)))
  /\ stored_shape sd "output.bias" (shape (bias (output f))).
Proof.
  intros Hs. split; [|split].
  - intros k l Hl. split; eapply stored_for_In; try exact Hs; apply lookup_In.
    + rewrite lookup_hidden_weight, Hl. reflexivity.
    + rewrite lookup_hidden_bias, Hl. reflexivity.
  - eapply stored_for_In; [exact Hs|]. apply lookup_In, lookup_output_weight.
  - eapply stored_for_In; [exact Hs|]. apply lookup_In, lookup_output_bias.
Qed.

Lemma loaded_holds sd f :
  stored_for sd (state_dict f) -> holds sd (assign_Network sd f).
Proof.
  intros Hs. apply stored_for_pointwise in Hs as (Hh & How & Hob).
  split; [|split].
  - intros k l Hk. cbn [assign_Network hidden_layers] in Hk.
    rewrite nth_error_assign_children in Hk.
    destruct (nth_error (hidden_layers f) k) as [l0|] eqn:E; [|discriminate].
    injection Hk as <-. destruct (Hh k l0 E) as [Sw Sb].
    split; apply assign_stored_shape; assumption.
  - apply (assign_stored_shape sd "output.weight"), How.
  - apply (assign_stored_shape sd "output.bias"), Hob.
Qed.

(** The state dictionary after the call, slot by slot. *)
Lemma state_dict_assign_children sd prefix ls : forall i,
  ModuleList_state_dict prefix i (assign_children sd prefix i ls)
  = map (fun kp => (fst kp, assign sd (fst kp) (snd kp)))
      (ModuleList_state_dict prefix i ls).
Proof.
  induction ls as [|l ls IH]; intros i; [reflexivity|].
  cbn [assign_children ModuleList_state_dict]. rewrite map_app, IH.
  reflexivity.
Qed.

Lemma state_dict_assign sd f :
  state_dict (assign_Network sd f)
  = map (fun kp => (fst kp, assign sd (fst kp) (snd kp))) (state_dict f).
Proof.
  unfold state_dict. rewrite map_app.
  cbn [assign_Network hidden_layers output].
  rewrite state_dict_assign_children. reflexivity.
Qed.

(** ** What the constructor accepts *)

Lemma existsb_negative (dims : Size) :
  existsb (fun d => d <? 0) dims = false -> Forall (fun d => 0 <= d) dims.
Proof.
  induction dims as [|d dims IH]; simpl; [constructor|].
  intros H. apply orb_false_iff in H as [Hd H].
  constructor; [lia | apply IH, H].
Qed.

Lemma new_parameter_Ok_nonneg (dims : Size) w t w' :
  new_parameter dims w = (Ok t, w') -> Forall (fun d => 0 <= d) dims.
Proof.
  unfold new_parameter. destruct (existsb _ dims) eqn:E; [discriminate|].
  intros _. apply existsb_negative, E.
Qed.

Lemma Linear_init_Ok_nonneg (i o : Z) w l w' :
  Linear_init i o w = (Ok l, w') -> 0 <= i /\ 0 <= o.
Proof.
  unfold Linear_init. intros H. apply bind_Ok in H as (t & w1 & Ht & _).
  apply new_parameter_Ok_nonneg in Ht.
  inversion Ht as [|? ? Ho Ht']; subst. inversion Ht' as [|? ? Hi _]; subst.
  auto.
Qed.

Lemma hidden_init_Ok_nonneg (hidden : list Z) : forall prev w ls w',
  hidden_init prev hidden w = (Ok ls, w') ->
  Forall (fun h => 0 <= h) hidden /\ (hidden <> [] -> 0 <= prev).
Proof.
  induction hidden as [|h hidden IH]; intros prev w ls w' H.
  - split; [constructor | congruence].
  - simpl in H. apply bind_Ok in H as (l & w1 & Hl & H).
    apply bind_Ok in H as (ls' & w2 & Hls & _).
    apply Linear_init_Ok_nonneg in Hl as [Hp Hh].
    apply IH in Hls as [Hhs _].
    split; [constructor; assumption | intros _; assumption].
Qed.

Lemma Network_init_Ok_nonneg (i o : Z) (hidden : list Z) w f w' :
  Network_init i o hidden w = (Ok f, w') ->
  0 <= i /\ 0 <= o /\ Forall (fun h => 0 <= h) hidden /\ hidden <> [].
Proof.
  unfold Network_init. destruct hidden as [|h hs] eqn:E; [discriminate|].
  rewrite <- E. intros H.
  apply bind_Ok in H as (ls & w1 & Hls & H).
  apply bind_Ok in H as (l & w2 & Hl & _).
  apply hidden_init_Ok_nonneg in Hls as [Hh Hi].
  apply Linear_init_Ok_nonneg in Hl as [_ Ho].
  assert (hidden <> []) by congruence. auto.
Qed.

(** ** Two models of one architecture *)

Lemma skel_children prefix (hidden : list Z) : forall prev ls1 ls2 i,
  chained prev hidden ls1 -> chained prev hidden ls2 ->
  map skel (ModuleList_state_dict prefix i ls1)
  = map skel (ModuleList_state_dict prefix i ls2).
Proof.
  induction hidden as [|h hidden IH]; intros prev [|l1 ls1] [|l2 ls2] i H1 H2;
    simpl in H1, H2; try contradiction; [reflexivity|].
  destruct H1 as [(_ & _ & Hw1 & Hb1) H1], H2 as [(_ & _ & Hw2 & Hb2) H2].
  rewrite !ModuleList_state_dict_cons. cbn [map]. unfold skel at 1 2 4 5.
  cbn [fst snd]. rewrite Hw1, Hw2, Hb1, Hb2, (IH h ls1 ls2 (S i) H1 H2).
  reflexivity.
Qed.

Lemma skel_same_architecture i o hidden f1 f2 :
  has_architecture i o hidden f1 -> has_architecture i o hidden f2 ->
  map skel (state_dict f1) = map skel (state_dict f2).
Proof.
  intros (_ & Hc1 & (_ & _ & Hw1 & Hb1) & _) (_ & Hc2 & (_ & _ & Hw2 & Hb2) & _).
  unfold state_dict. rewrite !map_app, (skel_children _ _ _ _ _ _ Hc1 Hc2).
  unfold Linear_state_dict, skel. cbn [map fst snd].
  rewrite Hw1, Hw2, Hb1, Hb2. reflexivity.
Qed.

Lemma stored_for_skel sd (s1 : list (string * Tensor)) : forall s2,
  map skel s1 = map skel s2 -> stored_for sd s1 -> stored_for sd s2.
Proof.
  unfold stored_for.
  induction s1 as [|[k1 p1] s1 IH]; intros [|[k2 p2] s2] E H;
    try discriminate; [constructor|].
  injection E as Ek Ep E. inversion H as [|? ? H1 H2]; subst.
  simpl in *. constructor; [simpl; rewrite <- Ep; exact H1 | apply IH; auto].
Qed.

Lemma stored_for_loadable sd slots :
  stored_for sd slots -> slots_loadable sd slots.
Proof.
  unfold stored_for, slots_loadable. apply Forall_impl.
  intros [k p] (t & E & _). unfold loadable. simpl in *. now rewrite E.
Qed.

Lemma children_unexpected_length sd prefix (ls1 : list Linear) :
  forall (ls2 : list Linear) i,
  List.length ls1 = List.length ls2 ->
  children_unexpected sd prefix i ls1 = children_unexpected sd prefix i ls2.
Proof.
  induction ls1 as [|l1 ls1 IH]; intros [|l2 ls2] i E; try discriminate;
    [reflexivity|].
  injection E as E. simpl. rewrite (IH ls2 (S i) E). reflexivity.
Qed.

Lemma Network_unexpected_length sd f1 f2 :
  List.length (hidden_layers f1) = List.length (hidden_layers f2) ->
  Network_unexpected sd f1 = Network_unexpected sd f2.
Proof.
  intros E. unfold Network_unexpected.
  rewrite E, (children_unexpected_length _ _ _ _ _ E). reflexivity.
Qed.

(** A dictionary accepted for one model is accepted for every model of
    the same architecture, with the same result. *)
Lemma load_state_dict_any_model i o hidden f1 f2 sd :
  has_architecture i o hidden f1 -> has_architecture i o hidden f2 ->
  stored_for sd (state_dict f1) -> report sd f1 = empty_acc ->
  load_state_dict f2 (PyDict sd) = (assign_Network sd f1, Ok ([], [])).
Proof.
  intros H1 H2 Hs Hr.
  assert (Hs2 : stored_for sd (state_dict f2)).
  { eapply stored_for_skel; [|exact Hs].
    eapply skel_same_architecture; eassumption. }
  rewrite load_state_dict_spec
    by (apply stored_for_loadable, Hs2 || eapply has_architecture_ranked, H2).
  destruct (assign_holds i o hidden f2 (assign_Network sd f1) sd H2)
    as (A & M & R).
  { apply has_architecture_assign, H1. }
  { apply loaded_holds, Hs. }
  assert (Hr2 : report sd f2 = empty_acc).
  { unfold report. rewrite M, R.
    rewrite (Network_unexpected_length sd f2 f1).
    - change (Network_unexpected sd f1) with (unexpected_keys (report sd f1)).
      rewrite Hr. reflexivity.
    - destruct H1 as (_ & Hc1 & _), H2 as (_ & Hc2 & _).
      rewrite (chained_length _ _ _ Hc1), (chained_length _ _ _ Hc2).
      reflexivity. }
  unfold outcome. rewrite A, Hr2. reflexivity.
Qed.

(** A record accepted in one world is accepted, with the same model, in
    any world, and so is any record with the same four fields. *)
Lemma load_checkpoint_transfer path w rec m w' path2 w2 rec2 :
  lookup path (files w) = Some rec ->
  load_checkpoint path w = (Ok m, w') ->
  lookup path2 (files w2) = Some rec2 ->
  (forall key, In key fields -> getitem rec2 key = getitem rec key) ->
  exists w2', load_checkpoint path2 w2 = (Ok m, w2').
Proof.
  intros Hf H Hf2 Hsame.
  apply load_checkpoint_accepts in H
    as (rec' & i & o & hs & sd & f & Hf' & Hi & Ho & Hh & Hs & EN & Ha
        & Hst & Hr & ->).
  assert (rec' = rec) by congruence. subst rec'.
  apply Network_init_Ok_nonneg in EN as (Ni & No & Nh & Nne).
  destruct (Network_init_ok i o hs w2 Ni No Nh Nne) as (f2 & w2' & EN2 & Ha2 & _).
  exists w2'.
  rewrite (load_checkpoint_steps path2 w2 rec2 (PyInt i) (PyInt o)
             (PyList (map PyInt hs)) (PyDict sd) i o hs f2 w2');
    try assumption; try reflexivity.
  - rewrite (load_state_dict_any_model _ _ _ _ _ _ Ha Ha2 Hst Hr).
    reflexivity.
  - rewrite Hsame, Hi; [reflexivity | simpl; auto].
  - rewrite Hsame, Ho; [reflexivity | simpl; auto].
  - rewrite Hsame, Hh; [reflexivity | simpl; auto].
  - simpl. apply as_ints_PyInt.
  - rewrite Hsame, Hs; [reflexivity | simpl; auto].
Qed.

(** ** The record the loader accepts *)

(** C6 (amended).  In every record the loader accepts, the shapes stored
    in the parameters mapping are consistent with [input_size],
    [output_size] and [hidden_layers]: hidden layer [k] has a weight of
    shape [(hidden_layers[k], previous width)], the previous width being
    [input_size] for [k = 0] and [hidden_layers[k-1]] otherwise, and a
    bias of shape [(hidden_layers[k])]; the output layer, after the last
    hidden layer, has a weight of shape [(output_size, last hidden width)]
    and a bias of shape [(output_size)]. *)
Theorem accepted_record_shapes path w m w' :
  load_checkpoint path w = (Ok m, w') ->
  exists rec i o hs sd,
    lookup path (files w) = Some rec /\
    getitem rec "input_size" = Ok (PyInt i) /\
    getitem rec "output_size" = Ok (PyInt o) /\
    getitem rec "hidden_layers" = Ok (PyList (map PyInt hs)) /\
    getitem rec "state_dict" = Ok (PyDict sd) /\
    shapes_consistent i o hs sd.
Proof.
  intros H.
  apply load_checkpoint_accepts in H
    as (rec & i & o & hs & sd & f & Hf & Hi & Ho & Hh & Hs & _ & Ha & Hst & _).
  exists rec, i, o, hs, sd. do 5 (split; [assumption|]).
  eapply stored_for_consistent; eassumption.
Qed.

Lemma accepted_record_shapes_witness :
  exists rec i o hs sd,
    lookup "small.pth" (files (world_with_file "small.pth" record_3_4_5_2))
    = Some rec /\
    getitem rec "input_size" = Ok (PyInt i) /\
    getitem rec "output_size" = Ok (PyInt o) /\
    getitem rec "hidden_layers" = Ok (PyList (map PyInt hs)) /\
    getitem rec "state_dict" = Ok (PyDict sd) /\
    shapes_consistent i o hs sd.
Proof.
  apply (accepted_record_shapes "small.pth"
           (world_with_file "small.pth" record_3_4_5_2) model_3_4_5_2
           (snd (load_checkpoint "small.pth"
                   (world_with_file "small.pth" record_3_4_5_2)))).
  apply injective_projections; [vm_compute; reflexivity | reflexivity].
Defined.

(** C6, as stated, fails: after the last hidden layer the previous width
    is the last hidden width, not [output_size].  The loader accepts the
    record for widths 3, [4, 5], 2, whose output weight has shape (2, 5). *)
Lemma output_previous_width_is_not_output_size :
  fst (load_checkpoint "small.pth" (world_with_file "small.pth" record_3_4_5_2))
  = Ok model_3_4_5_2 /\
  stored_shape (py_tensors (state_dict model_3_4_5_2)) "output.weight" [2; 5] /\
  ~ spec_shapes_consistent 3 2 [4; 5] (py_tensors (state_dict model_3_4_5_2)).
Proof.
  split; [vm_compute; reflexivity|]. split.
  - eexists. split; [vm_compute; reflexivity | reflexivity].
  - intros [_ (t & Hl & Hs)]. vm_compute in Hl. injection Hl as <-.
    vm_compute in Hs. discriminate Hs.
Qed.

(** A model whose every slot holds the tensor stored under its key is
    held by the dictionary. *)
Lemma stored_slots_hold sd (m : Network) :
  (forall key t, In (key, t) (state_dict m) ->
                 lookup key sd = Some (PyTensor t)) ->
  holds sd m.
Proof.
  intros H. split; [|split].
  - intros k l Hk. split; apply H, lookup_In.
    + rewrite lookup_hidden_weight, Hk. reflexivity.
    + rewrite lookup_hidden_bias, Hk. reflexivity.
  - apply H, lookup_In, lookup_output_weight.
  - apply H, lookup_In, lookup_output_bias.
Qed.

(** C7.  A record the loader accepts contains the four fields
    [input_size], [output_size], [hidden_layers] and the parameters
    (under the key [state_dict]), and the model returned is rebuilt from
    them: its layers have the widths the three shape fields give, each of
    its parameters is the tensor the fourth field stores under the
    parameter's key, and it is the only network of which both hold.
    Nothing else is consumed: any record with the same four fields, in
    any world, loads to the same model. *)
Theorem loader_consumes_four_fields path w m w' :
  load_checkpoint path w = (Ok m, w') ->
  exists rec i o hs sd,
    lookup path (files w) = Some rec /\
    getitem rec "input_size" = Ok (PyInt i) /\
    getitem rec "output_size" = Ok (PyInt o) /\
    getitem rec "hidden_layers" = Ok (PyList (map PyInt hs)) /\
    getitem rec "state_dict" = Ok (PyDict sd) /\
    has_architecture i o hs m /\
    (forall key t, In (key, t) (state_dict m) ->
                   lookup key sd = Some (PyTensor t)) /\
    (forall m2,
       has_architecture i o hs m2 ->
       (forall key t, In (key, t) (state_dict m2) ->
                      lookup key sd = Some (PyTensor t)) ->
       m2 = m) /\
    (forall path2 w2 rec2,
       lookup path2 (files w2) = Some rec2 ->
       (forall key, In key fields -> getitem rec2 key = getitem rec key) ->
       exists w2', load_checkpoint path2 w2 = (Ok m, w2')).
Proof.
  intros H.
  destruct (load_checkpoint_accepts _ _ _ _ H)
    as (rec & i & o & hs & sd & f & Hf & Hi & Ho & Hh & Hs & _ & Ha & Hst
        & _ & E).
  exists rec, i, o, hs, sd. do 5 (split; [assumption|]).
  split; [|split; [|split]].
  - subst m. apply has_architecture_assign, Ha.
  - subst m. intros key t Hin. rewrite state_dict_assign in Hin.
    apply in_map_iff in Hin as ([k p] & Ek & Hin). simpl in Ek.
    injection Ek as <- <-.
    apply assign_stored_shape. eapply stored_for_In; eassumption.
  - intros m2 Ha2 H2. subst m.
    destruct (assign_holds i o hs f m2 sd Ha Ha2 (stored_slots_hold sd m2 H2))
      as (A & _).
    symmetry. exact A.
  - intros path2 w2 rec2 Hf2 Hsame.
    exact (load_checkpoint_transfer _ _ _ _ _ _ _ _ Hf H Hf2 Hsame).
Qed.

Lemma loader_consumes_four_fields_witness :
  exists rec i o hs sd,
    lookup "small.pth" (files (world_with_file "small.pth" record_3_4_5_2))
    = Some rec /\
    getitem rec "input_size" = Ok (PyInt i) /\
    getitem rec "output_size" = Ok (PyInt o) /\
    getitem rec "hidden_layers" = Ok (PyList (map PyInt hs)) /\
    getitem rec "state_dict" = Ok (PyDict sd) /\
    has_architecture i o hs model_3_4_5_2 /\
    (forall key t, In (key, t) (state_dict model_3_4_5_2) ->
                   lookup key sd = Some (PyTensor t)) /\
    (forall m2,
       has_architecture i o hs m2 ->
       (forall key t, In (key, t) (state_dict m2) ->
                      lookup key sd = Some (PyTensor t)) ->
       m2 = model_3_4_5_2) /\
    (forall path2 w2 rec2,
       lookup path2 (files w2) = Some rec2 ->
       (forall key, In key fields -> getitem rec2 key = getitem rec key) ->
       exists w2', load_checkpoint path2 w2 = (Ok model_3_4_5_2, w2')).
Proof.
  apply (loader_consumes_four_fields "small.pth"
           (world_with_file "small.pth" record_3_4_5_2) model_3_4_5_2
           (snd (load_checkpoint "small.pth"
                   (world_with_file "small.pth" record_3_4_5_2)))).
  apply injective_projections; [vm_compute; reflexivity | reflexivity].
Defined.



(** ** The writer *)

(** C8.  Saving leaves the model unchanged: after the checkpoint writer
    (cell 11) and after the plain save of the state dictionary (cell 7)
    the variable [model] holds the model it held before, with every
    parameter value and every layer width; the generator and the
    variable [state_dict] are untouched as well. *)
Theorem saving_leaves_model_unchanged (w : World) :
  (var_model (snd (cell_11 w)) = var_model w /\
   generator (snd (cell_11 w)) = generator w /\
   var_state_dict (snd (cell_11 w)) = var_state_dict w) /\
  (var_model (snd (cell_7 w)) = var_model w /\
   generator (snd (cell_7 w)) = generator w /\
   var_state_dict (snd (cell_7 w)) = var_state_dict w).
Proof.
  unfold cell_11, cell_7, bind, get_model, torch_save.
  destruct (var_model w) eqn:E; simpl; rewrite ?E; repeat split.
Qed.

(** C9 (amended).  For whatever model with 784 inputs, 10 outputs and
    positive hidden widths is current at save time, the record the writer
    stores has as [hidden_layers] the output widths of the model's hidden
    layers, its parameters have the shapes these widths call for, and the
    loader accepts it in any world that holds it unmodified. *)
Theorem writer_record_is_consistent (w : World) (m : Network)
    (hidden : list Z) :
  var_model w = Some m ->
  valid_widths 784 10 hidden ->
  has_architecture 784 10 hidden m ->
  exists w1,
    cell_11 w = (Ok tt, w1) /\
    lookup "checkpoint.pth" (files w1) = Some (checkpoint m) /\
    getitem (checkpoint m) "hidden_layers"
    = Ok (PyList (map PyInt (map out_features (hidden_layers m)))) /\
    getitem (checkpoint m) "state_dict"
    = Ok (PyDict (py_tensors (state_dict m))) /\
    shapes_consistent 784 10 (map out_features (hidden_layers m))
      (py_tensors (state_dict m)) /\
    forall path w2,
      lookup path (files w2) = Some (checkpoint m) ->
      exists m' w2', load_checkpoint path w2 = (Ok m', w2').
Proof.
  intros Hm Hv Ha. eexists. split; [apply cell_11_writes, Hm|].
  split; [reflexivity|]. split; [|split; [reflexivity|split]].
  - simpl. rewrite map_map. reflexivity.
  - pose proof Ha as (_ & Hc & _).
    rewrite (chained_widths _ _ _ Hc).
    apply state_dict_consistent, Ha.
  - intros path w2 Hf. exists m.
    eapply writer_record_loads; eassumption.
Qed.

Lemma writer_record_is_consistent_witness :
  exists w1,
    cell_11 (world_with model_784_2_10) = (Ok tt, w1) /\
    lookup "checkpoint.pth" (files w1) = Some (checkpoint model_784_2_10) /\
    getitem (checkpoint model_784_2_10) "hidden_layers"
    = Ok (PyList (map PyInt
                    (map out_features (hidden_layers model_784_2_10)))) /\
    getitem (checkpoint model_784_2_10) "state_dict"
    = Ok (PyDict (py_tensors (state_dict model_784_2_10))) /\
    shapes_consistent 784 10
      (map out_features (hidden_layers model_784_2_10))
      (py_tensors (state_dict model_784_2_10)) /\
    forall path w2,
      lookup path (files w2) = Some (checkpoint model_784_2_10) ->
      exists m' w2', load_checkpoint path w2 = (Ok m', w2').
Proof.
  apply (writer_record_is_consistent (world_with model_784_2_10)
           model_784_2_10 [2]).
  - reflexivity.
  - repeat split; try lia. repeat constructor.
  - repeat split. discriminate.
Defined.

(** C9, as stated, fails for a model whose input width is not 784: the
    writer still records [input_size = 784], the stored first weight has
    shape (2, 6), and the loader raises the size mismatch. *)
Lemma writer_record_of_other_input_width_is_rejected :
  valid_widths 6 10 [2] /\
  has_architecture 6 10 [2] model_6_2_10 /\
  getitem (checkpoint model_6_2_10) "input_size" = Ok (PyInt 784) /\
  fst (load_checkpoint "checkpoint.pth"
         (snd (cell_11 (world_with model_6_2_10))))
  = Raise (RuntimeError
             [size_mismatch "hidden_layers.0.weight" [2; 6] [2; 784]]).
Proof.
  split; [|split; [|split]].
  - repeat split; try lia. repeat constructor.
  - repeat split. discriminate.
  - reflexivity.
  - vm_compute. reflexivity.
Qed.

(** ** When [load_state_dict] raises *)

Lemma load_param_Raise sd key p acc p' e :
  load_param sd key p acc = (p', Raise e) ->
  e = AttributeError \/ e = IndexError.
Proof.
  unfold load_param, compat_input.
  destruct (lookup key sd) as [[z|l|t|d]|]; try (intros [= _ <-]; auto);
    try discriminate.
  destruct (shape p) as [|a s]; [destruct (shape t) as [|n [|n' s']]|];
    try (destruct (negb _); discriminate).
  destruct (0 <? n); [destruct (negb _); discriminate|].
  intros [= _ <-]. auto.
Qed.

Lemma Linear_load_Raise sd prefix l acc l' e :
  Linear_load sd prefix l acc = (l', Raise e) ->
  e = AttributeError \/ e = IndexError.
Proof.
  unfold Linear_load.
  destruct (load_param sd (prefix ++ "weight") (weight l) acc)
    as [w [acc1|e1]] eqn:Ew.
  - destruct (load_param sd (prefix ++ "bias") (bias (set_weight l w)) acc1)
      as [b [acc2|e2]] eqn:Eb; [discriminate|].
    intros [= _ <-]. eapply load_param_Raise, Eb.
  - intros [= _ <-]. eapply load_param_Raise, Ew.
Qed.

Lemma ModuleList_load_children_Raise sd prefix ls : forall i acc ls' e,
  ModuleList_load_children sd prefix i ls acc = (ls', Raise e) ->
  e = AttributeError \/ e = IndexError.
Proof.
  induction ls as [|l ls IH]; intros i acc ls' e; [discriminate|].
  cbn [ModuleList_load_children].
  destruct (Linear_load sd (prefix ++ str i ++ ".") l acc)
    as [l1 [acc1|e1]] eqn:El.
  - destruct (ModuleList_load_children sd prefix (S i) ls acc1)
      as [ls1 [acc2|e2]] eqn:Els; [discriminate|].
    intros [= _ <-]. eapply IH, Els.
  - intros [= _ <-]. eapply Linear_load_Raise, El.
Qed.

Lemma Network_load_Raise sd m acc m' e :
  Network_load sd m acc = (m', Raise e) ->
  e = AttributeError \/ e = IndexError.
Proof.
  unfold Network_load, ModuleList_load.
  match goal with
  | |- context [ModuleList_load_children sd ?p 0 ?ls ?a] =>
      destruct (ModuleList_load_children sd p 0 ls a)
        as [ls1 [acc1|e1]] eqn:Els
  end.
  - cbn [set_hidden_layers output].
    destruct (Linear_load sd "output." (output m) acc1)
      as [o1 [acc2|e2]] eqn:Eo; [discriminate|].
    intros [= _ <-]. eapply Linear_load_Raise, Eo.
  - intros [= _ <-]. eapply ModuleList_load_children_Raise, Els.
Qed.

(** A [RuntimeError] of [load_state_dict] comes from the end of the call:
    the traversal has visited every slot, and the report is raised. *)
Lemma load_state_dict_RuntimeError m v m' msgs :
  ranked m -> load_state_dict m v = (m', Raise (RuntimeError msgs)) ->
  exists sd,
    v = PyDict sd /\ slots_loadable sd (state_dict m) /\
    m' = assign_Network sd m /\ msgs = final_msgs (report sd m).
Proof.
  intros H E. destruct v as [z|l|t|sd]; try (simpl in E; discriminate).
  exists sd. split; [reflexivity|].
  assert (HL : slots_loadable sd (state_dict m)).
  { unfold load_state_dict in E.
    destruct (Network_load sd m empty_acc) as [m1 [acc1|e]] eqn:EN.
    - eapply Network_load_loadable; eassumption.
    - injection E as _ ->.
      apply Network_load_Raise in EN as [EN|EN]; discriminate. }
  split; [exact HL|].
  rewrite (load_state_dict_spec _ _ H HL) in E. unfold outcome in E.
  destruct (nonempty (final_msgs (report sd m))); [|discriminate].
  injection E as <- <-. auto.
Qed.

Lemma errors_of_In sd slots key p t :
  In (key, p) slots -> lookup key sd = Some (PyTensor t) ->
  shape t <> shape p ->
  In (size_mismatch key (shape t) (shape p)) (errors_of sd slots).
Proof.
  intros Hin E Hne. unfold errors_of. apply in_flat_map.
  exists (key, p). split; [exact Hin|].
  unfold slot_errors. simpl. rewrite E.
  destruct (Size_eqb (shape t) (shape p)) eqn:Es.
  - apply Size_eqb_eq in Es. contradiction.
  - left. reflexivity.
Qed.

Lemma error_msgs_final (acc : Acc) (msg : error_msg) :
  In msg (error_msgs acc) -> In msg (final_msgs acc).
Proof.
  unfold final_msgs. intros H.
  destruct (nonempty (missing_keys acc)), (nonempty (unexpected_keys acc));
    simpl; auto.
Qed.

Lemma unexpected_final (acc : Acc) :
  unexpected_keys acc <> [] ->
  In (unexpected_keys_msg (unexpected_keys acc)) (final_msgs acc).
Proof.
  intros H. unfold final_msgs.
  destruct (unexpected_keys acc) as [|u us]; [congruence|].
  destruct (nonempty (missing_keys acc)); simpl; auto.
Qed.

Lemma missing_final (acc : Acc) :
  missing_keys acc <> [] ->
  In (missing_keys_msg (missing_keys acc)) (final_msgs acc).
Proof.
  intros H. unfold final_msgs.
  destruct (missing_keys acc) as [|k ks]; [congruence|]. simpl. auto.
Qed.

Lemma nonempty_In {A : Type} (x : A) (l : list A) : In x l -> nonempty l = true.
Proof. destruct l; [contradiction | reflexivity]. Qed.

(** A mismatched slot keeps its tensor. *)
Lemma assign_mismatch sd key p t :
  lookup key sd = Some (PyTensor t) -> shape t <> shape p ->
  assign sd key p = p.
Proof.
  intros E Hne. unfold assign. rewrite E.
  destruct (Size_eqb (shape t) (shape p)) eqn:Es; [|reflexivity].
  apply Size_eqb_eq in Es. contradiction.
Qed.

(** ** The loader's algorithm and its failure *)

(** The lines of the report that are size mismatches are those of the
    slots whose stored tensor has other dimensions. *)
Lemma size_mismatch_final (acc : Acc) key s1 s2 :
  In (size_mismatch key s1 s2) (final_msgs acc) ->
  In (size_mismatch key s1 s2) (error_msgs acc).
Proof.
  unfold final_msgs.
  destruct (nonempty (missing_keys acc)), (nonempty (unexpected_keys acc));
    simpl; intros H;
    repeat (destruct H as [H|H]; [discriminate H|]); exact H.
Qed.

Lemma errors_of_inv sd slots key s1 s2 :
  In (size_mismatch key s1 s2) (errors_of sd slots) ->
  exists p t,
    In (key, p) slots /\ lookup key sd = Some (PyTensor t) /\
    s1 = shape t /\ s2 = shape p /\ s1 <> s2.
Proof.
  unfold errors_of. intros H. apply in_flat_map in H as ([k p] & Hin & H).
  unfold slot_errors in H. cbn [fst snd] in H.
  destruct (lookup k sd) as [[z|l|t|d]|] eqn:E; try (destruct H; fail).
  destruct (Size_eqb (shape t) (shape p)) eqn:Es; [destruct H|].
  destruct H as [H|[]]. injection H as <- <- <-.
  exists p, t. repeat split; auto.
  intros Heq. apply Size_eqb_eq in Heq. congruence.
Qed.

(** C4.  A stored tensor whose dimensions differ from those of its slot
    in the newly built model always makes the loader fail: the
    [RuntimeError] of [load_state_dict] reaches the caller as it is, and
    no model is returned.  The report lists, for every slot whose stored
    tensor has other dimensions, the stored dimensions and the dimensions
    of the slot, and it lists no other size mismatch; a mismatched slot
    has not been written to, so nothing was padded or truncated.  (The
    record stores a tensor under every key of the model it has, so that
    the call visits every slot.) *)
Theorem shape_mismatch_is_surfaced path w rec i o hs sd f w1 key p t :
  lookup path (files w) = Some rec ->
  getitem rec "input_size" = Ok (PyInt i) ->
  getitem rec "output_size" = Ok (PyInt o) ->
  getitem rec "hidden_layers" = Ok (PyList (map PyInt hs)) ->
  getitem rec "state_dict" = Ok (PyDict sd) ->
  Network_init i o hs w = (Ok f, w1) ->
  slots_loadable sd (state_dict f) ->
  In (key, p) (state_dict f) ->
  lookup key sd = Some (PyTensor t) ->
  shape t <> shape p ->
  exists msgs f',
    load_state_dict f (PyDict sd) = (f', Raise (RuntimeError msgs)) /\
    load_checkpoint path w = (Raise (RuntimeError msgs), w1) /\
    (forall key' p' t',
       In (key', p') (state_dict f) ->
       lookup key' sd = Some (PyTensor t') -> shape t' <> shape p' ->
       In (size_mismatch key' (shape t') (shape p')) msgs /\
       In (key', p') (state_dict f')) /\
    (forall key' s1 s2,
       In (size_mismatch key' s1 s2) msgs ->
       exists p' t',
         In (key', p') (state_dict f) /\
         lookup key' sd = Some (PyTensor t') /\
         s1 = shape t' /\ s2 = shape p' /\ s1 <> s2).
Proof.
  intros Hf Hi Ho Hh Hs EN HL Hin E Hne.
  assert (HS : load_checkpoint path w
               = (match snd (load_state_dict f (PyDict sd)) with
                  | Ok _ => Ok (fst (load_state_dict f (PyDict sd)))
                  | Raise e => Raise e
                  end, w1)).
  { apply (load_checkpoint_steps path w rec (PyInt i) (PyInt o)
             (PyList (map PyInt hs)) (PyDict sd) i o hs f w1);
      try assumption; try reflexivity.
    simpl. apply as_ints_PyInt. }
  assert (Hr : ranked f)
    by (eapply has_architecture_ranked, Network_init_architecture, EN).
  assert (Hmsg : In (size_mismatch key (shape t) (shape p))
                    (final_msgs (report sd f))).
  { apply error_msgs_final. eapply errors_of_In; eassumption. }
  assert (EL : load_state_dict f (PyDict sd)
               = (assign_Network sd f,
                  Raise (RuntimeError (final_msgs (report sd f))))).
  { rewrite (load_state_dict_spec _ _ Hr HL). unfold outcome.
    rewrite (nonempty_In _ _ Hmsg). reflexivity. }
  exists (final_msgs (report sd f)), (assign_Network sd f).
  split; [exact EL|]. split; [rewrite HS, EL; reflexivity|]. split.
  - intros key' p' t' Hin' E' Hne'. split.
    + apply error_msgs_final. eapply errors_of_In; eassumption.
    + rewrite state_dict_assign. apply in_map_iff.
      exists (key', p'). split; [|exact Hin']. simpl.
      rewrite (assign_mismatch _ _ _ _ E' Hne'). reflexivity.
  - intros key' s1 s2 H. apply size_mismatch_final in H.
    apply errors_of_inv in H. exact H.
Qed.

Lemma shape_mismatch_is_surfaced_witness :
  exists msgs f',
    load_state_dict fresh_4_5_2 (PyDict (py_tensors (state_dict model_4_3_2)))
    = (f', Raise (RuntimeError msgs)) /\
    load_checkpoint "bad.pth"
      (world_with_file "bad.pth" record_4_5_2_storing_4_3_2)
    = (Raise (RuntimeError msgs),
       snd (Network_init 4 2 [5]
              (world_with_file "bad.pth" record_4_5_2_storing_4_3_2))) /\
    (forall key' p' t',
       In (key', p') (state_dict fresh_4_5_2) ->
       lookup key' (py_tensors (state_dict model_4_3_2)) = Some (PyTensor t') ->
       shape t' <> shape p' ->
       In (size_mismatch key' (shape t') (shape p')) msgs /\
       In (key', p') (state_dict f')) /\
    (forall key' s1 s2,
       In (size_mismatch key' s1 s2) msgs ->
       exists p' t',
         In (key', p') (state_dict fresh_4_5_2) /\
         lookup key' (py_tensors (state_dict model_4_3_2))
         = Some (PyTensor t') /\
         s1 = shape t' /\ s2 = shape p' /\ s1 <> s2).
Proof.
  apply (shape_mismatch_is_surfaced "bad.pth"
           (world_with_file "bad.pth" record_4_5_2_storing_4_3_2)
           record_4_5_2_storing_4_3_2 4 2 [5]
           (py_tensors (state_dict model_4_3_2)) fresh_4_5_2
           (snd (Network_init 4 2 [5]
                   (world_with_file "bad.pth" record_4_5_2_storing_4_3_2)))
           "hidden_layers.0.bias" (counting 20 [5]) (ones [3])).
  - reflexivity.
  - reflexivity.
  - reflexivity.
  - reflexivity.
  - reflexivity.
  - apply injective_projections; [vm_compute; reflexivity | reflexivity].
  - apply tensors_only_loadable. unfold tensors_only. simpl.
    repeat (constructor; [eexists; reflexivity|]). constructor.
  - simpl. auto.
  - reflexivity.
  - simpl. discriminate.
Defined.

(** The record of the example is rejected with three size mismatches. *)
Example bad_record_is_rejected :
  fst (load_checkpoint "bad.pth"
         (world_with_file "bad.pth" record_4_5_2_storing_4_3_2))
  = Raise (RuntimeError
             [size_mismatch "hidden_layers.0.weight" [3; 4] [5; 4];
              size_mismatch "hidden_layers.0.bias" [3] [5];
              size_mismatch "output.weight" [2; 3] [2; 5]]).
Proof. vm_compute. reflexivity. Qed.




(** ** Loading into a model of another architecture *)

Lemma prefix_and_length_eq {A : Type} (l' : list A) : forall l,
  (forall k x, nth_error l' k = Some x -> nth_error l k = Some x) ->
  (List.length l <= List.length l')%nat -> l = l'.
Proof.
  induction l' as [|a l' IH]; intros [|b l] H Hlen; simpl in Hlen;
    try lia; try reflexivity.
  - discriminate (H 0%nat a eq_refl).
  - pose proof (H 0%nat a eq_refl) as H0. simpl in H0. injection H0 as ->.
    f_equal. apply IH; [|lia]. intros k x Hk. apply (H (S k) x Hk).
Qed.

Lemma differ_at {A : Type} (dec : forall a b : A, {a = b} + {a <> b})
    (l1 : list A) : forall l2,
  List.length l1 = List.length l2 -> l1 <> l2 ->
  exists k a b, nth_error l1 k = Some a /\ nth_error l2 k = Some b /\ a <> b.
Proof.
  induction l1 as [|a l1 IH]; intros [|b l2] Hlen Hne; try discriminate.
  - congruence.
  - destruct (dec a b) as [->|Hab].
    + destruct (IH l2) as (k & x & y & H1 & H2 & Hxy);
        [simpl in Hlen; lia | congruence |].
      exists (S k), x, y. auto.
    + exists 0%nat, a, b. auto.
Qed.

Lemma chained_nth_layer (hidden : list Z) prev ls k l :
  chained prev hidden ls -> nth_error ls k = Some l ->
  nth_error hidden k = Some (out_features l) /\
  shape (bias l) = [out_features l].
Proof.
  intros Hc Hl.
  assert (Hk : nth_error hidden k = Some (out_features l)).
  { rewrite <- (chained_widths _ _ _ Hc), nth_error_map, Hl. reflexivity. }
  split; [exact Hk|].
  destruct (chained_nth _ _ _ _ _ Hc Hk) as (l' & Hl' & (_ & _ & _ & Hb)).
  congruence.
Qed.

(** The target has fewer hidden layers than the stored model: the first
    layer it lacks is unexpected.  It has more: the first layer the
    stored model lacks is missing. *)
Lemma unexpected_layer_key (m f : Network) :
  (List.length (hidden_layers f) < List.length (hidden_layers m))%nat ->
  In (child_key "hidden_layers." (List.length (hidden_layers f)) "weight")
     (Network_unexpected (py_tensors (state_dict m)) f).
Proof.
  intros Hlt.
  set (n' := List.length (hidden_layers f)).
  set (K := child_key "hidden_layers." n' "weight").
  unfold Network_unexpected. fold n'.
  apply in_or_app. right. apply in_or_app. left.
  unfold unexpected_in. apply filter_In. split.
  - rewrite map_fst_py_tensors.
    destruct (nth_error (hidden_layers m) n') as [l|] eqn:E.
    + apply (in_map fst _ (K, weight l)), lookup_In.
      unfold K. rewrite lookup_hidden_weight, E. reflexivity.
    + apply nth_error_None in E. lia.
  - unfold K, is_unexpected. rewrite child_key_eq, strip_prefix_app.
    rewrite before_dot_app by apply no_dot_str.
    rewrite mem_str_seq, Nat.ltb_irrefl. reflexivity.
Qed.

Lemma unexpected_layer (m f : Network) :
  (List.length (hidden_layers f) < List.length (hidden_layers m))%nat ->
  Network_unexpected (py_tensors (state_dict m)) f <> [].
Proof.
  intros Hlt E. pose proof (unexpected_layer_key m f Hlt) as Hin.
  rewrite E in Hin. destruct Hin.
Qed.

Lemma missing_layer_key (m f : Network) :
  (List.length (hidden_layers m) < List.length (hidden_layers f))%nat ->
  In (child_key "hidden_layers." (List.length (hidden_layers m)) "weight")
     (missing_of (py_tensors (state_dict m)) (state_dict f)).
Proof.
  intros Hlt.
  set (n := List.length (hidden_layers m)).
  destruct (nth_error (hidden_layers f) n) as [l|] eqn:E;
    [|apply nth_error_None in E; lia].
  unfold missing_of. apply in_flat_map.
  exists (child_key "hidden_layers." n "weight", weight l). split.
  - apply lookup_In. rewrite lookup_hidden_weight, E. reflexivity.
  - unfold slot_missing. cbn [fst].
    rewrite lookup_py_tensors, lookup_hidden_weight.
    replace (nth_error (hidden_layers m) n) with (@None Linear)
      by (symmetry; apply nth_error_None; unfold n; lia).
    simpl. auto.
Qed.

(** A state dictionary that a model accepts without report comes from a
    model with the same hidden widths. *)
Lemma clean_report_same_widths i o hidden m i' o' hidden' f :
  has_architecture i o hidden m -> has_architecture i' o' hidden' f ->
  report (py_tensors (state_dict m)) f = empty_acc ->
  hidden = hidden'.
Proof.
  intros Hm Hf Hr.
  set (sd := py_tensors (state_dict m)) in *.
  assert (Hst : stored_for sd (state_dict f)).
  { apply clean_stored_for.
    - apply tensors_only_loadable, tensors_only_py_tensors.
    - change (missing_keys (report sd f) = []). now rewrite Hr.
    - change (error_msgs (report sd f) = []). now rewrite Hr. }
  destruct (stored_for_consistent _ _ _ _ _ Hf Hst) as (Hh & _).
  pose proof Hm as (_ & Hmc & _). pose proof Hf as (_ & Hfc & _).
  apply prefix_and_length_eq.
  - intros k h' Hk. destruct (Hh k h' Hk) as [_ (t & El & Es)].
    unfold sd in El. rewrite lookup_py_tensors, lookup_hidden_bias in El.
    destruct (nth_error (hidden_layers m) k) as [l|] eqn:E; [|discriminate].
    simpl in El. injection El as <-.
    destruct (chained_nth_layer _ _ _ _ _ Hmc E) as [Hk' Hb].
    rewrite Hk'. congruence.
  - rewrite <- (chained_length _ _ _ Hmc), <- (chained_length _ _ _ Hfc).
    destruct (Nat.le_gt_cases (List.length (hidden_layers m))
                (List.length (hidden_layers f))) as [Hle|Hgt]; [exact Hle|].
    exfalso. apply (unexpected_layer m f Hgt).
    change (unexpected_keys (report sd f) = []). now rewrite Hr.
Qed.

Lemma assign_py_tensors (d : list (string * Tensor)) key p :
  assign (py_tensors d) key p
  = match lookup key d with
    | Some t => if Size_eqb (shape t) (shape p) then t else p
    | None => p
    end.
Proof.
  unfold assign. rewrite lookup_py_tensors.
  destruct (lookup key d) as [t|]; [|reflexivity]. simpl.
  destruct (Size_eqb (shape t) (shape p)) eqn:E; [|reflexivity].
  apply Size_eqb_eq in E. unfold copy_. rewrite <- E. destruct t. reflexivity.
Qed.

(** C2 (amended).  Loading the parameters of a checkpoint into a model
    built with other [hidden_layers] values raises the error of
    [load_state_dict].  Its report contains a size mismatch when the two
    lists have the same length, a list of missing keys (with the first
    layer the checkpoint lacks) when the model has more hidden layers
    than the checkpoint, and a list of unexpected keys (with the first
    layer the model lacks) when it has fewer.  The call leaves unchanged
    every parameter whose stored tensor is absent or has other
    dimensions, and it has overwritten, by the time it raises, every
    parameter whose stored tensor has the same dimensions. *)
Theorem load_into_other_architecture
    i o hidden (m : Network) i' o' hidden' (f : Network) :
  has_architecture i o hidden m ->
  has_architecture i' o' hidden' f ->
  hidden <> hidden' ->
  exists f' msgs,
    load_state_dict f (py_state_dict m) = (f', Raise (RuntimeError msgs)) /\
    (List.length hidden = List.length hidden' ->
     exists key s1 s2, In (size_mismatch key s1 s2) msgs) /\
    ((List.length hidden < List.length hidden')%nat ->
     exists keys,
       In (missing_keys_msg keys) msgs /\
       In (child_key "hidden_layers." (List.length hidden) "weight") keys) /\
    ((List.length hidden' < List.length hidden)%nat ->
     exists keys,
       In (unexpected_keys_msg keys) msgs /\
       In (child_key "hidden_layers." (List.length hidden') "weight") keys) /\
    state_dict f'
    = map (fun kp =>
             (fst kp,
              match lookup (fst kp) (state_dict m) with
              | Some t =>
                  if Size_eqb (shape t) (shape (snd kp)) then t else snd kp
              | None => snd kp
              end))
        (state_dict f).
Proof.
  intros Hm Hf Hne. unfold py_state_dict.
  set (sd := py_tensors (state_dict m)).
  pose proof Hm as (_ & Hmc & _). pose proof Hf as (_ & Hfc & _).
  pose proof (chained_length _ _ _ Hmc) as Lm.
  pose proof (chained_length _ _ _ Hfc) as Lf.
  exists (assign_Network sd f), (final_msgs (report sd f)).
  split; [|split; [|split; [|split]]].
  - rewrite load_state_dict_spec
      by (apply tensors_only_loadable, tensors_only_py_tensors
          || eapply has_architecture_ranked, Hf).
    unfold outcome.
    destruct (nonempty (final_msgs (report sd f))) eqn:En; [reflexivity|].
    apply nonempty_false, final_msgs_nil in En.
    exfalso. apply Hne.
    eapply clean_report_same_widths; eassumption.
  - intros Hlen.
    destruct (differ_at Z.eq_dec hidden hidden' Hlen Hne)
      as (k & h & h' & Hk & Hk' & Hhh).
    destruct (chained_nth _ _ _ _ _ Hmc Hk) as (l & Hl & (_ & _ & _ & Hlb)).
    destruct (chained_nth _ _ _ _ _ Hfc Hk') as (l' & Hl' & (_ & _ & _ & Hlb')).
    exists (child_key "hidden_layers." k "bias"), (shape (bias l)),
      (shape (bias l')).
    apply error_msgs_final.
    apply (errors_of_In sd (state_dict f) _ (bias l') (bias l)).
    + apply lookup_In. rewrite lookup_hidden_bias, Hl'. reflexivity.
    + unfold sd. rewrite lookup_py_tensors, lookup_hidden_bias, Hl.
      reflexivity.
    + congruence.
  - intros Hlt. rewrite <- Lm, <- Lf in Hlt.
    pose proof (missing_layer_key m f Hlt) as Hin. fold sd in Hin.
    rewrite Lm in Hin.
    exists (missing_keys (report sd f)). split; [|exact Hin].
    apply missing_final. intros E.
    change (missing_keys (report sd f))
      with (missing_of sd (state_dict f)) in E.
    rewrite E in Hin. destruct Hin.
  - intros Hlt. rewrite <- Lm, <- Lf in Hlt.
    pose proof (unexpected_layer_key m f Hlt) as Hin. fold sd in Hin.
    rewrite Lf in Hin.
    exists (unexpected_keys (report sd f)). split; [|exact Hin].
    apply unexpected_final. intros E.
    change (unexpected_keys (report sd f))
      with (Network_unexpected sd f) in E.
    rewrite E in Hin. destruct Hin.
  - rewrite state_dict_assign. apply map_ext. intros [k p]. simpl.
    unfold sd. rewrite assign_py_tensors. reflexivity.
Qed.

Lemma load_into_other_architecture_witness :
  exists f' msgs,
    load_state_dict fresh_4_5_2 (py_state_dict model_4_3_2)
    = (f', Raise (RuntimeError msgs)) /\
    (List.length [3] = List.length [5] ->
     exists key s1 s2, In (size_mismatch key s1 s2) msgs) /\
    ((List.length [3] < List.length [5])%nat ->
     exists keys,
       In (missing_keys_msg keys) msgs /\
       In (child_key "hidden_layers." (List.length [3]) "weight") keys) /\
    ((List.length [5] < List.length [3])%nat ->
     exists keys,
       In (unexpected_keys_msg keys) msgs /\
       In (child_key "hidden_layers." (List.length [5]) "weight") keys) /\
    state_dict f'
    = map (fun kp =>
             (fst kp,
              match lookup (fst kp) (state_dict model_4_3_2) with
              | Some t =>
                  if Size_eqb (shape t) (shape (snd kp)) then t else snd kp
              | None => snd kp
              end))
        (state_dict fresh_4_5_2).
Proof.
  apply (load_into_other_architecture 4 2 [3] model_4_3_2
           4 2 [5] fresh_4_5_2).
  - repeat split. discriminate.
  - repeat split. discriminate.
  - discriminate.
Defined.

(** C2, as stated, fails: the call raises, but it has already written the
    parameters whose dimensions agree.  A model built for hidden widths
    [5] receives the parameters stored for hidden widths [3]: the three
    tensors that depend on the hidden width are reported, and the output
    bias, of shape (2) in both, is overwritten. *)
Lemma failed_load_overwrites_output_bias :
  fst (Network_init 4 2 [5] (empty_world (fun i => Z.of_N i)))
  = Ok fresh_4_5_2 /\
  getitem (checkpoint model_4_3_2) "hidden_layers" = Ok (PyList [PyInt 3]) /\
  snd (load_state_dict fresh_4_5_2 (py_state_dict model_4_3_2))
  = Raise (RuntimeError
             [size_mismatch "hidden_layers.0.weight" [3; 4] [5; 4];
              size_mismatch "hidden_layers.0.bias" [3] [5];
              size_mismatch "output.weight" [2; 3] [2; 5]]) /\
  bias (output fresh_4_5_2) = {| shape := [2]; data := [35; 36] |} /\
  bias (output (fst (load_state_dict fresh_4_5_2 (py_state_dict model_4_3_2))))
  = {| shape := [2]; data := [1; 1] |}.
Proof. repeat split; vm_compute; reflexivity. Qed.

(** ** The scenario of the notebook *)

(** C5 (amended).  Loading the parameters saved from a model with
    [hidden_layers=[512,256,128]], 784 inputs and 10 outputs into a model
    constructed with [hidden_layers=[400,200,100]] fails and reports
    exactly seven mismatched tensors: the weights and biases of the three
    hidden layers and the weight of the output layer, whose input width
    is the last hidden width. *)
Theorem notebook_mismatch_report (m f : Network) :
  has_architecture 784 10 [512; 256; 128] m ->
  has_architecture 784 10 [400; 200; 100] f ->
  snd (load_state_dict f (py_state_dict m))
  = Raise
      (RuntimeError
         [size_mismatch "hidden_layers.0.weight" [512; 784] [400; 784];
          size_mismatch "hidden_layers.0.bias" [512] [400];
          size_mismatch "hidden_layers.1.weight" [256; 512] [200; 400];
          size_mismatch "hidden_layers.1.bias" [256] [200];
          size_mismatch "hidden_layers.2.weight" [128; 256] [100; 200];
          size_mismatch "hidden_layers.2.bias" [128] [100];
          size_mismatch "output.weight" [10; 128] [10; 100]]).
Proof.
  intros Hm Hf. unfold py_state_dict.
  rewrite load_state_dict_spec
    by (apply tensors_only_loadable, tensors_only_py_tensors
        || eapply has_architecture_ranked, Hf).
  cbn [snd]. unfold outcome, report.
  destruct Hm as (_ & Hmc & (_ & _ & Hmw & Hmb) & _).
  destruct Hf as (_ & Hfc & (_ & _ & Hfw & Hfb) & _).
  destruct m as [mh [mi mo [msw mdw] [msb mdb]] md].
  destruct f as [fh [fi fo [fsw fdw] [fsb fdb]] fd].
  cbn [hidden_layers output weight bias shape] in *.
  destruct mh as [|[? ? [? ?] [? ?]] [|[? ? [? ?] [? ?]] [|[? ? [? ?] [? ?]] [|? ?]]]];
    simpl in Hmc; try tauto.
  destruct fh as [|[? ? [? ?] [? ?]] [|[? ? [? ?] [? ?]] [|[? ? [? ?] [? ?]] [|? ?]]]];
    simpl in Hfc; try tauto.
  unfold Linear_has_widths in *. cbn [weight bias shape] in *.
  repeat match goal with
         | H : _ /\ _ |- _ => destruct H
         end.
  subst. vm_compute. reflexivity.
Qed.

Lemma notebook_mismatch_report_witness :
  snd (load_state_dict model_400_200_100 (py_state_dict model_512_256_128))
  = Raise
      (RuntimeError
         [size_mismatch "hidden_layers.0.weight" [512; 784] [400; 784];
          size_mismatch "hidden_layers.0.bias" [512] [400];
          size_mismatch "hidden_layers.1.weight" [256; 512] [200; 400];
          size_mismatch "hidden_layers.1.bias" [256] [200];
          size_mismatch "hidden_layers.2.weight" [128; 256] [100; 200];
          size_mismatch "hidden_layers.2.bias" [128] [100];
          size_mismatch "output.weight" [10; 128] [10; 100]]).
Proof.
  apply (notebook_mismatch_report model_512_256_128 model_400_200_100).
  - repeat split. discriminate.
  - repeat split. discriminate.
Defined.

(** C5, as stated, fails: the notebook's cells 4, 7, 8 and 10 end in the
    error recorded in the notebook, which lists seven tensors, not six;
    the seventh is the weight of the output layer. *)
Lemma notebook_reports_seven_tensors :
  fst (notebook_until_cell_10 (empty_world (fun _ => 0)))
  = Raise
      (RuntimeError
         [size_mismatch "hidden_layers.0.weight" [512; 784] [400; 784];
          size_mismatch "hidden_layers.0.bias" [512] [400];
          size_mismatch "hidden_layers.1.weight" [256; 512] [200; 400];
          size_mismatch "hidden_layers.1.bias" [256] [200];
          size_mismatch "hidden_layers.2.weight" [128; 256] [100; 200];
          size_mismatch "hidden_layers.2.bias" [128] [100];
          size_mismatch "output.weight" [10; 128] [10; 100]]) /\
  List.length
    [size_mismatch "hidden_layers.0.weight" [512; 784] [400; 784];
     size_mismatch "hidden_layers.0.bias" [512] [400];
     size_mismatch "hidden_layers.1.weight" [256; 512] [200; 400];
     size_mismatch "hidden_layers.1.bias" [256] [200];
     size_mismatch "hidden_layers.2.weight" [128; 256] [100; 200];
     size_mismatch "hidden_layers.2.bias" [128] [100];
     size_mismatch "output.weight" [10; 128] [10; 100]] = 7%nat.
Proof. split; [vm_compute; reflexivity | reflexivity]. Qed.

(** The keys printed by cell 6. *)
Example state_dict_keys :
  map fst (state_dict model_512_256_128)
  = ["hidden_layers.0.weight"; "hidden_layers.0.bias";
     "hidden_layers.1.weight"; "hidden_layers.1.bias";
     "hidden_layers.2.weight"; "hidden_layers.2.bias";
     "output.weight"; "output.bias"].
Proof. reflexivity. Qed.

(** After the failure in cell 10 the current model is the one built there;
    the writer of cell 11 saves it, and cell 13 prints its layers. *)
Example notebook_cell_13 :
  let w10 := snd (notebook_until_cell_10 (empty_world (fun _ => 0))) in
  let w13 := snd ((_ <- cell_11 ;; cell_13) w10) in
  fst ((_ <- cell_11 ;; cell_13) w10) = Ok tt /\
  option_map printed (var_model w13)
  = Some [(784, 400); (400, 200); (200, 100); (100, 10)].
Proof. vm_compute. split; reflexivity. Qed.

(** With one more hidden layer of the same width in the target, no
    tensor mismatches: the error reports the keys of the new layer as
    missing, and all the other parameters have been overwritten. *)
Example longer_target_reports_missing_keys :
  fst (Network_init 4 2 [3; 3] (empty_world (fun i => Z.of_N i)))
  = Ok fresh_4_3_3_2 /\
  snd (load_state_dict fresh_4_3_3_2 (py_state_dict model_4_3_2))
  = Raise (RuntimeError
             [missing_keys_msg
                ["hidden_layers.1.weight"; "hidden_layers.1.bias"]]) /\
  state_dict (fst (load_state_dict fresh_4_3_3_2 (py_state_dict model_4_3_2)))
  = [("hidden_layers.0.weight", ones [3; 4]);
     ("hidden_layers.0.bias", ones [3]);
     ("hidden_layers.1.weight", counting 15 [3; 3]);
     ("hidden_layers.1.bias", counting 24 [3]);
     ("output.weight", ones [2; 3]);
     ("output.bias", ones [2])].
Proof. repeat split; vm_compute; reflexivity. Qed.

(** With one hidden layer less in the target, the keys of the layer it
    lacks are unexpected, next to the tensors that mismatch. *)
Example shorter_target_reports_unexpected_keys :
  snd (load_state_dict model_4_3_2 (py_state_dict model_3_4_5_2))
  = Raise (RuntimeError
             [unexpected_keys_msg
                ["hidden_layers.1.weight"; "hidden_layers.1.bias"];
              size_mismatch "hidden_layers.0.weight" [4; 3] [3; 4];
              size_mismatch "hidden_layers.0.bias" [4] [3];
              size_mismatch "output.weight" [2; 5] [2; 3]]).
Proof. vm_compute. reflexivity. Qed.

(** * Further properties of the cells and of the library calls *)

(** ** [load_state_dict] keeps the layout of the model *)

Lemma load_param_shape sd key p acc :
  shape (fst (load_param sd key p acc)) = shape p.
Proof.
  unfold load_param.
  destruct (lookup key sd) as [[z|l|t|d]|]; try reflexivity.
  destruct (compat_input p t) as [t'|e]; [|reflexivity].
  destruct (negb (Size_eqb (shape t') (shape p))); reflexivity.
Qed.

Lemma same_layout_Linear_refl l : same_layout_Linear l l.
Proof. repeat split. Qed.

Lemma Linear_load_layout sd prefix l acc :
  same_layout_Linear l (fst (Linear_load sd prefix l acc)).
Proof.
  unfold Linear_load.
  pose proof (load_param_shape sd (prefix ++ "weight") (weight l) acc) as Hw.
  destruct (load_param sd (prefix ++ "weight") (weight l) acc) as [w [acc1|e]].
  - cbn [set_weight bias].
    pose proof (load_param_shape sd (prefix ++ "bias") (bias l) acc1) as Hb.
    destruct (load_param sd (prefix ++ "bias") (bias l) acc1) as [b [acc2|e]];
      repeat split; assumption.
  - repeat split. exact Hw.
Qed.

Lemma Forall2_same_layout_refl ls : Forall2 same_layout_Linear ls ls.
Proof. induction ls; constructor; [apply same_layout_Linear_refl | auto]. Qed.

Lemma ModuleList_load_children_layout sd prefix ls : forall i acc,
  Forall2 same_layout_Linear ls
    (fst (ModuleList_load_children sd prefix i ls acc)).
Proof.
  induction ls as [|l ls IH]; intros i acc; [constructor|].
  cbn [ModuleList_load_children].
  pose proof (Linear_load_layout sd (prefix ++ str i ++ ".") l acc) as Hl.
  destruct (Linear_load sd (prefix ++ str i ++ ".") l acc) as [l1 [acc1|e]].
  - specialize (IH (S i) acc1).
    destruct (ModuleList_load_children sd prefix (S i) ls acc1) as [ls1 r].
    constructor; assumption.
  - constructor; [exact Hl | apply Forall2_same_layout_refl].
Qed.

Lemma Network_load_layout sd m acc :
  same_layout m (fst (Network_load sd m acc)).
Proof.
  unfold Network_load, ModuleList_load.
  match goal with
  | |- context [ModuleList_load_children sd ?p 0 ?ls ?a] =>
      pose proof (ModuleList_load_children_layout sd p ls 0 a) as Hh;
      destruct (ModuleList_load_children sd p 0 ls a) as [ls1 [acc1|e]]
  end.
  - cbn [set_hidden_layers output].
    pose proof (Linear_load_layout sd "output." (output m) acc1) as Ho.
    destruct (Linear_load sd "output." (output m) acc1) as [o1 [acc2|e]];
      repeat split; try assumption; apply Ho.
  - split; [exact Hh|]. split; [apply same_layout_Linear_refl | reflexivity].
Qed.

Lemma skel_children_layout prefix ls ls' : forall i,
  Forall2 same_layout_Linear ls ls' ->
  map skel (ModuleList_state_dict prefix i ls')
  = map skel (ModuleList_state_dict prefix i ls).
Proof.
  intros i H. revert i.
  induction H as [|l l' ls ls' (_ & _ & Hw & Hb) _ IH]; intros i;
    [reflexivity|].
  rewrite !ModuleList_state_dict_cons. cbn [map]. unfold skel at 1 2 4 5.
  cbn [fst snd]. rewrite Hw, Hb, IH. reflexivity.
Qed.

Lemma skel_layout m m' :
  same_layout m m' -> map skel (state_dict m') = map skel (state_dict m).
Proof.
  intros (Hh & (_ & _ & Hw & Hb) & _). unfold state_dict.
  rewrite !map_app, (skel_children_layout _ _ _ _ Hh).
  unfold Linear_state_dict, skel. cbn [map fst snd]. rewrite Hw, Hb.
  reflexivity.
Qed.

Lemma chained_layout (hidden : list Z) : forall prev ls ls',
  chained prev hidden ls -> Forall2 same_layout_Linear ls ls' ->
  chained prev hidden ls'.
Proof.
  induction hidden as [|h hidden IH]; intros prev ls ls' Hc HL;
    destruct HL as [|l l' ls ls' Hl HL]; simpl in *; try contradiction;
    [exact I|].
  destruct Hc as [(Hi & Ho & Hw & Hb) Hc]. destruct Hl as (Li & Lo & Lw & Lb).
  split; [repeat split; congruence | eapply IH; eassumption].
Qed.

Lemma has_architecture_layout i o hidden m m' :
  has_architecture i o hidden m -> same_layout m m' ->
  has_architecture i o hidden m'.
Proof.
  intros (Hne & Hc & (Hi & Ho & Hw & Hb) & Hd) (Lh & (Li & Lo & Lw & Lb) & Ld).
  split; [exact Hne|]. split; [eapply chained_layout; eassumption|].
  split; [repeat split; congruence | congruence].
Qed.

Lemma load_state_dict_layout (m : Network) (v : pyval) :
  same_layout m (fst (load_state_dict m v)).
Proof.
  unfold load_state_dict. destruct v as [z|l|t|d];
    try (split; [apply Forall2_same_layout_refl|];
         split; [apply same_layout_Linear_refl | reflexivity]).
  pose proof (Network_load_layout d m empty_acc) as H.
  destruct (Network_load d m empty_acc) as [m1 [acc1|e]]; [|exact H].
  destruct (nonempty (final_msgs acc1)); exact H.
Qed.

(** X1.  Whatever [load_state_dict] is given, and whether it returns,
    reports or stops on a value that is no tensor, the model afterwards
    has the widths, the keys and the parameter shapes it had before:
    values are replaced, nothing is reshaped. *)
Theorem load_state_dict_keeps_layout (m : Network) (v : pyval) :
  same_layout m (fst (load_state_dict m v)) /\
  map skel (state_dict (fst (load_state_dict m v))) = map skel (state_dict m).
Proof.
  split; [|apply skel_layout]; apply load_state_dict_layout.
Qed.

(** ** Cells 7, 8 and 9: the state dictionary through a file *)

(** X2.  For a model of any architecture, saving its state dictionary
    (cell 7), reading the file back (cell 8) and loading the result into
    the same model (cell 9) returns the empty lists of missing and
    unexpected keys, "All keys matched successfully"; the model is the
    one it was, and [state_dict] holds its state dictionary. *)
Theorem state_dict_through_file (w : World) (m : Network) i o hidden :
  var_model w = Some m ->
  has_architecture i o hidden m ->
  exists w',
    cells_7_8_9 w = (Ok ([], []), w') /\
    var_model w' = Some m /\
    var_state_dict w' = Some (py_state_dict m).
Proof.
  intros Hm Ha. eexists.
  unfold cells_7_8_9, cell_7, cell_8, cell_9, bind, get_model, torch_save,
    torch_load, get_state_dict, model_load_state_dict, lift, keys, ret.
  rewrite Hm. cbn [fst snd files set_files lookup].
  rewrite String.eqb_refl.
  cbn [var_state_dict set_var_state_dict var_model set_files py_state_dict].
  rewrite Hm.
  cbn [var_state_dict set_var_state_dict var_model set_files].
  rewrite Hm, (load_state_dict_same_architecture _ _ _ _ _ Ha Ha).
  split; [reflexivity|]. split; reflexivity.
Qed.

Lemma state_dict_through_file_witness :
  exists w',
    cells_7_8_9 (world_with model_4_3_2) = (Ok ([], []), w') /\
    var_model w' = Some model_4_3_2 /\
    var_state_dict w' = Some (py_state_dict model_4_3_2).
Proof.
  apply (state_dict_through_file (world_with model_4_3_2) model_4_3_2
           4 2 [3]).
  - reflexivity.
  - repeat split. discriminate.
Defined.

(** ** Cell 10 and what follows it *)

(** X3.  In whatever state the notebook is, cell 10 binds [model] to a
    network with hidden widths 400, 200, 100, also when its call of
    [load_state_dict] raises or when [state_dict] is unbound; the writer
    of cell 11 and the loader of cell 13 then run without error and leave
    [model] bound to that same network, parameter for parameter. *)
Theorem after_cell_10 (w : World) :
  exists m w13,
    var_model (snd (cell_10 w)) = Some m /\
    has_architecture 784 10 [400; 200; 100] m /\
    cells_11_13 (snd (cell_10 w)) = (Ok tt, w13) /\
    var_model w13 = Some m.
Proof.
  destruct (Network_init_ok 784 10 [400; 200; 100] w) as (m0 & w1 & EN & Ha & _);
    try lia; [repeat constructor; lia | discriminate |].
  assert (H10 : exists m, var_model (snd (cell_10 w)) = Some m /\
                          has_architecture 784 10 [400; 200; 100] m).
  { unfold cell_10, bind. rewrite EN. unfold get_model, get_state_dict.
    cbn [var_model var_state_dict set_var_model].
    destruct (var_state_dict w1) as [v|].
    - unfold model_load_state_dict. cbn [var_model set_var_model].
      pose proof (load_state_dict_layout m0 v) as HL.
      destruct (load_state_dict m0 v) as [m' r]. cbn [fst snd] in *.
      exists m'. split; [reflexivity|].
      eapply has_architecture_layout; eassumption.
    - exists m0. split; [reflexivity | exact Ha]. }
  destruct H10 as (m & Hm & Hma).
  set (w10 := snd (cell_10 w)) in *.
  set (w11 := set_files w10 (("checkpoint.pth", checkpoint m) :: files w10)).
  destruct (writer_record_loads "checkpoint.pth" w11 m [400; 200; 100])
    as (w12 & HL); [| exact Hma | reflexivity |].
  { repeat split; try lia. repeat constructor; lia. }
  exists m, (set_var_model w12 m). split; [exact Hm|]. split; [exact Hma|].
  split; [|reflexivity].
  unfold cells_11_13, bind. rewrite (cell_11_writes w10 m Hm).
  fold w11. unfold cell_13, bind. rewrite HL. reflexivity.
Qed.

(** ** The loader leaves the notebook alone *)

Lemma frames_ret {A : Type} (a : A) : frames (ret a).
Proof. intros w. apply same_but_generator_refl. Qed.

Lemma frames_raise {A : Type} (e : exn) : frames (@raise A e).
Proof. intros w. apply same_but_generator_refl. Qed.

Lemma frames_lift {A : Type} (r : result A) : frames (lift r).
Proof. intros w. apply same_but_generator_refl. Qed.

Lemma frames_bind {A B : Type} (c : Cell A) (k : A -> Cell B) :
  frames c -> (forall a, frames (k a)) -> frames (bind c k).
Proof.
  intros Hc Hk w. unfold bind. specialize (Hc w).
  destruct (c w) as [[a|e] w1]; [|exact Hc].
  eapply same_but_generator_trans; [exact Hc | apply Hk].
Qed.

Lemma frames_draw (n : nat) : frames (draw n).
Proof. intros w. apply same_but_generator_set. Qed.

Lemma frames_new_parameter (dims : Size) : frames (new_parameter dims).
Proof.
  unfold new_parameter. destruct (existsb _ dims); [apply frames_raise|].
  apply frames_bind; [apply frames_draw | intros; apply frames_ret].
Qed.

Lemma frames_Linear_init (i o : Z) : frames (Linear_init i o).
Proof.
  unfold Linear_init.
  repeat (apply frames_bind; [apply frames_new_parameter | intros]).
  apply frames_ret.
Qed.

Lemma frames_hidden_init (hidden : list Z) : forall prev,
  frames (hidden_init prev hidden).
Proof.
  induction hidden as [|h hidden IH]; intros prev; [apply frames_ret|].
  simpl. apply frames_bind; [apply frames_Linear_init | intros].
  apply frames_bind; [apply IH | intros; apply frames_ret].
Qed.

Lemma frames_Network_init (i o : Z) (hidden : list Z) :
  frames (Network_init i o hidden).
Proof.
  unfold Network_init. destruct hidden; [apply frames_raise|].
  apply frames_bind; [apply frames_hidden_init | intros].
  apply frames_bind; [apply frames_Linear_init | intros; apply frames_ret].
Qed.

Lemma frames_torch_load (path : string) : frames (torch_load path).
Proof.
  intros w. unfold torch_load.
  destruct (lookup path (files w)); apply same_but_generator_refl.
Qed.

Lemma frames_load_checkpoint (path : string) : frames (load_checkpoint path).
Proof.
  unfold load_checkpoint.
  apply frames_bind; [apply frames_torch_load | intros rec].
  do 3 (apply frames_bind; [apply frames_lift | intros]).
  apply frames_bind.
  - unfold Network_call.
    do 3 (apply frames_bind; [apply frames_lift | intros]).
    apply frames_Network_init.
  - intros f. apply frames_bind; [apply frames_lift | intros vs].
    destruct (load_state_dict f vs) as [m r].
    apply frames_bind; [apply frames_lift | intros; apply frames_ret].
Qed.

(** X4.  The loader changes neither a file nor the variables [model] and
    [state_dict], whether it returns a model or raises: the model it
    builds is its own, and the caller's model stays as it is until the
    result is assigned. *)
Theorem load_checkpoint_leaves_notebook (path : string) (w : World) :
  files (snd (load_checkpoint path w)) = files w /\
  var_model (snd (load_checkpoint path w)) = var_model w /\
  var_state_dict (snd (load_checkpoint path w)) = var_state_dict w.
Proof. apply frames_load_checkpoint. Qed.

(** ** The keys of a state dictionary are distinct *)

Lemma child_key_inj prefix i j n1 n2 :
  child_key prefix i n1 = child_key prefix j n2 -> i = j /\ n1 = n2.
Proof.
  intros E. apply String.eqb_eq in E. rewrite child_key_eqb in E.
  apply andb_prop in E as [Ei En].
  apply Nat.eqb_eq in Ei. apply String.eqb_eq in En. auto.
Qed.

Lemma NoDup_children_keys prefix ls : forall i,
  NoDup (map fst (ModuleList_state_dict prefix i ls)).
Proof.
  induction ls as [|l ls IH]; intros i; [constructor|].
  rewrite ModuleList_state_dict_cons. cbn [map fst].
  constructor; [|constructor; [|apply IH]].
  - intros [E|H].
    + apply child_key_inj in E as [_ E]. discriminate.
    + apply keys_children in H as (j & name & Hj & _ & E).
      apply child_key_inj in E as [-> _]. lia.
  - intros H. apply keys_children in H as (j & name & Hj & _ & E).
    apply child_key_inj in E as [-> _]. lia.
Qed.

Lemma output_key_not_hidden (m : Network) (name : string) :
  ~ In ("output." ++ name)
      (map fst (ModuleList_state_dict "hidden_layers." 0 (hidden_layers m))).
Proof.
  intros H. apply keys_children in H as (j & name' & _ & _ & E).
  rewrite child_key_eq in E. discriminate.
Qed.

Lemma lookup_NoDup {V : Type} (d : list (string * V)) (k : string) (v : V) :
  NoDup (map fst d) -> In (k, v) d -> lookup k d = Some v.
Proof.
  induction d as [|[k' v'] d IH]; intros Hnd Hin; [destruct Hin|].
  inversion Hnd as [|? ? Hk' Hnd']; subst. simpl.
  destruct Hin as [E|Hin].
  - injection E as -> ->. now rewrite String.eqb_refl.
  - destruct (String.eqb_spec k k') as [->|_]; [|apply IH; assumption].
    exfalso. apply Hk'. apply (in_map fst _ _ Hin).
Qed.

Lemma length_children prefix ls : forall i,
  List.length (ModuleList_state_dict prefix i ls) = (2 * List.length ls)%nat.
Proof.
  induction ls as [|l ls IH]; intros i; [reflexivity|].
  rewrite ModuleList_state_dict_cons. cbn [List.length]. rewrite IH. lia.
Qed.

Lemma NoDup_state_dict_keys (m : Network) : NoDup (map fst (state_dict m)).
Proof.
  unfold state_dict. rewrite map_app.
  apply NoDup_app; [apply NoDup_children_keys|..].
  - cbn [Linear_state_dict map fst].
    constructor; [|constructor; [intros []|constructor]].
    intros [E|[]]. discriminate.
  - intros k Hk [<-|[<-|[]]];
      [apply (output_key_not_hidden m "weight")
      |apply (output_key_not_hidden m "bias")]; exact Hk.
Qed.

(** X5.  The state dictionary of a model has two entries for each hidden
    layer and two for the output layer, under keys that are all distinct,
    so that looking a key up returns the parameter registered under it. *)
Theorem state_dict_keys_distinct (m : Network) :
  NoDup (map fst (state_dict m)) /\
  List.length (state_dict m) = (2 * List.length (hidden_layers m) + 2)%nat /\
  forall key t, In (key, t) (state_dict m) ->
                lookup key (state_dict m) = Some t.
Proof.
  split; [apply NoDup_state_dict_keys|]. split.
  - unfold state_dict. rewrite length_app, length_children. simpl. lia.
  - intros key t. apply lookup_NoDup, NoDup_state_dict_keys.
Qed.

(** ** A dictionary that has none of the model's keys *)

Lemma lookup_notin {V : Type} (k : string) (d : list (string * V)) :
  ~ In k (map fst d) -> lookup k d = None.
Proof.
  induction d as [|[k' v] d IH]; intros H; [reflexivity|]. simpl in *.
  destruct (String.eqb_spec k k') as [->|_]; [exfalso; auto | auto].
Qed.

Lemma net_key_not_field n key : net_key n key -> ~ In key fields.
Proof.
  intros [i name _ _|name Hn] Hin; simpl in Hin.
  - rewrite child_key_eq in Hin.
    destruct Hin as [E|[E|[E|[E|[]]]]]; discriminate E.
  - destruct Hn as [-> | ->];
      destruct Hin as [E|[E|[E|[E|[]]]]]; discriminate E.
Qed.

Lemma assign_absent sd key p :
  lookup key sd = None ->
  assign sd key p = p /\ slot_missing sd key = [key] /\
  slot_errors sd key p = [].
Proof.
  intros E. unfold assign, slot_missing, slot_errors. rewrite E. auto.
Qed.

Lemma assign_children_absent sd prefix ls : forall i,
  (forall k, In k (map fst (ModuleList_state_dict prefix i ls)) ->
             lookup k sd = None) ->
  assign_children sd prefix i ls = ls /\
  missing_of sd (ModuleList_state_dict prefix i ls)
  = map fst (ModuleList_state_dict prefix i ls) /\
  errors_of sd (ModuleList_state_dict prefix i ls) = [].
Proof.
  induction ls as [|l ls IH]; intros i H; [repeat split|].
  rewrite ModuleList_state_dict_cons in *. cbn [map fst] in H.
  destruct (assign_absent sd _ (weight l) (H _ (or_introl eq_refl)))
    as (Aw & Mw & Ew).
  destruct (assign_absent sd _ (bias l) (H _ (or_intror (or_introl eq_refl))))
    as (Ab & Mb & Eb).
  destruct (IH (S i)) as (A & M & E).
  { intros k Hk. apply H. right. right. exact Hk. }
  unfold missing_of, errors_of in *. cbn [flat_map map fst snd].
  cbn [assign_children]. unfold assign_Linear.
  unfold child_key in Aw, Ab. rewrite Aw, Ab, A, Mw, Mb, M, Ew, Eb, E.
  destruct l. repeat split.
Qed.

Lemma load_state_dict_absent sd m :
  ranked m ->
  (forall k, In k (map fst (state_dict m)) -> lookup k sd = None) ->
  load_state_dict m (PyDict sd)
  = (m, Raise (RuntimeError
                 (missing_keys_msg (map fst (state_dict m))
                    :: if nonempty (Network_unexpected sd m)
                       then [unexpected_keys_msg (Network_unexpected sd m)]
                       else []))).
Proof.
  intros Hr H.
  assert (HL : slots_loadable sd (state_dict m)).
  { apply Forall_forall. intros [k p] Hin. unfold loadable. simpl.
    rewrite (H k); [exact I | apply (in_map fst _ _ Hin)]. }
  rewrite (load_state_dict_spec _ _ Hr HL).
  unfold state_dict in H. rewrite map_app in H.
  destruct (assign_children_absent sd "hidden_layers." (hidden_layers m) 0)
    as (A & M & E).
  { intros k Hk. apply H, in_or_app. left. exact Hk. }
  destruct (assign_absent sd "output.weight" (weight (output m)))
    as (Aw & Mw & Ew).
  { apply H, in_or_app. right. left. reflexivity. }
  destruct (assign_absent sd "output.bias" (bias (output m)))
    as (Ab & Mb & Eb).
  { apply H, in_or_app. right. right. left. reflexivity. }
  f_equal.
  - unfold assign_Network, assign_Linear. cbn [append].
    rewrite A, Aw, Ab. destruct m as [h [oi oo ow ob] d]. reflexivity.
  - unfold outcome, report, final_msgs, state_dict, missing_of, errors_of in *.
    rewrite !flat_map_app, M, E. cbn [flat_map Linear_state_dict fst snd].
    cbn [missing_keys unexpected_keys error_msgs].
    change ("output." ++ "weight") with "output.weight".
    change ("output." ++ "bias") with "output.bias".
    rewrite Mw, Mb, Ew, Eb, map_app. cbn [map fst app].
    destruct (map fst (ModuleList_state_dict "hidden_layers." 0
                         (hidden_layers m)));
      destruct (nonempty (Network_unexpected sd m)); reflexivity.
Qed.

(** X6.  Loading an empty dictionary raises the report that names every
    key of the model as missing, and changes no parameter. *)
Theorem load_empty_state_dict (m : Network) :
  ranked m ->
  load_state_dict m (PyDict [])
  = (m, Raise (RuntimeError [missing_keys_msg (map fst (state_dict m))])).
Proof.
  intros Hr. rewrite load_state_dict_absent; [|exact Hr|reflexivity].
  rewrite Network_unexpected_nil; [reflexivity|]. intros key [].
Qed.

Lemma load_empty_state_dict_witness :
  load_state_dict model_4_3_2 (PyDict [])
  = (model_4_3_2,
     Raise (RuntimeError [missing_keys_msg (map fst (state_dict model_4_3_2))])).
Proof.
  apply (load_empty_state_dict model_4_3_2).
  repeat constructor; discriminate.
Defined.

(** ** The two kinds of file under one name *)

Lemma lookup_field_state_dict (m : Network) (key : string) :
  In key fields -> lookup key (py_tensors (state_dict m)) = None.
Proof.
  intros Hin. apply lookup_notin. rewrite map_fst_py_tensors. intros Hk.
  apply keys_state_dict in Hk. exact (net_key_not_field _ _ Hk Hin).
Qed.

(** X7.  The file cell 7 writes holds the bare state dictionary, which has
    no field [input_size]: the loader of cell 12, reading that file,
    raises [KeyError('input_size')] before it builds anything. *)
Theorem loader_rejects_plain_state_dict (w : World) (m : Network) :
  var_model w = Some m ->
  exists w1,
    cell_7 w = (Ok tt, w1) /\
    load_checkpoint "checkpoint.pth" w1 = (Raise (KeyError "input_size"), w1).
Proof.
  intros Hm. eexists. split.
  - unfold cell_7, bind, get_model. rewrite Hm. reflexivity.
  - unfold load_checkpoint, bind at 1, torch_load, torch_save.
    cbn [files set_files lookup]. rewrite String.eqb_refl.
    unfold bind, lift, getitem, py_state_dict.
    rewrite lookup_field_state_dict; [reflexivity | simpl; auto].
Qed.

Lemma loader_rejects_plain_state_dict_witness :
  exists w1,
    cell_7 (world_with model_4_3_2) = (Ok tt, w1) /\
    load_checkpoint "checkpoint.pth" w1 = (Raise (KeyError "input_size"), w1).
Proof.
  apply (loader_rejects_plain_state_dict (world_with model_4_3_2) model_4_3_2).
  reflexivity.
Defined.

Lemma children_unexpected_fields d ls : forall i,
  map fst d = fields -> children_unexpected d "hidden_layers." i ls = [].
Proof.
  induction ls as [|l ls IH]; intros i H; [reflexivity|].
  cbn [children_unexpected]. rewrite (IH _ H). unfold unexpected_in.
  rewrite H. reflexivity.
Qed.

Lemma Network_unexpected_fields d m :
  map fst d = fields ->
  Network_unexpected d m = ["input_size"; "output_size"; "state_dict"].
Proof.
  intros H. unfold Network_unexpected.
  rewrite (children_unexpected_fields _ _ _ H). unfold unexpected_in.
  rewrite H. reflexivity.
Qed.

Lemma lookup_net_key_fields {V : Type} (d : list (string * V)) n key :
  map fst d = fields -> net_key n key -> lookup key d = None.
Proof.
  intros H Hk. apply lookup_notin. rewrite H.
  eapply net_key_not_field, Hk.
Qed.

(** X8.  The file the writer of cell 11 leaves is no state dictionary:
    when cells 8 and 9 are run on it, [load_state_dict] raises a report
    of two lines, the first naming every key of the model as missing, the
    second listing the fields [input_size], [output_size] and
    [state_dict] among the unexpected keys; the model keeps all its
    parameters, and [state_dict] is bound to the record. *)
Theorem checkpoint_file_is_no_state_dict (w : World) (m : Network)
    i o hidden :
  var_model w = Some m ->
  has_architecture i o hidden m ->
  exists w' us,
    cells_11_8_9 w
    = (Raise (RuntimeError
                [missing_keys_msg (map fst (state_dict m));
                 unexpected_keys_msg us]), w') /\
    In "input_size" us /\ In "output_size" us /\ In "state_dict" us /\
    var_model w' = Some m /\
    var_state_dict w' = Some (checkpoint m).
Proof.
  intros Hm Ha. eexists _, _.
  unfold cells_11_8_9, cell_11, cell_8, cell_9, bind, get_model, torch_save,
    torch_load, get_state_dict, model_load_state_dict, lift, ret.
  rewrite Hm. cbn [fst snd files set_files lookup].
  rewrite String.eqb_refl.
  cbn [var_state_dict set_var_state_dict var_model set_files].
  change (keys (checkpoint m)) with (@Ok (list string) fields).
  cbn [var_state_dict set_var_state_dict var_model set_files].
  rewrite Hm.
  cbn [var_state_dict set_var_state_dict var_model set_files].
  rewrite Hm.
  change (load_state_dict m (checkpoint m))
    with (load_state_dict m
            (PyDict [("input_size", PyInt 784);
                     ("output_size", PyInt 10);
                     ("hidden_layers",
                      PyList (map (fun each => PyInt (out_features each))
                                  (hidden_layers m)));
                     ("state_dict", py_state_dict m)])).
  rewrite load_state_dict_absent.
  - rewrite Network_unexpected_fields by reflexivity.
    split; [reflexivity|]. simpl. auto 8.
  - eapply has_architecture_ranked, Ha.
  - intros k Hk. apply keys_state_dict in Hk.
    eapply lookup_net_key_fields; [reflexivity | exact Hk].
Qed.

Lemma checkpoint_file_is_no_state_dict_witness :
  exists w' us,
    cells_11_8_9 (world_with model_4_3_2)
    = (Raise (RuntimeError
                [missing_keys_msg (map fst (state_dict model_4_3_2));
                 unexpected_keys_msg us]), w') /\
    In "input_size" us /\ In "output_size" us /\ In "state_dict" us /\
    var_model w' = Some model_4_3_2 /\
    var_state_dict w' = Some (checkpoint model_4_3_2).
Proof.
  apply (checkpoint_file_is_no_state_dict (world_with model_4_3_2)
           model_4_3_2 4 2 [3]).
  - reflexivity.
  - repeat split. discriminate.
Defined.

(** ** What the loader can raise *)

Lemma bind_Raise {A B : Type} (c : Cell A) (k : A -> Cell B) w e w' :
  bind c k w = (Raise e, w') ->
  c w = (Raise e, w') \/ exists a w1, c w = (Ok a, w1) /\ k a w1 = (Raise e, w').
Proof.
  unfold bind. destruct (c w) as [[a|e1] w1]; [eauto|].
  intros [= -> ->]. auto.
Qed.

Lemma lift_Raise {A : Type} (r : result A) w e w' :
  lift r w = (Raise e, w') -> r = Raise e /\ w' = w.
Proof. unfold lift. intros [= -> ->]. auto. Qed.

Lemma new_parameter_Raise dims w e w' :
  new_parameter dims w = (Raise e, w') -> constructor_exn e.
Proof.
  unfold new_parameter. destruct (existsb _ dims).
  - unfold raise. intros [= <- _]. right. right. right. eauto.
  - unfold bind, draw, ret. discriminate.
Qed.

Lemma Linear_init_Raise i o w e w' :
  Linear_init i o w = (Raise e, w') -> constructor_exn e.
Proof.
  unfold Linear_init. intros H.
  apply bind_Raise in H as [H|(t & w1 & _ & H)];
    [eapply new_parameter_Raise, H|].
  apply bind_Raise in H as [H|(t' & w2 & _ & H)];
    [eapply new_parameter_Raise, H | discriminate H].
Qed.

Lemma hidden_init_Raise hidden : forall prev w e w',
  hidden_init prev hidden w = (Raise e, w') -> constructor_exn e.
Proof.
  induction hidden as [|h hidden IH]; intros prev w e w' H;
    [discriminate H|].
  simpl in H. apply bind_Raise in H as [H|(l & w1 & _ & H)];
    [eapply Linear_init_Raise, H|].
  apply bind_Raise in H as [H|(ls & w2 & _ & H)];
    [eapply IH, H | discriminate H].
Qed.

Lemma Network_init_Raise i o hidden w e w' :
  Network_init i o hidden w = (Raise e, w') -> constructor_exn e.
Proof.
  unfold Network_init. destruct hidden as [|h hs] eqn:Eh.
  - unfold raise. intros [= <- _]. right. left. reflexivity.
  - rewrite <- Eh. intros H.
    apply bind_Raise in H as [H|(ls & w1 & _ & H)];
      [eapply hidden_init_Raise, H|].
    apply bind_Raise in H as [H|(l & w2 & _ & H)];
      [eapply Linear_init_Raise, H | discriminate H].
Qed.

Lemma as_ints_Raise l e : as_ints l = Raise e -> e = TypeError.
Proof.
  induction l as [|v l IH]; simpl; [discriminate|].
  destruct v; simpl; try (intros [= <-]; reflexivity).
  destruct (as_ints l) as [zs|e']; [discriminate|].
  intros [= <-]. apply IH. reflexivity.
Qed.

Lemma Network_call_Raise vi vo vh w e w' :
  Network_call vi vo vh w = (Raise e, w') -> constructor_exn e.
Proof.
  unfold Network_call. intros H.
  apply bind_Raise in H as [H|(hs & w1 & _ & H)].
  { apply lift_Raise in H as [H _].
    destruct vh; simpl in H; try (injection H as <-; unfold constructor_exn; auto).
    left. eapply as_ints_Raise, H. }
  apply bind_Raise in H as [H|(i & w2 & _ & H)].
  { apply lift_Raise in H as [H _]. left. destruct vi; simpl in H; congruence. }
  apply bind_Raise in H as [H|(o & w3 & _ & H)].
  { apply lift_Raise in H as [H _]. left. destruct vo; simpl in H; congruence. }
  eapply Network_init_Raise, H.
Qed.

Lemma load_state_dict_Raise m v m' e :
  load_state_dict m v = (m', Raise e) ->
  e = AttributeError \/ e = IndexError \/ exists msgs, e = RuntimeError msgs.
Proof.
  unfold load_state_dict. destruct v as [z|l|t|d];
    try (intros [= _ <-]; auto).
  destruct (Network_load d m empty_acc) as [m1 [acc1|e1]] eqn:EN.
  - destruct (nonempty (final_msgs acc1)); [|discriminate].
    intros [= _ <-]. eauto.
  - intros [= _ <-]. apply Network_load_Raise in EN as [->| ->]; auto.
Qed.

Lemma getitem_Raise v key e :
  getitem v key = Raise e ->
  (e = KeyError key /\ exists d, v = PyDict d /\ lookup key d = None) \/
  e = TypeError \/ e = IndexError.
Proof.
  destruct v as [z|l|t|d]; simpl; try (intros [= <-]; auto).
  destruct (lookup key d) eqn:E; [discriminate|].
  intros [= <-]. left. eauto.
Qed.

(** The loader fails with a report that has a size mismatch only on a
    record with the four fields from which a model was built, whose
    dictionary stores a tensor under every key of the model it has, one
    of them with other dimensions than the slot. *)
Lemma load_checkpoint_size_mismatch path w msgs w' key s1 s2 :
  load_checkpoint path w = (Raise (RuntimeError msgs), w') ->
  In (size_mismatch key s1 s2) msgs ->
  exists rec i o hs sd f p t,
    lookup path (files w) = Some rec /\
    getitem rec "input_size" = Ok (PyInt i) /\
    getitem rec "output_size" = Ok (PyInt o) /\
    getitem rec "hidden_layers" = Ok (PyList (map PyInt hs)) /\
    getitem rec "state_dict" = Ok (PyDict sd) /\
    Network_init i o hs w = (Ok f, w') /\
    slots_loadable sd (state_dict f) /\
    In (key, p) (state_dict f) /\
    lookup key sd = Some (PyTensor t) /\
    s1 = shape t /\ s2 = shape p /\ shape t <> shape p.
Proof.
  unfold load_checkpoint. intros H Hin.
  apply bind_Raise in H as [H|(rec & w1 & Hrec & H)].
  { unfold torch_load in H. destruct (lookup path (files w)); discriminate. }
  apply torch_load_Ok in Hrec as [Hrec ->].
  apply bind_Raise in H as [H|(vi & w2 & Hvi & H)].
  { apply lift_Raise in H as [H _].
    apply getitem_Raise in H as [(E & _)|[E|E]]; discriminate E. }
  apply lift_Ok in Hvi as [Hvi ->].
  apply bind_Raise in H as [H|(vo & w3 & Hvo & H)].
  { apply lift_Raise in H as [H _].
    apply getitem_Raise in H as [(E & _)|[E|E]]; discriminate E. }
  apply lift_Ok in Hvo as [Hvo ->].
  apply bind_Raise in H as [H|(vh & w4 & Hvh & H)].
  { apply lift_Raise in H as [H _].
    apply getitem_Raise in H as [(E & _)|[E|E]]; discriminate E. }
  apply lift_Ok in Hvh as [Hvh ->].
  apply bind_Raise in H as [H|(f & w5 & Hcall & H)].
  { apply Network_call_Raise in H as [E|[E|[E|(dims & E)]]];
      try discriminate E.
    injection E as ->. destruct Hin as [Hin|[]]. discriminate Hin. }
  apply Network_call_Ok in Hcall as (i & o & hs & Ei & Eo & Eh & EN).
  apply as_int_Ok in Ei, Eo. apply as_int_list_Ok in Eh. subst vi vo vh.
  apply bind_Raise in H as [H|(vs & w6 & Hvs & H)].
  { apply lift_Raise in H as [H _].
    apply getitem_Raise in H as [(E & _)|[E|E]]; discriminate E. }
  apply lift_Ok in Hvs as [Hvs ->].
  destruct (load_state_dict f vs) as [m r] eqn:EL.
  apply bind_Raise in H as [H|(ks & w7 & _ & H)]; [|discriminate H].
  apply lift_Raise in H as [-> ->].
  apply load_state_dict_RuntimeError in EL as (sd & -> & HL & _ & ->);
    [|eapply has_architecture_ranked, Network_init_architecture, EN].
  apply size_mismatch_final in Hin.
  apply errors_of_inv in Hin as (p & t & Hp & Ht & -> & -> & Hne).
  exists rec, i, o, hs, sd, f, p, t. repeat split; assumption.
Qed.

(** X9.  The exceptions of the loader.  It raises [FileNotFoundError]
    exactly for its own path, when no such file exists, and then changes
    nothing at all; it raises [KeyError] with a string key only for one
    of the four fields, on a record that is a dictionary without that
    field; it never raises [NameError]; whatever else it raises, the file
    exists. *)
Theorem load_checkpoint_exceptions (path : string) (w : World) e w' :
  load_checkpoint path w = (Raise e, w') ->
  match e with
  | FileNotFoundError p =>
      p = path /\ lookup path (files w) = None /\ w' = w
  | KeyError key =>
      In key fields /\
      exists d, lookup path (files w) = Some (PyDict d) /\ lookup key d = None
  | NameError _ => False
  | _ => lookup path (files w) <> None
  end.
Proof.
  unfold load_checkpoint. intros H.
  apply bind_Raise in H as [H|(rec & w1 & Hrec & H)].
  { unfold torch_load in H. destruct (lookup path (files w)); [discriminate|].
    injection H as <- <-. auto. }
  apply torch_load_Ok in Hrec as [Hrec ->].
  assert (Hex : lookup path (files w) <> None) by congruence.
  assert (Hother :
            e = TypeError \/ e = IndexError \/ e = AttributeError \/
            e = KeyError_int 0 \/ (exists msgs, e = RuntimeError msgs) ->
            match e with
            | FileNotFoundError p =>
                p = path /\ lookup path (files w) = None /\ w' = w
            | KeyError key =>
                In key fields /\
                exists d, lookup path (files w) = Some (PyDict d) /\
                          lookup key d = None
            | NameError _ => False
            | _ => lookup path (files w) <> None
            end).
  { intros [->|[->|[->|[->|(msgs & ->)]]]]; exact Hex. }
  apply bind_Raise in H as [H|(vi & w2 & Hvi & H)].
  { apply lift_Raise in H as [H _].
    apply getitem_Raise in H as [(-> & d & -> & Hd)|[-> | ->]]; auto.
    split; [simpl; tauto | eauto]. }
  apply lift_Ok in Hvi as [_ ->].
  apply bind_Raise in H as [H|(vo & w3 & Hvo & H)].
  { apply lift_Raise in H as [H _].
    apply getitem_Raise in H as [(-> & d & -> & Hd)|[-> | ->]]; auto.
    split; [simpl; tauto | eauto]. }
  apply lift_Ok in Hvo as [_ ->].
  apply bind_Raise in H as [H|(vh & w4 & Hvh & H)].
  { apply lift_Raise in H as [H _].
    apply getitem_Raise in H as [(-> & d & -> & Hd)|[-> | ->]]; auto.
    split; [simpl; tauto | eauto]. }
  apply lift_Ok in Hvh as [_ ->].
  apply bind_Raise in H as [H|(f & w5 & _ & H)].
  { apply Network_call_Raise in H as [->|[->|[->|(dims & ->)]]]; eauto 8. }
  apply bind_Raise in H as [H|(vs & w6 & _ & H)].
  { apply lift_Raise in H as [H _].
    apply getitem_Raise in H as [(-> & d & -> & Hd)|[-> | ->]]; auto.
    split; [simpl; tauto | eauto]. }
  destruct (load_state_dict f vs) as [m r] eqn:EL.
  apply bind_Raise in H as [H|(keys & w7 & _ & H)]; [|discriminate H].
  apply lift_Raise in H as [-> _].
  apply load_state_dict_Raise in EL as [->|[->|(msgs & ->)]]; eauto 8.
Qed.

Lemma load_checkpoint_exceptions_witness :
  In "output_size" fields /\
  exists d,
    lookup "partial.pth"
      (files (world_with_file "partial.pth" (PyDict [("input_size", PyInt 4)])))
    = Some (PyDict d) /\
    lookup "output_size" d = None.
Proof.
  apply (load_checkpoint_exceptions "partial.pth"
           (world_with_file "partial.pth" (PyDict [("input_size", PyInt 4)]))
           (KeyError "output_size")
           (world_with_file "partial.pth" (PyDict [("input_size", PyInt 4)]))).
  reflexivity.
Defined.

(** ** Strict loading: unexpected and missing keys, and repeating a call *)

(** X10.  A dictionary of tensors with a key whose first component is
    none of [hidden_layers], [output] and [dropout] is rejected: the call
    raises a report whose list of unexpected keys contains that key. *)
Theorem unexpected_key_is_reported (m : Network) sd key :
  ranked m -> tensors_only sd ->
  In key (map fst sd) ->
  mem (before_dot key) ["hidden_layers"; "output"; "dropout"] = false ->
  exists msgs us,
    snd (load_state_dict m (PyDict sd)) = Raise (RuntimeError msgs) /\
    In (unexpected_keys_msg us) msgs /\ In key us.
Proof.
  intros Hr Ht Hin Hmem.
  rewrite (load_state_dict_spec _ _ Hr (tensors_only_loadable _ _ Ht)).
  cbn [snd]. unfold outcome.
  assert (Hu : In key (unexpected_keys (report sd m))).
  { cbn [report unexpected_keys]. unfold Network_unexpected.
    apply in_or_app. left. unfold unexpected_in. apply filter_In.
    split; [exact Hin|]. unfold is_unexpected. cbn [strip_prefix].
    rewrite Hmem. reflexivity. }
  assert (Hmsg : In (unexpected_keys_msg (unexpected_keys (report sd m)))
                    (final_msgs (report sd m))).
  { apply unexpected_final. intros E. rewrite E in Hu. destruct Hu. }
  rewrite (nonempty_In _ _ Hmsg). eauto.
Qed.

Lemma unexpected_key_is_reported_witness :
  exists msgs us,
    snd (load_state_dict model_4_3_2
           (PyDict (("epoch", PyTensor (ones [1]))
                      :: py_tensors (state_dict model_4_3_2))))
    = Raise (RuntimeError msgs) /\
    In (unexpected_keys_msg us) msgs /\ In "epoch" us.
Proof.
  apply (unexpected_key_is_reported model_4_3_2
           (("epoch", PyTensor (ones [1]))
              :: py_tensors (state_dict model_4_3_2)) "epoch").
  - repeat constructor; discriminate.
  - unfold tensors_only. simpl.
    repeat (constructor; [eexists; reflexivity|]). constructor.
  - simpl. auto.
  - reflexivity.
Defined.

(** X11.  A dictionary of tensors that lacks a key of the model is
    rejected: the call raises a report that opens with the list of missing
    keys, which contains that key, and the parameter under the key is
    left as it was. *)
Theorem missing_key_is_reported (m : Network) sd key p :
  ranked m -> tensors_only sd ->
  In (key, p) (state_dict m) -> lookup key sd = None ->
  exists m' ms rest,
    load_state_dict m (PyDict sd)
    = (m', Raise (RuntimeError (missing_keys_msg ms :: rest))) /\
    In key ms /\ In (key, p) (state_dict m').
Proof.
  intros Hr Ht Hin Hl.
  rewrite (load_state_dict_spec _ _ Hr (tensors_only_loadable _ _ Ht)).
  assert (Hm : In key (missing_keys (report sd m))).
  { cbn [report missing_keys]. unfold missing_of. apply in_flat_map.
    exists (key, p). split; [exact Hin|]. unfold slot_missing. simpl.
    rewrite Hl. left. reflexivity. }
  unfold outcome, final_msgs.
  destruct (missing_keys (report sd m)) as [|k0 ms0] eqn:E; [destruct Hm|].
  cbn [nonempty]. eexists _, _, _. split; [reflexivity|].
  split; [exact Hm|].
  rewrite state_dict_assign. apply in_map_iff.
  exists (key, p). split; [|exact Hin]. simpl.
  destruct (assign_absent sd key p Hl) as (-> & _). reflexivity.
Qed.

Lemma missing_key_is_reported_witness :
  exists m' ms rest,
    load_state_dict model_4_3_2 (PyDict [("output.bias", PyTensor (zeros [2]))])
    = (m', Raise (RuntimeError (missing_keys_msg ms :: rest))) /\
    In "output.weight" ms /\
    In ("output.weight", ones [2; 3]) (state_dict m').
Proof.
  apply (missing_key_is_reported model_4_3_2
           [("output.bias", PyTensor (zeros [2]))]
           "output.weight" (ones [2; 3])).
  - repeat constructor; discriminate.
  - unfold tensors_only. repeat constructor. eexists. reflexivity.
  - simpl. auto.
  - reflexivity.
Defined.

Lemma assign_idem sd key p : assign sd key (assign sd key p) = assign sd key p.
Proof.
  unfold assign. destruct (lookup key sd) as [[z|l|t|d]|]; try reflexivity.
  destruct (Size_eqb (shape t) (shape p)) eqn:E.
  - cbn [copy_ shape]. rewrite E. reflexivity.
  - rewrite E. reflexivity.
Qed.

Lemma assign_children_idem sd prefix ls : forall i,
  assign_children sd prefix i (assign_children sd prefix i ls)
  = assign_children sd prefix i ls.
Proof.
  induction ls as [|l ls IH]; intros i; [reflexivity|].
  cbn [assign_children]. rewrite IH. unfold assign_Linear.
  cbn [weight bias in_features out_features]. rewrite !assign_idem.
  reflexivity.
Qed.

Lemma assign_Network_idem sd m :
  assign_Network sd (assign_Network sd m) = assign_Network sd m.
Proof.
  unfold assign_Network. cbn [hidden_layers output dropout].
  rewrite assign_children_idem. unfold assign_Linear.
  cbn [weight bias in_features out_features]. rewrite !assign_idem.
  reflexivity.
Qed.

Lemma reports_skel sd (s1 : list (string * Tensor)) : forall s2,
  map skel s1 = map skel s2 ->
  missing_of sd s1 = missing_of sd s2 /\ errors_of sd s1 = errors_of sd s2.
Proof.
  unfold missing_of, errors_of.
  induction s1 as [|[k1 p1] s1 IH]; intros [|[k2 p2] s2] E;
    try discriminate; [split; reflexivity|].
  cbn [map] in E. injection E as Ek Ep E. cbn [fst snd] in Ek, Ep.
  subst k2. destruct (IH _ E) as [M R].
  cbn [flat_map fst snd]. rewrite M, R. unfold slot_errors. rewrite Ep.
  split; reflexivity.
Qed.

Lemma report_layout sd m m' :
  same_layout m m' -> report sd m' = report sd m.
Proof.
  intros HL. destruct (reports_skel sd _ _ (skel_layout _ _ HL)) as [M R].
  unfold report. rewrite M, R. f_equal.
  apply Network_unexpected_length. destruct HL as (Hh & _).
  symmetry. eapply Forall2_length, Hh.
Qed.

Lemma ranked_layout m m' : ranked m -> same_layout m m' -> ranked m'.
Proof.
  intros [Hh [Hw Hb]] (Lh & (_ & _ & Lw & Lb) & _). split.
  - clear Hw Hb Lw Lb. induction Lh as [|l l' ls ls' (_ & _ & Lw & Lb) _ IH];
      [constructor|].
    inversion Hh as [|? ? [Hw Hb] Hls]; subst.
    constructor; [split; congruence | apply IH, Hls].
  - split; congruence.
Qed.

(** X12.  Repeating a call of [load_state_dict] with the same dictionary
    of tensors changes nothing more and ends the same way: the same
    return value or the same report, and the same model as after the
    first call. *)
Theorem load_state_dict_twice (m : Network) sd :
  ranked m -> tensors_only sd ->
  load_state_dict (fst (load_state_dict m (PyDict sd))) (PyDict sd)
  = load_state_dict m (PyDict sd).
Proof.
  intros Hr Ht.
  pose proof (load_state_dict_layout m (PyDict sd)) as HL.
  rewrite (load_state_dict_spec _ _ Hr (tensors_only_loadable _ _ Ht)) in *.
  cbn [fst] in *.
  rewrite (load_state_dict_spec _ _ (ranked_layout _ _ Hr HL)
             (tensors_only_loadable _ _ Ht)).
  unfold outcome. rewrite assign_Network_idem, (report_layout _ _ _ HL).
  reflexivity.
Qed.

Lemma load_state_dict_twice_witness :
  load_state_dict
    (fst (load_state_dict fresh_4_5_2 (py_state_dict model_4_3_2)))
    (py_state_dict model_4_3_2)
  = load_state_dict fresh_4_5_2 (py_state_dict model_4_3_2).
Proof.
  apply (load_state_dict_twice fresh_4_5_2 (py_tensors (state_dict model_4_3_2))).
  - repeat constructor; discriminate.
  - unfold tensors_only. simpl.
    repeat (constructor; [eexists; reflexivity|]). constructor.
Defined.

(** ** "Only if the model architecture is exactly the same" *)

Lemma stored_shape_unique sd key s1 s2 :
  stored_shape sd key s1 -> stored_shape sd key s2 -> s1 = s2.
Proof. intros (t1 & E1 & <-) (t2 & E2 & <-). congruence. Qed.

Lemma load_Ok_iff i o hidden (m : Network) i' o' hidden' (f : Network) :
  has_architecture i o hidden m ->
  has_architecture i' o' hidden' f ->
  (exists f' keys, load_state_dict f (py_state_dict m) = (f', Ok keys))
  <-> (i' = i /\ o' = o /\ hidden' = hidden).
Proof.
  intros Hm Hf. split.
  - intros (f' & keys & EL). unfold py_state_dict in EL.
    apply load_state_dict_Ok in EL as (sd & Esd & _ & Hr & _ & HL);
      [|eapply has_architecture_ranked, Hf].
    injection Esd as <-.
    assert (Hh : hidden = hidden')
      by (eapply clean_report_same_widths; eassumption).
    subst hidden'.
    assert (Hst : stored_for (py_tensors (state_dict m)) (state_dict f)).
    { apply clean_stored_for; [exact HL|..].
      - change (missing_keys (report (py_tensors (state_dict m)) f) = []).
        now rewrite Hr.
      - change (error_msgs (report (py_tensors (state_dict m)) f) = []).
        now rewrite Hr. }
    destruct (stored_for_consistent _ _ _ _ _ Hf Hst) as (Fh & _ & Fb).
    destruct (state_dict_consistent _ _ _ _ Hm) as (Mh & _ & Mb).
    pose proof (stored_shape_unique _ _ _ _ Mb Fb) as Eo.
    destruct hidden as [|h hs]; [destruct Hm as [Hne _]; congruence|].
    destruct (Fh 0%nat h eq_refl) as [Fw _].
    destruct (Mh 0%nat h eq_refl) as [Mw _].
    pose proof (stored_shape_unique _ _ _ _ Mw Fw) as Ei.
    cbn [previous_width] in Ei. split; [|split]; congruence.
  - intros (-> & -> & ->). exists m, ([], []).
    eapply load_state_dict_same_architecture; eassumption.
Qed.

(** X13.  The state dictionary of one model loads into another model
    without error exactly when the two have the same input width, the
    same output width and the same hidden widths. *)
Theorem load_succeeds_iff_same_architecture
    i o hidden (m : Network) i' o' hidden' (f : Network) :
  has_architecture i o hidden m ->
  has_architecture i' o' hidden' f ->
  (exists f' keys, load_state_dict f (py_state_dict m) = (f', Ok keys))
  <-> (i' = i /\ o' = o /\ hidden' = hidden).
Proof. apply load_Ok_iff. Qed.

Lemma load_succeeds_iff_same_architecture_witness :
  (exists f' keys,
     load_state_dict fresh_4_5_2 (py_state_dict model_4_3_2) = (f', Ok keys))
  <-> (4 = 4 /\ 2 = 2 /\ [5] = [3]).
Proof.
  apply (load_succeeds_iff_same_architecture 4 2 [3] model_4_3_2
           4 2 [5] fresh_4_5_2).
  - repeat split. discriminate.
  - repeat split. discriminate.
Defined.

(** X14.  The record the writer of cell 11 makes of the current model is
    accepted by the loader exactly when the model has 784 inputs and 10
    outputs, the two widths the writer records whatever the model is. *)
Theorem writer_record_accepted_iff (w : World) (m : Network) i o hidden :
  var_model w = Some m ->
  valid_widths i o hidden ->
  has_architecture i o hidden m ->
  (exists m' w2,
     load_checkpoint "checkpoint.pth" (snd (cell_11 w)) = (Ok m', w2))
  <-> (i = 784 /\ o = 10).
Proof.
  intros Hm Hv Ha. rewrite (cell_11_writes w m Hm). cbn [snd].
  set (w1 := set_files w (("checkpoint.pth", checkpoint m) :: files w)).
  split.
  - intros (m' & w2 & HL).
    apply load_checkpoint_Ok in HL
      as (rec & vi & vo & vh & vs & i' & o' & hs & f & keys
          & Hf & Hi & Ho & Hh & Hs & Ei & Eo & Eh & EN & EL).
    injection Hf as <-.
    injection Hi as <-. injection Ho as <-. injection Hh as <-.
    injection Hs as <-. injection Ei as <-. injection Eo as <-.
    rewrite (hidden_layers_field hidden i (hidden_layers m)) in Eh
      by apply Ha.
    injection Eh as <-.
    apply Network_init_architecture in EN.
    destruct (proj1 (load_Ok_iff _ _ _ _ _ _ _ _ Ha EN)) as (E1 & E2 & _);
      [eauto | auto].
  - intros [-> ->].
    destruct (writer_record_loads "checkpoint.pth" w1 m hidden Hv Ha eq_refl)
      as (w2 & HL).
    eauto.
Qed.

Lemma writer_record_accepted_iff_witness :
  (exists m' w2,
     load_checkpoint "checkpoint.pth" (snd (cell_11 (world_with model_6_2_10)))
     = (Ok m', w2))
  <-> (6 = 784 /\ 10 = 10).
Proof.
  apply (writer_record_accepted_iff (world_with model_6_2_10) model_6_2_10
           6 10 [2]).
  - reflexivity.
  - repeat split; try lia. repeat constructor.
  - repeat split. discriminate.
Defined.
